(** * Idea Bird: chat persistence, completion relay and dashboard state

    A shallow embedding of the four source files of the application:

    - [src/app/api/chat/route.ts]   the persistence endpoint ([ChatRoute]);
    - [src/utils/s3.ts]             the browser-side facade ([Facade]);
    - the Gemini endpoint           the prompt composition and the stream
                                    relay ([GeminiRoute]);
    - [src/app/dashboard/page.tsx]  the dashboard view-model ([Dashboard]).

    JavaScript strings are modelled by [string]: a text is represented by the
    bytes of its UTF-8 encoding.  The collaborators the code calls (the JSON
    codec, the object store, the session query, the text-generation provider)
    are modelled next to the code that uses them. *)

From Stdlib Require Import ZArith Ascii String List Lia.
From Stdlib Require Import Strings.Byte.
From stdpp Require Import base option list strings gmap pretty sorting.

Open Scope stdpp_scope.

(* ===================================================================== *)
(** ** JavaScript strings *)
(* ===================================================================== *)

Module Js.

(** The double quote, written by its code. *)
Definition dquote : ascii := "034".

Definition str (c : ascii) : string := String c "".

(** [s.startsWith(p)], returning what follows the prefix. *)
Fixpoint strip_prefix (p s : string) : option string :=
  match p with
  | "" => Some s
  | String a p' =>
      match s with
      | String b s' => if Ascii.eqb a b then strip_prefix p' s' else None
      | "" => None
      end
  end.

Definition startsWith (s p : string) : bool :=
  match strip_prefix p s with Some _ => true | None => false end.

(** [parts.join(sep)]. *)
Fixpoint join (sep : string) (parts : list string) : string :=
  match parts with
  | [] => ""
  | p :: rest =>
      match rest with
      | [] => p
      | _ :: _ => p +:+ sep +:+ join sep rest
      end
  end.

(** [s.split(d)] for a one-character separator [d]: the pieces between the
    occurrences of [d]; there is always at least one piece. *)
Fixpoint split_go (d : ascii) (cur : string) (s : string) : list string :=
  match s with
  | "" => [String.rev cur]
  | String c s' =>
      if Ascii.eqb c d then String.rev cur :: split_go d "" s'
      else split_go d (String c cur) s'
  end.

Definition split (d : ascii) (s : string) : list string := split_go d "" s.

Definition nl : string := String "010" "".

(** [s.includes(d)] for a character [d]. *)
Fixpoint includes (d : ascii) (s : string) : bool :=
  match s with
  | "" => false
  | String c s' => Ascii.eqb c d || includes d s'
  end.

(** The truth value of a string in a condition: only the empty string is
    falsy. *)
Definition truthy (s : string) : bool :=
  match s with "" => false | String _ _ => true end.

(** [a || b] on strings. *)
Definition or_else (a b : string) : string := if truthy a then a else b.

(** White space as [trim] knows it.  One-byte characters: TAB, LF, VT, FF,
    CR and the space.  Two bytes: U+00A0.  Three bytes: U+1680,
    U+2000..U+200A, U+2028, U+2029, U+202F, U+205F, U+3000 and U+FEFF. *)
Definition is_space1 (a : ascii) : bool :=
  let n := N_of_ascii a in ((9 <=? n) && (n <=? 13) || (n =? 32))%N.

Definition is_space2 (a b : ascii) : bool :=
  ((N_of_ascii a =? 194) && (N_of_ascii b =? 160))%N.

Definition is_space3 (a b c : ascii) : bool :=
  let x := N_of_ascii a in
  let y := N_of_ascii b in
  let z := N_of_ascii c in
  ((x =? 225) && (y =? 154) && (z =? 128)
   || (x =? 226) && (y =? 128) && ((128 <=? z) && (z <=? 138) || (z =? 168) || (z =? 169) || (z =? 175))
   || (x =? 226) && (y =? 129) && (z =? 159)
   || (x =? 227) && (y =? 128) && (z =? 128)
   || (x =? 239) && (y =? 187) && (z =? 191))%N.

(** [s.trimStart()] *)
Fixpoint trimStart (s : string) : string :=
  match s with
  | "" => ""
  | String a r =>
      if is_space1 a then trimStart r
      else
        match r with
        | "" => s
        | String b r2 =>
            if is_space2 a b then trimStart r2
            else
              match r2 with
              | "" => s
              | String c r3 => if is_space3 a b c then trimStart r3 else s
              end
        end
  end.

(** [trimStart] on the reversed text: the bytes of a character come last
    byte first. *)
Fixpoint trimStart_rev (s : string) : string :=
  match s with
  | "" => ""
  | String a r =>
      if is_space1 a then trimStart_rev r
      else
        match r with
        | "" => s
        | String b r2 =>
            if is_space2 b a then trimStart_rev r2
            else
              match r2 with
              | "" => s
              | String c r3 => if is_space3 c b a then trimStart_rev r3 else s
              end
        end
  end.

(** [s.trimEnd()] *)
Definition trimEnd (s : string) : string := String.rev (trimStart_rev (String.rev s)).

(** [s.trim()] *)
Definition trim (s : string) : string := trimEnd (trimStart s).

(** [xs.slice(-n)]: the last [n] elements. *)
Definition slice_last {A} (n : nat) (xs : list A) : list A := drop (length xs - n) xs.

(** U+FEFF at the head of a text, which a UTF-8 decoder drops. *)
Definition BOM : string := String "239" (String "187" (String "191" "")).

Definition strip_bom (s : string) : string :=
  match strip_prefix BOM s with
  | Some r => r
  | None => s
  end.

(** U+FFFD, which a UTF-8 decoder puts for bytes that are no character. *)
Definition replacement (k : string) : string :=
  String "239" (String "191" (String "189" k)).

Definition between (lo hi : N) (a : ascii) : bool :=
  let n := N_of_ascii a in ((lo <=? n) && (n <=? hi))%N.

(** The UTF-8 decoder on a sequence of bytes, met here as the text a
    string holds when its bytes are arbitrary: a well-formed character is
    kept; a byte that cannot start a character, and a character cut short
    (by a byte that cannot continue it or by the end), give one U+FFFD,
    and decoding goes on with the byte that did not fit. *)
Fixpoint utf8_replace (s : string) : string :=
  match s with
  | "" => ""
  | String a r =>
      let x := N_of_ascii a in
      if (x <? 128)%N then String a (utf8_replace r)
      else if between 194 223 a then
        match r with
        | String b r1 =>
            if between 128 191 b then String a (String b (utf8_replace r1))
            else replacement (utf8_replace r)
        | "" => replacement ""
        end
      else if between 224 239 a then
        let lo := if (x =? 224)%N then 160%N else 128%N in
        let hi := if (x =? 237)%N then 159%N else 191%N in
        match r with
        | String b r1 =>
            if between lo hi b then
              match r1 with
              | String c r2 =>
                  if between 128 191 c then String a (String b (String c (utf8_replace r2)))
                  else replacement (utf8_replace r1)
              | "" => replacement ""
              end
            else replacement (utf8_replace r)
        | "" => replacement ""
        end
      else if between 240 244 a then
        let lo := if (x =? 240)%N then 144%N else 128%N in
        let hi := if (x =? 244)%N then 143%N else 191%N in
        match r with
        | String b r1 =>
            if between lo hi b then
              match r1 with
              | String c r2 =>
                  if between 128 191 c then
                    match r2 with
                    | String d r3 =>
                        if between 128 191 d then
                          String a (String b (String c (String d (utf8_replace r3))))
                        else replacement (utf8_replace r2)
                    | "" => replacement ""
                    end
                  else replacement (utf8_replace r1)
              | "" => replacement ""
              end
            else replacement (utf8_replace r)
        | "" => replacement ""
        end
      else replacement (utf8_replace r)
  end.

(** [new TextDecoder().decode(bytes)], each call on its own: the bytes are
    decoded as above and a U+FEFF at the head is dropped. *)
Definition TextDecoder_decode (bytes : string) : string := strip_bom (utf8_replace bytes).

(** The result of a call that may throw; an error is represented by its
    message. *)
Inductive Outcome (A : Type) : Type :=
| Returned (a : A)
| Thrown (message : string).
Arguments Returned {A} a.
Arguments Thrown {A} message.

End Js.

(* ===================================================================== *)
(** ** The JSON codec ([JSON.stringify], [JSON.parse]) *)
(* ===================================================================== *)

Module JSON.

(** *** Numerals *)

(** A number is kept as the numeral that writes it, in the shape the JSON
    grammar gives a numeral: a sign, a whole part without a superfluous
    zero, digits after a point, an exponent.  JavaScript holds the value
    of the numeral and writes the value back in its shortest form, so that
    [1.0] or [1e2] come back as [1] and [100]; on the numerals JavaScript
    writes itself the two agree.  The application computes with no number
    (time stamps travel as ISO strings). *)
Inductive digit := D0 | D1 | D2 | D3 | D4 | D5 | D6 | D7 | D8 | D9.

Inductive nonzero := P1 | P2 | P3 | P4 | P5 | P6 | P7 | P8 | P9.

Inductive Whole :=
| Zero
| Leading (first : nonzero) (rest : list digit).

Record Exponent := {
  capital : bool;
  sign : option bool;
  power : digit * list digit
}.

Record Numeral := {
  negative : bool;
  whole : Whole;
  fraction : option (digit * list digit);
  exponent : option Exponent
}.

Definition digit_char (d : digit) : ascii :=
  match d with
  | D0 => "0" | D1 => "1" | D2 => "2" | D3 => "3" | D4 => "4"
  | D5 => "5" | D6 => "6" | D7 => "7" | D8 => "8" | D9 => "9"
  end.

Definition nonzero_char (p : nonzero) : ascii :=
  match p with
  | P1 => "1" | P2 => "2" | P3 => "3" | P4 => "4" | P5 => "5"
  | P6 => "6" | P7 => "7" | P8 => "8" | P9 => "9"
  end.

Definition char_digit (c : ascii) : option digit :=
  match N_of_ascii c with
  | 48%N => Some D0 | 49%N => Some D1 | 50%N => Some D2 | 51%N => Some D3 | 52%N => Some D4
  | 53%N => Some D5 | 54%N => Some D6 | 55%N => Some D7 | 56%N => Some D8 | 57%N => Some D9
  | _ => None
  end.

Definition char_nonzero (c : ascii) : option nonzero :=
  match N_of_ascii c with
  | 49%N => Some P1 | 50%N => Some P2 | 51%N => Some P3 | 52%N => Some P4 | 53%N => Some P5
  | 54%N => Some P6 | 55%N => Some P7 | 56%N => Some P8 | 57%N => Some P9
  | _ => None
  end.

Fixpoint digits_text (ds : list digit) (k : string) : string :=
  match ds with
  | [] => k
  | d :: ds => String (digit_char d) (digits_text ds k)
  end.

Definition whole_text (w : Whole) (k : string) : string :=
  match w with
  | Zero => String "0" k
  | Leading p ds => String (nonzero_char p) (digits_text ds k)
  end.

Definition fraction_text (f : option (digit * list digit)) (k : string) : string :=
  match f with
  | Some (d, ds) => String "." (digits_text (d :: ds) k)
  | None => k
  end.

Definition sign_text (sg : option bool) (k : string) : string :=
  match sg with
  | Some true => String "+" k
  | Some false => String "-" k
  | None => k
  end.

Definition exponent_text (e : option Exponent) (k : string) : string :=
  match e with
  | Some e =>
      String (if capital e then "E" else "e")
        (sign_text (sign e) (digits_text (fst (power e) :: snd (power e)) k))
  | None => k
  end.

(** The numeral as a text, followed by [k]. *)
Definition numeral_text (n : Numeral) (k : string) : string :=
  let body := whole_text (whole n) (fraction_text (fraction n) (exponent_text (exponent n) k)) in
  if negative n then String "-" body else body.

(** The digits a text starts with. *)
Fixpoint parse_digits (s : string) : list digit * string :=
  match s with
  | "" => ([], "")
  | String c r =>
      match char_digit c with
      | Some d => let '(ds, k) := parse_digits r in (d :: ds, k)
      | None => ([], s)
      end
  end.

Definition parse_digits1 (s : string) : option ((digit * list digit) * string) :=
  match parse_digits s with
  | (d :: ds, k) => Some ((d, ds), k)
  | ([], _) => None
  end.

Definition parse_whole (s : string) : option (Whole * string) :=
  match s with
  | "" => None
  | String c r =>
      if Ascii.eqb c "0" then Some (Zero, r)
      else
        match char_nonzero c with
        | Some p => let '(ds, k) := parse_digits r in Some (Leading p ds, k)
        | None => None
        end
  end.

Definition parse_fraction (s : string) : option (option (digit * list digit) * string) :=
  match s with
  | String c r =>
      if Ascii.eqb c "." then
        match parse_digits1 r with
        | Some (f, k) => Some (Some f, k)
        | None => None
        end
      else Some (None, s)
  | "" => Some (None, s)
  end.

Definition parse_sign (s : string) : option bool * string :=
  match s with
  | String c r =>
      if Ascii.eqb c "+" then (Some true, r)
      else if Ascii.eqb c "-" then (Some false, r)
      else (None, s)
  | "" => (None, s)
  end.

Definition parse_exponent (s : string) : option (option Exponent * string) :=
  match s with
  | String c r =>
      if Ascii.eqb c "e" || Ascii.eqb c "E" then
        let '(sg, r') := parse_sign r in
        match parse_digits1 r' with
        | Some (p, k) =>
            Some (Some {| capital := Ascii.eqb c "E"; sign := sg; power := p |}, k)
        | None => None
        end
      else Some (None, s)
  | "" => Some (None, s)
  end.

(** A numeral at the head of a text, and what follows it. *)
Definition parse_number (s : string) : option (Numeral * string) :=
  let '(neg, s1) :=
    match s with
    | String c r => if Ascii.eqb c "-" then (true, r) else (false, s)
    | "" => (false, s)
    end in
  match parse_whole s1 with
  | None => None
  | Some (w, s2) =>
      match parse_fraction s2 with
      | None => None
      | Some (f, s3) =>
          match parse_exponent s3 with
          | None => None
          | Some (e, s4) =>
              Some ({| negative := neg; whole := w; fraction := f; exponent := e |}, s4)
          end
      end
  end.

(** *** Values *)

(** JavaScript values that travel as JSON.  An object is the list of its
    fields in insertion order. *)
#[local] Unset Elimination Schemes.
Inductive json : Type :=
| JNull
| JBool (b : bool)
| JNumber (n : Numeral)
| JString (s : string)
| JArray (xs : list json)
| JObject (fields : list (string * json)).
#[local] Set Elimination Schemes.

(** Property access [o.k]: [None] stands for [undefined].  When a key
    occurs twice the last occurrence wins, as [JSON.parse] has it. *)
Fixpoint lookup_field (k : string) (fields : list (string * json)) : option json :=
  match fields with
  | [] => None
  | (k', v) :: rest =>
      match lookup_field k rest with
      | Some w => Some w
      | None => if String.eqb k k' then Some v else None
      end
  end.

Definition get (k : string) (v : json) : option json :=
  match v with
  | JObject fields => lookup_field k fields
  | _ => None
  end.

(** *** Serialization *)

Definition hex_digit (n : N) : ascii :=
  match n with
  | 0%N => "0" | 1%N => "1" | 2%N => "2" | 3%N => "3" | 4%N => "4"
  | 5%N => "5" | 6%N => "6" | 7%N => "7" | 8%N => "8" | 9%N => "9"
  | 10%N => "a" | 11%N => "b" | 12%N => "c" | 13%N => "d" | 14%N => "e"
  | _ => "f"
  end.

(** [QuoteJSONString] on one character: the quote and the reverse solidus
    are escaped, control characters below U+0020 take their short form or
    [\u00xx], everything else is copied. *)
Definition escape_char (c : ascii) : string :=
  if Ascii.eqb c Js.dquote then String "\" (Js.str Js.dquote)
  else if Ascii.eqb c "\" then "\\"
  else if Ascii.eqb c "008" then "\b"
  else if Ascii.eqb c "012" then "\f"
  else if Ascii.eqb c "010" then "\n"
  else if Ascii.eqb c "013" then "\r"
  else if Ascii.eqb c "009" then "\t"
  else if (N_of_ascii c <? 32)%N then
    "\u00" +:+ String (hex_digit (N_of_ascii c / 16)) (Js.str (hex_digit (N_of_ascii c mod 16)))
  else Js.str c.

Fixpoint escape (s : string) : string :=
  match s with
  | "" => ""
  | String c s' => escape_char c +:+ escape s'
  end.

Definition quote (s : string) : string :=
  String Js.dquote (escape s +:+ Js.str Js.dquote).

Fixpoint stringify (v : json) : string :=
  match v with
  | JNull => "null"
  | JBool true => "true"
  | JBool false => "false"
  | JNumber n => numeral_text n ""
  | JString s => quote s
  | JArray xs => "[" +:+ Js.join "," (List.map stringify xs) +:+ "]"
  | JObject fields =>
      "{" +:+ Js.join "," (List.map (fun kv => quote (fst kv) +:+ ":" +:+ stringify (snd kv)) fields) +:+ "}"
  end.

(** *** Parsing *)

Definition is_ws (c : ascii) : bool :=
  Ascii.eqb c " " || Ascii.eqb c "009" || Ascii.eqb c "010" || Ascii.eqb c "013".

Fixpoint skip_ws (s : string) : string :=
  match s with
  | "" => ""
  | String c s' => if is_ws c then skip_ws s' else s
  end.

Definition hex_value (c : ascii) : option N :=
  let n := N_of_ascii c in
  if ((48 <=? n) && (n <=? 57))%N then Some (n - 48)%N
  else if ((97 <=? n) && (n <=? 102))%N then Some (n - 87)%N
  else if ((65 <=? n) && (n <=? 70))%N then Some (n - 55)%N
  else None.

Definition hex4 (a b c d : ascii) : option N :=
  h1 ← hex_value a; h2 ← hex_value b; h3 ← hex_value c; h4 ← hex_value d;
  Some (((h1 * 16 + h2) * 16 + h3) * 16 + h4)%N.

(** The UTF-8 bytes of a code point. *)
Definition utf8 (u : N) (k : string) : string :=
  if (u <? 128)%N then String (ascii_of_N u) k
  else if (u <? 2048)%N then
    String (ascii_of_N (192 + u / 64)) (String (ascii_of_N (128 + u mod 64)) k)
  else if (u <? 65536)%N then
    String (ascii_of_N (224 + u / 4096))
      (String (ascii_of_N (128 + (u / 64) mod 64)) (String (ascii_of_N (128 + u mod 64)) k))
  else
    String (ascii_of_N (240 + u / 262144))
      (String (ascii_of_N (128 + (u / 4096) mod 64))
         (String (ascii_of_N (128 + (u / 64) mod 64)) (String (ascii_of_N (128 + u mod 64)) k))).

Definition is_high_surrogate (u : N) : bool := ((55296 <=? u) && (u <=? 56319))%N.
Definition is_low_surrogate (u : N) : bool := ((56320 <=? u) && (u <=? 57343))%N.

(** The characters of a string literal after its opening quote, up to the
    closing quote; the result is the string and what follows the literal.
    A [\u] escape yields the UTF-8 bytes of its code point; a surrogate
    pair is one code point, and a surrogate that is not part of a pair
    yields U+FFFD, its rendering in UTF-8. *)
Fixpoint parse_chars (s : string) : option (string * string) :=
  match s with
  | "" => None
  | String c r =>
      if Ascii.eqb c Js.dquote then Some ("", r)
      else if Ascii.eqb c "\" then
        match r with
        | "" => None
        | String e r1 =>
            let simple (x : ascii) :=
              '(t, k) ← parse_chars r1; Some (String x t, k) in
            if Ascii.eqb e Js.dquote then simple Js.dquote
            else if Ascii.eqb e "\" then simple "\"%char
            else if Ascii.eqb e "/" then simple "/"%char
            else if Ascii.eqb e "b" then simple "008"%char
            else if Ascii.eqb e "f" then simple "012"%char
            else if Ascii.eqb e "n" then simple "010"%char
            else if Ascii.eqb e "r" then simple "013"%char
            else if Ascii.eqb e "t" then simple "009"%char
            else if Ascii.eqb e "u" then
              match r1 with
              | String a (String b (String c' (String d r2))) =>
                  u ← hex4 a b c' d;
                  if is_high_surrogate u then
                    match r2 with
                    | String e1 (String e2 (String a' (String b' (String c'' (String d' r3))))) =>
                        if negb (Ascii.eqb e1 "\" && Ascii.eqb e2 "u") then
                          '(t, k) ← parse_chars r2; Some (utf8 65533 t, k)
                        else
                        match hex4 a' b' c'' d' with
                        | Some l =>
                            if is_low_surrogate l then
                              '(t, k) ← parse_chars r3;
                              Some (utf8 (65536 + (u - 55296) * 1024 + (l - 56320)) t, k)
                            else
                              '(t, k) ← parse_chars r2; Some (utf8 65533 t, k)
                        | None => None
                        end
                    | _ => '(t, k) ← parse_chars r2; Some (utf8 65533 t, k)
                    end
                  else if is_low_surrogate u then
                    '(t, k) ← parse_chars r2; Some (utf8 65533 t, k)
                  else
                    '(t, k) ← parse_chars r2; Some (utf8 u t, k)
              | _ => None
              end
            else None
        end
      else if (N_of_ascii c <? 32)%N then None
      else '(t, k) ← parse_chars r; Some (String c t, k)
  end.

Fixpoint parse_value (fuel : nat) (s : string) : option (json * string) :=
  match fuel with
  | O => None
  | S fuel =>
      match skip_ws s with
      | "" => None
      | String c r =>
          if Ascii.eqb c "n" then r' ← Js.strip_prefix "ull" r; Some (JNull, r')
          else if Ascii.eqb c "t" then r' ← Js.strip_prefix "rue" r; Some (JBool true, r')
          else if Ascii.eqb c "f" then r' ← Js.strip_prefix "alse" r; Some (JBool false, r')
          else if Ascii.eqb c Js.dquote then '(t, r') ← parse_chars r; Some (JString t, r')
          else if Ascii.eqb c "[" then
            match Js.strip_prefix "]" (skip_ws r) with
            | Some r' => Some (JArray [], r')
            | None => '(xs, r') ← parse_elements fuel r; Some (JArray xs, r')
            end
          else if Ascii.eqb c "{" then
            match Js.strip_prefix "}" (skip_ws r) with
            | Some r' => Some (JObject [], r')
            | None => '(fs, r') ← parse_members fuel r; Some (JObject fs, r')
            end
          else if Ascii.eqb c "-" || Js.between 48 57 c then
            '(n, r') ← parse_number (String c r); Some (JNumber n, r')
          else None
      end
  end
with parse_elements (fuel : nat) (s : string) : option (list json * string) :=
  match fuel with
  | O => None
  | S fuel =>
      '(v, r) ← parse_value fuel s;
      match skip_ws r with
      | "" => None
      | String c r' =>
          if Ascii.eqb c "," then '(vs, k) ← parse_elements fuel r'; Some (v :: vs, k)
          else if Ascii.eqb c "]" then Some ([v], r')
          else None
      end
  end
with parse_members (fuel : nat) (s : string) : option (list (string * json) * string) :=
  match fuel with
  | O => None
  | S fuel =>
      r0 ← Js.strip_prefix (Js.str Js.dquote) (skip_ws s);
      '(key, r1) ← parse_chars r0;
      r2 ← Js.strip_prefix ":" (skip_ws r1);
      '(v, r3) ← parse_value fuel r2;
      match skip_ws r3 with
      | "" => None
      | String c r' =>
          if Ascii.eqb c "," then '(fs, k) ← parse_members fuel r'; Some ((key, v) :: fs, k)
          else if Ascii.eqb c "}" then Some ([(key, v)], r')
          else None
      end
  end.

(** The number of calls the descent makes on the text of a value. *)
Fixpoint size (v : json) : nat :=
  match v with
  | JArray xs => S (list_sum (List.map (fun x => S (size x)) xs))
  | JObject fields => S (list_sum (List.map (fun kv => S (size (snd kv))) fields))
  | _ => 1
  end.

(** [JSON.parse(text)]: one value, then nothing but white space; [None] is
    the [SyntaxError].  Each call of the descent spends one unit of fuel
    and the text's length bounds their number. *)
Definition parse (text : string) : option json :=
  '(v, r) ← parse_value (S (String.length text)) text;
  match skip_ws r with
  | "" => Some v
  | String _ _ => None
  end.

End JSON.


(* ===================================================================== *)
(** ** The object store collaborator *)
(* ===================================================================== *)

Module S3.

(** A bucket maps keys to blobs.  The three commands the code sends are
    modelled as the service documents them. *)
Abbreviation Bucket := (gmap string string).

(** [PutObjectCommand]: overwrites. *)
Definition putObject (key body : string) (b : Bucket) : Bucket := <[key := body]> b.

(** [GetObjectCommand]: the body, or the [NoSuchKey] error. *)
Definition getObject (key : string) (b : Bucket) : Js.Outcome string :=
  match b !! key with
  | Some body => Js.Returned body
  | None => Js.Thrown "NoSuchKey"
  end.

(** The part of [s] up to and including the first [d]. *)
Fixpoint through_delimiter (d : ascii) (s : string) : option string :=
  match s with
  | "" => None
  | String c s' =>
      if Ascii.eqb c d then Some (Js.str c)
      else t ← through_delimiter d s'; Some (String c t)
  end.

(** The common prefix a key is rolled up into, when it has one: the key
    starts with [prefix] and the delimiter occurs after it. *)
Definition commonPrefix (prefix : string) (d : ascii) (key : string) : option string :=
  rest ← Js.strip_prefix prefix key;
  t ← through_delimiter d rest;
  Some (prefix +:+ t).

(** What a listing returns for a key: the key itself, or the common
    prefix it is rolled up into. *)
Inductive Entry :=
| Content (key : string)
| CommonPrefix (prefix : string).

#[global] Instance Entry_eq_dec : EqDecision Entry.
Proof. solve_decision. Defined.

Definition entry (prefix : string) (d : ascii) (key : string) : Entry :=
  match commonPrefix prefix d key with
  | Some cp => CommonPrefix cp
  | None => Content key
  end.

(** The order of keys in a listing: the order of their bytes. *)
Definition before (k1 k2 : string) : Prop := String.leb k1 k2 = true.

#[global] Instance before_dec : RelDecision before.
Proof. intros k1 k2. unfold before. apply _. Defined.

(** The keys of the bucket that start with [prefix], in the order the
    store lists them in. *)
Definition keysUnder (prefix : string) (b : Bucket) : list string :=
  merge_sort before
    (filter (fun k => Js.startsWith k prefix = true) (map fst (map_to_list b))).

(** The whole listing under [prefix] with delimiter [d]: every key or its
    common prefix, each common prefix once. *)
Definition listing (prefix : string) (d : ascii) (b : Bucket) : list Entry :=
  remove_dups (entry prefix d <$> keysUnder prefix b).

(** One answer holds [MaxKeys] entries at most, one thousand when the
    request does not say. *)
Definition MaxKeys : nat := 1000.

Definition isCommonPrefix (e : Entry) : option string :=
  match e with
  | CommonPrefix cp => Some cp
  | Content _ => None
  end.

(** [ListObjectsV2Command] with [Prefix] and [Delimiter], sent once: the
    common prefixes among the first [MaxKeys] entries of the listing.  What
    lies beyond comes with a continuation token only. *)
Definition listCommonPrefixes (prefix : string) (d : ascii) (b : Bucket) : list string :=
  omap isCommonPrefix (take MaxKeys (listing prefix d b)).

End S3.

(* ===================================================================== *)
(** ** The persistence endpoint: src/app/api/chat/route.ts *)
(* ===================================================================== *)

Module ChatRoute.
Import JSON.

(** What [currentUser()] yields when somebody is signed in. *)
Record User := { id : string }.

(** [NextResponse.json(value, { status })] as it goes on the wire. *)
Record Response := { status : nat; body : string }.

Definition NextResponse_json (value : json) (status : nat) : Response :=
  {| status := status; body := stringify value |}.

(** [response.ok]. *)
Definition ok (r : Response) : bool := (200 <=? status r) && (status r <=? 299).

(** The string a value yields inside a template literal.  An array joins
    the strings of its elements, [null] counting for nothing.  An object
    yields [[object Object]] through the [toString] it inherits; a field
    of its own named [toString] hides that one and, being no function,
    leaves the conversion without a result: a [TypeError].  A number is
    given by the numeral it was read from, which is its string when the
    numeral is written the way JavaScript writes the number. *)
Fixpoint toString (v : json) : Js.Outcome string :=
  match v with
  | JNull => Js.Returned "null"
  | JBool true => Js.Returned "true"
  | JBool false => Js.Returned "false"
  | JNumber n => Js.Returned (numeral_text n "")
  | JString s => Js.Returned s
  | JArray xs =>
      let fix elements (xs : list json) : Js.Outcome (list string) :=
        match xs with
        | [] => Js.Returned []
        | x :: rest =>
            match match x with JNull => Js.Returned "" | _ => toString x end with
            | Js.Thrown e => Js.Thrown e
            | Js.Returned t =>
                match elements rest with
                | Js.Thrown e => Js.Thrown e
                | Js.Returned ts => Js.Returned (t :: ts)
                end
            end
        end in
      match elements xs with
      | Js.Thrown e => Js.Thrown e
      | Js.Returned ts => Js.Returned (Js.join "," ts)
      end
  | JObject fields =>
      match lookup_field "toString" fields with
      | Some _ => Js.Thrown "TypeError"
      | None => Js.Returned "[object Object]"
      end
  end.

(** [`${v}`]; [None] is [undefined]. *)
Definition template (v : option json) : Js.Outcome string :=
  match v with
  | None => Js.Returned "undefined"
  | Some v => toString v
  end.

(** The key of a chat record: [`${user.id}/chats/${chatId}/data.json`]. *)
Definition recordKey (user : User) (chatId : option json) : Js.Outcome string :=
  match template chatId with
  | Js.Thrown e => Js.Thrown e
  | Js.Returned t => Js.Returned (id user +:+ "/chats/" +:+ t +:+ "/data.json")
  end.

(** [req.json()]: the body is decoded as UTF-8, which drops a U+FEFF at its
    head, and parsed; [None] is the [SyntaxError]. *)
Definition req_json (requestBody : string) : option json :=
  parse (Js.strip_bom requestBody).

(** [prefix.Prefix?.split('/')[2] || ''] *)
Definition chatIdOfPrefix (prefix : string) : string :=
  match Js.split "/" prefix !! 2%nat with
  | Some segment => Js.or_else segment ""
  | None => ""
  end.

(** The body of the [try] block, after the session check.  [Thrown] is an
    exception that reaches the [catch]. *)
Definition handle (user : User) (requestBody : string) (b : S3.Bucket)
  : Js.Outcome (Response * S3.Bucket) :=
  match req_json requestBody with
  | None => Js.Thrown "SyntaxError"
  | Some JNull => Js.Thrown "TypeError"
  | Some request =>
      let action := get "action" request in
      let chatId := get "chatId" request in
      let chatData := get "chatData" request in
      let case (label : string) :=
        match action with
        | Some (JString a) => String.eqb a label
        | _ => false
        end in
      if case "save" then
        match recordKey user chatId with
        | Js.Thrown e => Js.Thrown e
        | Js.Returned key =>
            let Body := match chatData with Some d => stringify d | None => "" end in
            Js.Returned (NextResponse_json (JObject [("success", JBool true)]) 200,
                         S3.putObject key Body b)
        end
      else if case "get" then
        match recordKey user chatId with
        | Js.Thrown e => Js.Thrown e
        | Js.Returned getKey =>
            match S3.getObject getKey b with
            | Js.Thrown e => Js.Thrown e
            | Js.Returned data =>
                if Js.truthy data then
                  match parse data with
                  | Some value =>
                      Js.Returned (NextResponse_json (JObject [("data", value)]) 200, b)
                  | None => Js.Thrown "SyntaxError"
                  end
                else Js.Returned (NextResponse_json (JObject [("data", JNull)]) 200, b)
            end
        end
      else if case "list" then
        let prefix := id user +:+ "/chats/" in
        let CommonPrefixes := S3.listCommonPrefixes prefix "/" b in
        let chatIds := filter (fun s => Js.truthy s = true) (List.map chatIdOfPrefix CommonPrefixes) in
        Js.Returned (NextResponse_json (JObject [("chatIds", JArray (List.map JString chatIds))]) 200, b)
      else
        Js.Returned (NextResponse_json (JObject [("error", JString "Invalid action")]) 400, b)
  end.

Definition POST (session : option User) (requestBody : string) (b : S3.Bucket)
  : Response * S3.Bucket :=
  match session with
  | None => (NextResponse_json (JObject [("error", JString "Unauthorized")]) 401, b)
  | Some user =>
      match handle user requestBody b with
      | Js.Returned r => r
      | Js.Thrown _ =>
          (NextResponse_json (JObject [("error", JString "Internal server error")]) 500, b)
      end
  end.

End ChatRoute.

(* ===================================================================== *)
(** ** The browser-side facade: src/utils/s3.ts *)
(* ===================================================================== *)

Module Facade.
Import JSON.

Inductive Role := user | assistant.

Record Message := { role : Role; content : string }.

Record ChatData := {
  id : string;
  messages : list Message;
  createdAt : string;
  updatedAt : string
}.

(** The JavaScript objects these records stand for. *)
Definition Role_js (r : Role) : json :=
  match r with
  | user => JString "user"
  | assistant => JString "assistant"
  end.

Definition Message_js (m : Message) : json :=
  JObject [("role", Role_js (role m)); ("content", JString (content m))].

Definition ChatData_js (d : ChatData) : json :=
  JObject [("id", JString (id d));
           ("messages", JArray (List.map Message_js (messages d)));
           ("createdAt", JString (createdAt d));
           ("updatedAt", JString (updatedAt d))].

(** What the facade talks to: the session the requests travel with and
    the bucket behind the endpoint. *)
Record World := { session : option ChatRoute.User; bucket : S3.Bucket }.

(** [fetch('/api/chat', { method: 'POST', body })] *)
Definition fetch (requestBody : string) (w : World) : ChatRoute.Response * World :=
  let '(response, b) := ChatRoute.POST (session w) requestBody (bucket w) in
  (response, {| session := session w; bucket := b |}).

(** [saveChatToS3]: returns, or throws its one error. *)
Definition saveChatToS3 (userId chatId : string) (chatData : json) (w : World)
  : Js.Outcome unit * World :=
  let '(response, w') :=
    fetch (stringify (JObject [("action", JString "save");
                               ("chatId", JString chatId);
                               ("chatData", chatData)])) w in
  if ChatRoute.ok response then (Js.Returned tt, w')
  else (Js.Thrown "Failed to save chat data", w').

(** [getChatFromS3]: the [data] of the answer ([None] is [undefined]);
    every failure is caught and yields [null]. *)
Definition getChatFromS3 (userId chatId : string) (w : World) : option json * World :=
  let '(response, w') :=
    fetch (stringify (JObject [("action", JString "get");
                               ("chatId", JString chatId)])) w in
  if ChatRoute.ok response then
    match parse (ChatRoute.body response) with
    | None | Some JNull => (Some JNull, w')
    | Some answer => (get "data" answer, w')
    end
  else (Some JNull, w').

(** [listUserChats]: the [chatIds] of the answer; every failure is caught
    and yields the empty array. *)
Definition listUserChats (userId : string) (w : World) : option json * World :=
  let '(response, w') :=
    fetch (stringify (JObject [("action", JString "list")])) w in
  if ChatRoute.ok response then
    match parse (ChatRoute.body response) with
    | None | Some JNull => (Some (JArray []), w')
    | Some answer => (get "chatIds" answer, w')
    end
  else (Some (JArray []), w').

End Facade.


(* ===================================================================== *)
(** ** The generation endpoint: prompt composition and stream relay *)
(* ===================================================================== *)

Module GeminiRoute.
Import Js.

Definition SYSTEM_PROMPT : string :=
  "You are an expert AI Twitter copywriter and creative assistant." +:+ nl +:+
  nl +:+
  "Your role is to help users craft highly engaging, concise, and personalized tweets (under 280 characters) based on detailed input. You must interpret and use all available context to create a compelling tweet aligned with the user's objectives and audience preferences." +:+ nl +:+
  nl +:+
  "Key Requirements:" +:+ nl +:+
  "1. Keep tweets under 280 characters" +:+ nl +:+
  "2. Use the provided tone and style" +:+ nl +:+
  "3. Target the specified audience" +:+ nl +:+
  "4. Make it engaging and shareable" +:+ nl +:+
  "5. Avoid sensitive or controversial content" +:+ nl +:+
  "6. Use emojis sparingly and appropriately" +:+ nl +:+
  nl +:+
  "Return ONLY the tweet text, no explanations or additional text.".

(** The fields the handler takes from the request body; [None] is a field
    that is [null] or missing. *)
Record HistoryMessage := { role : string; content : string }.

Record GenerationRequest := {
  prompt : option string;
  tone : option string;
  goal : option string;
  audience : option string;
  conversationHistory : option (list HistoryMessage)
}.

(** The truth value of an optional string: [null], [undefined] and the
    empty string are falsy. *)
Definition given (v : option string) : bool :=
  match v with
  | Some s => truthy s
  | None => false
  end.

Definition text (v : option string) : string := default "" v.

(** The [forEach] over the conversation history. *)
Fixpoint appendHistory (enhancedPrompt : string) (history : list HistoryMessage) : string :=
  match history with
  | [] => enhancedPrompt
  | msg :: rest =>
      appendHistory
        (enhancedPrompt +:+ (if String.eqb (role msg) "user" then "User" else "Assistant")
           +:+ ": " +:+ content msg +:+ nl)
        rest
  end.

(** The composed instruction, statement by statement. *)
Definition compose (req : GenerationRequest) : string :=
  let enhancedPrompt :=
    SYSTEM_PROMPT +:+ nl +:+ nl +:+ "Create a tweet with the following specifications:" +:+ nl in
  let enhancedPrompt :=
    if given (tone req) then enhancedPrompt +:+ ("Tone: " +:+ text (tone req) +:+ nl)
    else enhancedPrompt in
  let enhancedPrompt :=
    if given (goal req) then enhancedPrompt +:+ ("Goal: " +:+ text (goal req) +:+ nl)
    else enhancedPrompt in
  let enhancedPrompt :=
    if given (audience req) then
      enhancedPrompt +:+ ("Target Audience: " +:+ text (audience req) +:+ nl)
    else enhancedPrompt in
  let enhancedPrompt :=
    match conversationHistory req with
    | Some (msg :: rest) =>
        appendHistory (enhancedPrompt +:+ (nl +:+ "Previous conversation context:" +:+ nl))
          (msg :: rest)
    | _ => enhancedPrompt
    end in
  enhancedPrompt +:+
    (nl +:+ "User's request: " +:+ text (prompt req) +:+ nl +:+ nl +:+
     "Generate a tweet that matches these specifications.").

(** *** The provider *)

(** One item of [result.stream]: [chunk.text()] returns the fragment or
    throws. *)
Inductive Chunk :=
| ChunkText (fragment : string)
| ChunkThrows (message : string).

(** What iterating [result.stream] meets: the end of the generation, a
    failure, or a chunk and then the rest. *)
Inductive ResultStream :=
| StreamEnd
| StreamFails (message : string)
| StreamChunk (chunk : Chunk) (rest : ResultStream).

(** [model.generateContentStream(prompt)]: the call is rejected or yields
    a stream. *)
Definition Provider := string -> Outcome ResultStream.

(** *** The stream handed to the response *)

Inductive StreamState :=
| Readable
| Closed
| Errored (message : string).

(** The controller of the [ReadableStream]: the chunks handed to
    [enqueue] so far, in order, and the state of the stream.  The chunks
    are the record of the calls, not the queue of the stream: a reader
    gets them in this order, and when the stream is put into error the
    ones it has not read yet are dropped. *)
Record Controller := { enqueued : list (list byte); state : StreamState }.

Definition newController : Controller := {| enqueued := []; state := Readable |}.

(** What happens between the provider, the relay and the controller, in
    the order it happens: what the iteration of [result.stream] meets, and
    the calls on the controller that take effect. *)
Inductive Event :=
| ProviderYields (chunk : Chunk)
| ProviderEnds
| ProviderFails (message : string)
| Enqueue (chunk : list byte)
| Close
| Error (message : string).

(** A run of [start]: the controller and the events so far. *)
Record Run := { controller : Controller; events : list Event }.

Definition newRun : Run := {| controller := newController; events := [] |}.

(** Code that acts on the controller and may throw. *)
Definition Action (A : Type) : Type := Run -> Outcome A * Run.

Definition ret {A} (a : A) : Action A := fun c => (Returned a, c).

Definition bind {A B} (m : Action A) (k : A -> Action B) : Action B :=
  fun c =>
    match m c with
    | (Returned a, c') => k a c'
    | (Thrown e, c') => (Thrown e, c')
    end.

Definition throw {A} (message : string) : Action A := fun c => (Thrown message, c).

Definition try_catch {A} (body : Action A) (handler : string -> Action A) : Action A :=
  fun c =>
    match body c with
    | (Returned a, c') => (Returned a, c')
    | (Thrown e, c') => handler e c'
    end.

#[global] Instance Action_ret : MRet Action := @ret.
#[global] Instance Action_bind : MBind Action := fun A B k m => bind m k.

(** An event is put on record. *)
Definition note (e : Event) : Action unit :=
  fun r => (Returned tt, {| controller := controller r; events := events r ++ [e] |}).

(** [controller.enqueue(chunk)]: throws once the stream is not readable. *)
Definition enqueue (chunk : list byte) : Action unit :=
  fun r =>
    let c := controller r in
    match state c with
    | Readable =>
        (Returned tt,
         {| controller := {| enqueued := enqueued c ++ [chunk]; state := Readable |};
            events := events r ++ [Enqueue chunk] |})
    | _ => (Thrown "TypeError", r)
    end.

(** [controller.close()] *)
Definition close : Action unit :=
  fun r =>
    let c := controller r in
    match state c with
    | Readable =>
        (Returned tt,
         {| controller := {| enqueued := enqueued c; state := Closed |};
            events := events r ++ [Close] |})
    | _ => (Thrown "TypeError", r)
    end.

(** [controller.error(e)]: does nothing once the stream is not readable. *)
Definition error (e : string) : Action unit :=
  fun r =>
    let c := controller r in
    match state c with
    | Readable =>
        (Returned tt,
         {| controller := {| enqueued := enqueued c; state := Errored e |};
            events := events r ++ [Error e] |})
    | _ => (Returned tt, r)
    end.

(** [encoder.encode(text)]: the UTF-8 bytes of the text. *)
Definition encode (text : string) : list byte := list_byte_of_string text.

Definition chunk_text (chunk : Chunk) : Action string :=
  match chunk with
  | ChunkText fragment => ret fragment
  | ChunkThrows e => throw e
  end.

(** [for await (const chunk of result.stream) { ... }]: each turn asks the
    stream for its next item and, when that is a chunk, runs the body
    before the stream is asked again. *)
Fixpoint forAwait (stream : ResultStream) : Action unit :=
  match stream with
  | StreamEnd => note ProviderEnds
  | StreamFails e => note (ProviderFails e);; throw e
  | StreamChunk chunk rest =>
      note (ProviderYields chunk);;
      text ← chunk_text chunk;
      enqueue (encode text);;
      forAwait rest
  end.

(** [await model.generateContentStream(enhancedPrompt)] *)
Definition generateContentStream (model : Provider) (enhancedPrompt : string)
  : Action ResultStream :=
  match model enhancedPrompt with
  | Returned result => ret result
  | Thrown e => note (ProviderFails e);; throw e
  end.

(** The [start] method of the stream. *)
Definition start (model : Provider) (enhancedPrompt : string) : Action unit :=
  try_catch
    (result ← generateContentStream model enhancedPrompt;
     forAwait result;;
     close)
    (fun e => error e).

(** What the handler answers: a JSON body with a status, or the stream
    (status 200), given here as the controller once [start] has run.  The
    handler is taken from the point where [req.json()] has given an object
    with the fields of the page's request; the answer 500 of its outer
    [catch] (a body that is no JSON text, a history that is no array of
    messages) is not part of this definition. *)
Inductive Reply :=
| ReplyJson (status : nat) (body : JSON.json)
| ReplyStream (controller : Controller).

Definition POST (session : option ChatRoute.User) (req : GenerationRequest) (model : Provider)
  : Reply :=
  match session with
  | None => ReplyJson 401 (JSON.JObject [("error", JSON.JString "Unauthorized")])
  | Some _ =>
      if negb (given (prompt req)) then
        ReplyJson 400 (JSON.JObject [("error", JSON.JString "Prompt is required")])
      else
        ReplyStream (controller (start model (compose req) newRun).2)
  end.

End GeminiRoute.


(* ===================================================================== *)
(** ** The dashboard: src/app/dashboard/page.tsx *)
(* ===================================================================== *)

Module Dashboard.
Import Js.

Abbreviation Message := Facade.Message.

(** A [Date] is its time value, the milliseconds since the epoch. *)
Definition Date := Z.

Definition pad (width : nat) (n : Z) : string :=
  let digits := pretty n in
  String.concat "" (replicate (width - String.length digits) "0") +:+ digits.

(** [date.toISOString()], for the time values the clock yields. *)
Definition toISOString (date : Date) : string :=
  let days := (date / 86400000)%Z in
  let ms := (date mod 86400000)%Z in
  let z := (days + 719468)%Z in
  let era := (z / 146097)%Z in
  let doe := (z - era * 146097)%Z in
  let yoe := ((doe - doe / 1460 + doe / 36524 - doe / 146096) / 365)%Z in
  let doy := (doe - (365 * yoe + yoe / 4 - yoe / 100))%Z in
  let mp := ((5 * doy + 2) / 153)%Z in
  let day := (doy - (153 * mp + 2) / 5 + 1)%Z in
  let month := (if (mp <? 10)%Z then mp + 3 else mp - 9)%Z in
  let year := (yoe + era * 400 + (if (month <=? 2)%Z then 1 else 0))%Z in
  let yyyy :=
    if ((0 <=? year) && (year <=? 9999))%Z then pad 4 year
    else (if (year <? 0)%Z then "-" else "+") +:+ pad 6 (Z.abs year) in
  yyyy +:+ "-" +:+ pad 2 month +:+ "-" +:+ pad 2 day +:+ "T" +:+
  pad 2 (ms / 3600000) +:+ ":" +:+ pad 2 ((ms / 60000) mod 60) +:+ ":" +:+
  pad 2 ((ms / 1000) mod 60) +:+ "." +:+ pad 3 (ms mod 1000) +:+ "Z".

Module Chat.
Record t := {
  id : string;
  messages : list Message;
  createdAt : Date;
  updatedAt : Date
}.
End Chat.
Abbreviation Chat := Chat.t.

Inductive Tone := Tone_None | Funny | Professional | Inspirational | Witty.
Inductive Goal := Goal_None | Engagement | Informative | Promotion.
Inductive Audience := Audience_None | Tech | Marketing | Founders | General.

(** [x === 'None' ? null : x] *)
Definition toneField (t : Tone) : option string :=
  match t with
  | Tone_None => None
  | Funny => Some "Funny"
  | Professional => Some "Professional"
  | Inspirational => Some "Inspirational"
  | Witty => Some "Witty"
  end.

Definition goalField (g : Goal) : option string :=
  match g with
  | Goal_None => None
  | Engagement => Some "Engagement"
  | Informative => Some "Informative"
  | Promotion => Some "Promotion"
  end.

Definition audienceField (a : Audience) : option string :=
  match a with
  | Audience_None => None
  | Tech => Some "Tech"
  | Marketing => Some "Marketing"
  | Founders => Some "Founders"
  | General => Some "General"
  end.

(** The state hooks of the component, as one render sees them. *)
Record State := {
  chats : list Chat;
  currentChatId : string;
  messages : list Message;
  input : string;
  isLoading : bool;
  tone : Tone;
  goal : Goal;
  audience : Audience;
  currentStreamingMessage : string
}.

(** What a handler does: state updates and calls to the outside. *)
Inductive Op :=
| setChats_append (newChat : Chat)
| setChats_replace (chatId : string) (updatedChat : Chat)
| setCurrentChatId (chatId : string)
| setMessages (value : list Message)
| setInput (value : string)
| setIsLoading (value : bool)
| setCurrentStreamingMessage (value : string)
| saveChatToS3 (userId chatId : string) (chatData : Facade.ChatData)
| fetchGemini (request : GeminiRoute.GenerationRequest).

Definition with_chats (f : list Chat -> list Chat) (st : State) : State :=
  {| chats := f (chats st); currentChatId := currentChatId st; messages := messages st;
     input := input st; isLoading := isLoading st; tone := tone st; goal := goal st;
     audience := audience st; currentStreamingMessage := currentStreamingMessage st |}.

Definition with_currentChatId (v : string) (st : State) : State :=
  {| chats := chats st; currentChatId := v; messages := messages st;
     input := input st; isLoading := isLoading st; tone := tone st; goal := goal st;
     audience := audience st; currentStreamingMessage := currentStreamingMessage st |}.

Definition with_messages (v : list Message) (st : State) : State :=
  {| chats := chats st; currentChatId := currentChatId st; messages := v;
     input := input st; isLoading := isLoading st; tone := tone st; goal := goal st;
     audience := audience st; currentStreamingMessage := currentStreamingMessage st |}.

Definition with_input (v : string) (st : State) : State :=
  {| chats := chats st; currentChatId := currentChatId st; messages := messages st;
     input := v; isLoading := isLoading st; tone := tone st; goal := goal st;
     audience := audience st; currentStreamingMessage := currentStreamingMessage st |}.

Definition with_isLoading (v : bool) (st : State) : State :=
  {| chats := chats st; currentChatId := currentChatId st; messages := messages st;
     input := input st; isLoading := v; tone := tone st; goal := goal st;
     audience := audience st; currentStreamingMessage := currentStreamingMessage st |}.

Definition with_currentStreamingMessage (v : string) (st : State) : State :=
  {| chats := chats st; currentChatId := currentChatId st; messages := messages st;
     input := input st; isLoading := isLoading st; tone := tone st; goal := goal st;
     audience := audience st; currentStreamingMessage := v |}.

Definition apply (op : Op) (st : State) : State :=
  match op with
  | setChats_append newChat => with_chats (fun prev => prev ++ [newChat]) st
  | setChats_replace chatId updatedChat =>
      with_chats
        (fun prev => List.map (fun c => if String.eqb (Chat.id c) chatId then updatedChat else c) prev)
        st
  | setCurrentChatId chatId => with_currentChatId chatId st
  | setMessages value => with_messages value st
  | setInput value => with_input value st
  | setIsLoading value => with_isLoading value st
  | setCurrentStreamingMessage value => with_currentStreamingMessage value st
  | saveChatToS3 _ _ _ => st
  | fetchGemini _ => st
  end.

Definition sets_chats (op : Op) : bool :=
  match op with
  | setChats_append _ | setChats_replace _ _ => true
  | _ => false
  end.

Definition is_call (op : Op) : bool :=
  match op with
  | saveChatToS3 _ _ _ | fetchGemini _ => true
  | _ => false
  end.

(** [chats.find(chat => chat.id === chatId)] *)
Definition findChat (chatId : string) (chats : list Chat) : option Chat :=
  List.find (fun chat => String.eqb (Chat.id chat) chatId) chats.

(** The effect on [currentChatId, chats]: show the messages of the
    current chat when there is one. *)
Definition showCurrentChat (st : State) : State :=
  match findChat (currentChatId st) (chats st) with
  | Some currentChat => with_messages (Chat.messages currentChat) st
  | None => st
  end.

(** The updates a handler makes between two suspension points take
    effect together; the effect above runs afterwards when [chats] or
    [currentChatId] changed. *)
Definition commit (batch : list Op) (st : State) : State :=
  let st' := fold_left (fun s op => apply op s) batch st in
  if existsb sets_chats batch || negb (String.eqb (currentChatId st) (currentChatId st'))
  then showCurrentChat st'
  else st'.

(** A handler run to its end with nothing else happening in between. *)
Definition run (script : list (list Op)) (st : State) : State :=
  fold_left (fun s batch => commit batch s) script st.

(** The calls to the outside a handler makes, in order. *)
Definition calls (script : list (list Op)) : list Op :=
  List.filter is_call (concat script).

Definition toChatData (chat : Chat) : Facade.ChatData :=
  {| Facade.id := Chat.id chat;
     Facade.messages := Chat.messages chat;
     Facade.createdAt := toISOString (Chat.createdAt chat);
     Facade.updatedAt := toISOString (Chat.updatedAt chat) |}.

(** [userId] is a non-empty string when somebody is signed in. *)
Definition signedIn (userId : option string) : option string :=
  match userId with
  | Some uid => if truthy uid then Some uid else None
  | None => None
  end.

(** [createNewChat]; the arguments are the three readings of the clock. *)
Definition createNewChat (userId : option string) (now : Z) (created updated : Date)
  : list Op :=
  let newChat :=
    {| Chat.id := pretty now; Chat.messages := [];
       Chat.createdAt := created; Chat.updatedAt := updated |} in
  [setChats_append newChat;
   setCurrentChatId (Chat.id newChat);
   setMessages [];
   setInput "";
   setCurrentStreamingMessage ""] ++
  match signedIn userId with
  | Some uid => [saveChatToS3 uid (Chat.id newChat) (toChatData newChat)]
  | None => []
  end.

(** [saveChat], reading [userId] and [chats] of the render it was made
    in; [now] is the reading of the clock. *)
Definition saveChat (userId : option string) (chats : list Chat)
    (chatId : string) (updatedMessages : list Message) (now : Date) : list Op :=
  match signedIn userId with
  | None => []
  | Some uid =>
      match findChat chatId chats with
      | None => []
      | Some chat =>
          let updatedChat :=
            {| Chat.id := Chat.id chat; Chat.messages := updatedMessages;
               Chat.createdAt := Chat.createdAt chat; Chat.updatedAt := now |} in
          [setChats_replace chatId updatedChat;
           saveChatToS3 uid chatId (toChatData updatedChat)]
      end
  end.

(** What [fetch('/api/gemini')] and the reads of its body come to. *)
Inductive ReadEnd := ReadDone | ReadFails.

Record Body := { chunks : list (list byte); ending : ReadEnd }.

Inductive FetchResult :=
| FetchRejects
| FetchResponds (ok : bool) (body : option Body).

(** [decoder.decode(value)]: every chunk is decoded on its own, so that
    the pieces of a character cut by the end of a chunk come out as
    U+FFFD, and a U+FEFF at the head of a chunk is dropped. *)
Definition decode (value : list byte) : string :=
  TextDecoder_decode (string_of_list_byte value).

(** The [while (true)] loop over [reader.read()]: one update of the
    streaming message for each chunk, and the accumulated message. *)
Fixpoint readAll (accumulatedMessage : string) (values : list (list byte))
  : list (list Op) * string :=
  match values with
  | [] => ([], accumulatedMessage)
  | value :: rest =>
      let accumulatedMessage := accumulatedMessage +:+ decode value in
      let '(updates, final) := readAll accumulatedMessage rest in
      ([setCurrentStreamingMessage accumulatedMessage] :: updates, final)
  end.

(** The [try] block up to the end of the loop. *)
Definition receive (reply : FetchResult) : list (list Op) * Outcome string :=
  match reply with
  | FetchRejects => ([], Thrown "TypeError")
  | FetchResponds false _ => ([], Thrown "Network response was not ok")
  | FetchResponds true None => ([], Thrown "No response body")
  | FetchResponds true (Some body) =>
      let '(updates, accumulatedMessage) := readAll "" (chunks body) in
      match ending body with
      | ReadDone => (updates, Returned accumulatedMessage)
      | ReadFails => (updates, Thrown "TypeError")
      end
  end.

Definition historyMessage (m : Message) : GeminiRoute.HistoryMessage :=
  {| GeminiRoute.role :=
       match Facade.role m with Facade.user => "user" | Facade.assistant => "assistant" end;
     GeminiRoute.content := Facade.content m |}.

Definition apology : string := "Sorry, I encountered an error. Please try again.".

(** [handleSubmit], made in the render [view] with [userId]; [now1] and
    [now2] are the readings of the clock in the two calls of [saveChat]
    and [reply] is what the generation request comes to.  The result is
    the batches of updates and calls, one for each stretch between two
    suspension points. *)
Definition handleSubmit (userId : option string) (view : State) (now1 now2 : Date)
    (reply : FetchResult) : list (list Op) :=
  if negb (truthy (trim (input view))) then []
  else
    let userMessage := {| Facade.role := Facade.user; Facade.content := input view |} in
    let updatedMessages := messages view ++ [userMessage] in
    let request :=
      {| GeminiRoute.prompt := Some (input view);
         GeminiRoute.tone := toneField (tone view);
         GeminiRoute.goal := goalField (goal view);
         GeminiRoute.audience := audienceField (audience view);
         GeminiRoute.conversationHistory :=
           Some (List.map historyMessage (slice_last 4 (messages view))) |} in
    let '(updates, outcome) := receive reply in
    [ [setMessages updatedMessages; setInput ""; setIsLoading true;
       setCurrentStreamingMessage ""]
        ++ saveChat userId (chats view) (currentChatId view) updatedMessages now1;
      [fetchGemini request] ]
    ++ updates
    ++ [ match outcome with
         | Returned accumulatedMessage =>
             let assistantMessage :=
               {| Facade.role := Facade.assistant; Facade.content := accumulatedMessage |} in
             let finalMessages := updatedMessages ++ [assistantMessage] in
             [setMessages finalMessages; setCurrentStreamingMessage ""]
               ++ saveChat userId (chats view) (currentChatId view) finalMessages now2
         | Thrown _ =>
             let errorMessage :=
               {| Facade.role := Facade.assistant; Facade.content := apology |} in
             let errorMessages := updatedMessages ++ [errorMessage] in
             [setMessages errorMessages]
               ++ saveChat userId (chats view) (currentChatId view) errorMessages now2
         end;
         [setIsLoading false] ].

(** The controls of the page that start a handler. *)
Inductive Control :=
| NewChatButton
| ChatItem (chatId : string)
| SubmitButton
| PromptEnterKey.

(** Whether a control is on the page and takes the event: there is one
    item for each chat, and only the submit button carries
    [disabled={isLoading}]. *)
Definition enabled (st : State) (c : Control) : bool :=
  match c with
  | NewChatButton => true
  | ChatItem chatId => existsb (fun chat => String.eqb (Chat.id chat) chatId) (chats st)
  | SubmitButton => negb (isLoading st)
  | PromptEnterKey => true
  end.

(** What the clock and the network supply to a handler. *)
Record Surroundings := {
  userId : option string;
  now : Z;
  date1 : Date;
  date2 : Date;
  reply : FetchResult
}.

(** The handler behind each control. *)
Definition handler (env : Surroundings) (view : State) (c : Control) : list (list Op) :=
  match c with
  | NewChatButton => [createNewChat (userId env) (now env) (date1 env) (date2 env)]
  | ChatItem chatId => [[setCurrentChatId chatId]]
  | SubmitButton | PromptEnterKey =>
      handleSubmit (userId env) view (date1 env) (date2 env) (reply env)
  end.

(** An event on a control: nothing happens when the control does not take
    it. *)
Definition fire (env : Surroundings) (c : Control) (st : State) : State :=
  if enabled st c then run (handler env st c) st else st.

End Dashboard.


(* ===================================================================== *)
(** ** The vocabulary of the properties *)
(* ===================================================================== *)

(** *** The JSON codec *)

(** The text of a value starts with a character that is neither white
    space, nor a closing bracket, nor a separator. *)
Definition opening (c : ascii) : bool :=
  negb (JSON.is_ws c) && negb (Ascii.eqb c "]") && negb (Ascii.eqb c "}")
  && negb (Ascii.eqb c ",") && negb (Ascii.eqb c ":").

(** A character a numeral can go on with. *)
Definition numeralChar (c : ascii) : bool :=
  Js.between 48 57 c || Ascii.eqb c "." || Ascii.eqb c "e" || Ascii.eqb c "E".

(** What follows a value in a text does not go on with a numeral. *)
Definition stops (rest : string) : Prop :=
  match rest with
  | "" => True
  | String c _ => numeralChar c = false
  end.

(** What follows the digits of a part of a numeral is no digit. *)
Definition noDigit (rest : string) : Prop :=
  match rest with
  | "" => True
  | String c _ => JSON.char_digit c = None
  end.

(** Parsing the text of [v], followed by anything a value can be followed
    by, gives [v] back and leaves what follows, as soon as there is fuel
    for the calls. *)
Definition parses_back (v : JSON.json) : Prop :=
  forall fuel rest, JSON.size v <= fuel -> stops rest ->
    JSON.parse_value fuel (JSON.stringify v +:+ rest) = Some (v, rest).

(** *** Persistence *)

(** The three request bodies the facade sends. *)
Definition saveRequest (chatId : string) (chatData : JSON.json) : string :=
  JSON.stringify (JSON.JObject [("action", JSON.JString "save");
                                ("chatId", JSON.JString chatId);
                                ("chatData", chatData)]).

Definition getRequest (chatId : string) : string :=
  JSON.stringify (JSON.JObject [("action", JSON.JString "get");
                                ("chatId", JSON.JString chatId)]).

Definition listRequest : string :=
  JSON.stringify (JSON.JObject [("action", JSON.JString "list")]).

(** The key of the record of a chat of a user. *)
Definition keyOf (userId chatId : string) : string :=
  userId +:+ "/chats/" +:+ chatId +:+ "/data.json".

(** Two request objects agree on the fields the endpoint reads. *)
Definition sameRequestFields (f1 f2 : list (string * JSON.json)) : Prop :=
  JSON.lookup_field "action" f1 = JSON.lookup_field "action" f2
  /\ JSON.lookup_field "chatId" f1 = JSON.lookup_field "chatId" f2
  /\ JSON.lookup_field "chatData" f1 = JSON.lookup_field "chatData" f2.

(** A user and a record to try things on. *)
Definition alice : ChatRoute.User := {| ChatRoute.id := "alice" |}.

Definition hello : Facade.ChatData :=
  {| Facade.id := "1";
     Facade.messages := [ {| Facade.role := Facade.user; Facade.content := "hello" |} ];
     Facade.createdAt := "2024-05-31T16:08:37.171Z";
     Facade.updatedAt := "2024-05-31T16:08:37.171Z" |}.

(** A save request that carries a [userId] of its own. *)
Definition forgedSave : string :=
  JSON.stringify
    (JSON.JObject [("action", JSON.JString "save");
                   ("userId", JSON.JString "mallory");
                   ("chatId", JSON.JString "1");
                   ("chatData", Facade.ChatData_js hello)]).

(** The answer of the endpoint's [catch]. *)
Definition internalServerError : ChatRoute.Response :=
  ChatRoute.NextResponse_json (JSON.JObject [("error", JSON.JString "Internal server error")]) 500.

(** A bucket whose one record is not valid JSON. *)
Definition brokenBucket : S3.Bucket := {[ "alice/chats/1/data.json" := "{" ]}.

(** Saving one record after the other. *)
Definition saveAll (userId : string) (records : list (string * JSON.json)) (w : Facade.World)
  : Facade.World :=
  foldl (fun w r => (Facade.saveChatToS3 userId (fst r) (snd r) w).2) w records.

(** The bucket once the records of [uid] are stored. *)
Definition putAll (uid : string) (records : list (string * JSON.json)) (b : S3.Bucket)
  : S3.Bucket :=
  foldl (fun b r => <[keyOf uid (fst r) := JSON.stringify (snd r)]> b) b records.

(** The chat ids the endpoint lists once the records are saved. *)
Definition listed (user : ChatRoute.User) (b : S3.Bucket) (records : list (string * JSON.json))
  : list string :=
  filter (fun s => Js.truthy s = true)
    (List.map ChatRoute.chatIdOfPrefix
       (S3.listCommonPrefixes (ChatRoute.id user +:+ "/chats/") "/"
          (putAll (ChatRoute.id user) records b))).

(** A chat id the listing can give back: not empty and free of the
    delimiter. *)
Definition plainId (chatId : string) : Prop :=
  chatId <> "" /\ Js.includes "/" chatId = false.

(** *** The stream relay *)

(** A generation that yields the given fragments and then goes on as
    [rest]. *)
Definition fragmentsThen (fragments : list string) (rest : GeminiRoute.ResultStream)
  : GeminiRoute.ResultStream :=
  foldr (fun fragment s => GeminiRoute.StreamChunk (GeminiRoute.ChunkText fragment) s) rest fragments.

(** A successful generation: the fragments, then the end. *)
Definition generationOf (fragments : list string) : GeminiRoute.ResultStream :=
  fragmentsThen fragments GeminiRoute.StreamEnd.

(** The generated text as a whole. *)
Definition finalText (fragments : list string) : string := foldr String.append "" fragments.

(** The provider call fails before any fragment is there: the call is
    rejected, or the stream fails at once, or the first chunk has no
    text. *)
Definition failsBeforeFirstFragment (r : Js.Outcome GeminiRoute.ResultStream) : option string :=
  match r with
  | Js.Thrown e => Some e
  | Js.Returned (GeminiRoute.StreamFails e) => Some e
  | Js.Returned (GeminiRoute.StreamChunk (GeminiRoute.ChunkThrows e) _) => Some e
  | _ => None
  end.

(** What a consumer that reads the stream to its end can see: after a
    clean close, all the chunks and then the end; after an error, chunks
    enqueued before it and then the failure. *)
Definition observes (c : GeminiRoute.Controller) (body : Dashboard.Body) : Prop :=
  match GeminiRoute.state c with
  | GeminiRoute.Readable => False
  | GeminiRoute.Closed =>
      Dashboard.chunks body = GeminiRoute.enqueued c /\ Dashboard.ending body = Dashboard.ReadDone
  | GeminiRoute.Errored _ =>
      Dashboard.chunks body `prefix_of` GeminiRoute.enqueued c
      /\ Dashboard.ending body = Dashboard.ReadFails
  end.

(** A request, a provider that rejects the call and one that generates
    three fragments. *)
Definition marsRequest : GeminiRoute.GenerationRequest :=
  {| GeminiRoute.prompt := Some "write a tweet about Mars";
     GeminiRoute.tone := Some "Witty";
     GeminiRoute.goal := None;
     GeminiRoute.audience := None;
     GeminiRoute.conversationHistory := None |}.

Definition quotaExceeded : GeminiRoute.Provider := fun _ => Js.Thrown "429 Too Many Requests".

Definition redPlanet : GeminiRoute.Provider :=
  fun _ => Js.Returned (generationOf ["Red"; " planet"; " vibes"]).

(** *** The composed instruction *)

(** The composition as the specification words it: the fixed directive,
    then one line for each constraint that is present, then the prior turns
    as labelled lines, then the request. *)
Definition heading : string :=
  GeminiRoute.SYSTEM_PROMPT +:+ Js.nl +:+ Js.nl +:+
  "Create a tweet with the following specifications:" +:+ Js.nl.

(** The line of a constraint: none when the constraint is absent or
    empty. *)
Definition constraintLine (label : string) (value : option string) : list string :=
  match value with
  | Some v => if Js.truthy v then [label +:+ ": " +:+ v +:+ Js.nl] else []
  | None => []
  end.

Definition constraintLines (req : GeminiRoute.GenerationRequest) : list string :=
  constraintLine "Tone" (GeminiRoute.tone req)
  ++ constraintLine "Goal" (GeminiRoute.goal req)
  ++ constraintLine "Target Audience" (GeminiRoute.audience req).

(** A prior turn as a labelled line. *)
Definition turnLine (msg : GeminiRoute.HistoryMessage) : string :=
  (if String.eqb (GeminiRoute.role msg) "user" then "User" else "Assistant")
  +:+ ": " +:+ GeminiRoute.content msg +:+ Js.nl.

Definition historyBlock (req : GeminiRoute.GenerationRequest) : string :=
  match GeminiRoute.conversationHistory req with
  | Some (msg :: rest) =>
      Js.nl +:+ "Previous conversation context:" +:+ Js.nl +:+ finalText (List.map turnLine (msg :: rest))
  | _ => ""
  end.

Definition requestBlock (req : GeminiRoute.GenerationRequest) : string :=
  Js.nl +:+ "User's request: " +:+ GeminiRoute.text (GeminiRoute.prompt req) +:+ Js.nl +:+ Js.nl +:+
  "Generate a tweet that matches these specifications.".

(** How many of the three constraints a request gives. *)
Definition constraintsGiven (req : GeminiRoute.GenerationRequest) : nat :=
  (if GeminiRoute.given (GeminiRoute.tone req) then 1 else 0)
  + (if GeminiRoute.given (GeminiRoute.goal req) then 1 else 0)
  + (if GeminiRoute.given (GeminiRoute.audience req) then 1 else 0).

(** A request with no tone, goal or audience. *)
Definition plainRequest : GeminiRoute.GenerationRequest :=
  {| GeminiRoute.prompt := Some "write a tweet about Mars";
     GeminiRoute.tone := None;
     GeminiRoute.goal := None;
     GeminiRoute.audience := None;
     GeminiRoute.conversationHistory := None |}.

(** *** The dashboard *)

(** A text that is empty or made of white space characters only. *)
Inductive whitespaceOnly : string -> Prop :=
| blank_empty : whitespaceOnly ""
| blank_one a s :
    Js.is_space1 a = true -> whitespaceOnly s -> whitespaceOnly (String a s)
| blank_two a b s :
    Js.is_space2 a b = true -> whitespaceOnly s -> whitespaceOnly (String a (String b s))
| blank_three a b c s :
    Js.is_space3 a b c = true -> whitespaceOnly s ->
    whitespaceOnly (String a (String b (String c s))).

(** A page with a blank input, and what surrounds a handler when all goes
    well. *)
Definition blankView : Dashboard.State :=
  {| Dashboard.chats :=
       [ {| Dashboard.Chat.id := "1717171717171"; Dashboard.Chat.messages := [];
            Dashboard.Chat.createdAt := 1717171717171%Z; Dashboard.Chat.updatedAt := 1717171717171%Z |} ];
     Dashboard.currentChatId := "1717171717171";
     Dashboard.messages := [];
     Dashboard.input := "  " +:+ Js.nl;
     Dashboard.isLoading := false;
     Dashboard.tone := Dashboard.Witty;
     Dashboard.goal := Dashboard.Goal_None;
     Dashboard.audience := Dashboard.Audience_None;
     Dashboard.currentStreamingMessage := "" |}.

Definition calmSurroundings : Dashboard.Surroundings :=
  {| Dashboard.userId := Some "alice";
     Dashboard.now := 1717171718000%Z;
     Dashboard.date1 := 1717171718001%Z;
     Dashboard.date2 := 1717171719000%Z;
     Dashboard.reply :=
       Dashboard.FetchResponds true
         (Some {| Dashboard.chunks := [GeminiRoute.encode "Red"; GeminiRoute.encode " planet"];
                  Dashboard.ending := Dashboard.ReadDone |}) |}.

(** A page with two chats, the second one current, and a prompt typed in. *)
Definition twoChats : Dashboard.State :=
  {| Dashboard.chats :=
       [ {| Dashboard.Chat.id := "1717171700000";
            Dashboard.Chat.messages :=
              [ {| Facade.role := Facade.user; Facade.content := "hello" |} ];
            Dashboard.Chat.createdAt := 1717171700000%Z;
            Dashboard.Chat.updatedAt := 1717171700500%Z |};
         {| Dashboard.Chat.id := "1717171717171"; Dashboard.Chat.messages := [];
            Dashboard.Chat.createdAt := 1717171717171%Z;
            Dashboard.Chat.updatedAt := 1717171717171%Z |} ];
     Dashboard.currentChatId := "1717171717171";
     Dashboard.messages := [];
     Dashboard.input := "write a tweet about Mars";
     Dashboard.isLoading := false;
     Dashboard.tone := Dashboard.Witty;
     Dashboard.goal := Dashboard.Goal_None;
     Dashboard.audience := Dashboard.Audience_None;
     Dashboard.currentStreamingMessage := "" |}.

(** The page once the prompt is submitted and the generation request is on
    its way: the handler has run up to its [fetch]. *)
Definition awaitingFirstFragment : Dashboard.State :=
  Dashboard.run
    (take 2 (Dashboard.handler calmSurroundings twoChats Dashboard.SubmitButton))
    twoChats.

(** The generation request fails, or its stream fails while it is read. *)
Definition generationFails (reply : Dashboard.FetchResult) : Prop :=
  match reply with
  | Dashboard.FetchRejects => True
  | Dashboard.FetchResponds false _ => True
  | Dashboard.FetchResponds true None => True
  | Dashboard.FetchResponds true (Some body) => Dashboard.ending body = Dashboard.ReadFails
  end.

(** The user's turn and the assistant's fallback turn. *)
Definition userMessage (view : Dashboard.State) : Facade.Message :=
  {| Facade.role := Facade.user; Facade.content := Dashboard.input view |}.

Definition apologyMessage : Facade.Message :=
  {| Facade.role := Facade.assistant; Facade.content := Dashboard.apology |}.

(** The chat [chat] with the user's turn and the apology appended. *)
Definition withApology (view : Dashboard.State) (chat : Dashboard.Chat) (now : Dashboard.Date)
  : Dashboard.Chat :=
  {| Dashboard.Chat.id := Dashboard.Chat.id chat;
     Dashboard.Chat.messages := Dashboard.messages view ++ [userMessage view; apologyMessage];
     Dashboard.Chat.createdAt := Dashboard.Chat.createdAt chat;
     Dashboard.Chat.updatedAt := now |}.

(** A batch that only updates the streaming message. *)
Definition streamingOnly (batch : list Dashboard.Op) : Prop :=
  exists s, batch = [Dashboard.setCurrentStreamingMessage s].

(** The calls of a handler carried out against the endpoint, in order. *)
Definition perform (w : Facade.World) (op : Dashboard.Op) : Facade.World :=
  match op with
  | Dashboard.saveChatToS3 userId chatId chatData =>
      (Facade.saveChatToS3 userId chatId (Facade.ChatData_js chatData) w).2
  | _ => w
  end.

Definition performAll (script : list (list Dashboard.Op)) (w : Facade.World) : Facade.World :=
  foldl perform w (Dashboard.calls script).

(** The answer to a generation request made without a session: status 401,
    with a JSON body. *)
Definition unauthorizedReply : Dashboard.FetchResult :=
  Dashboard.FetchResponds false
    (Some {| Dashboard.chunks :=
               [GeminiRoute.encode
                  (JSON.stringify (JSON.JObject [("error", JSON.JString "Unauthorized")]))];
             Dashboard.ending := Dashboard.ReadDone |}).

(** A generation whose stream fails after two fragments. *)
Definition failingMidStream : Dashboard.FetchResult :=
  Dashboard.FetchResponds true
    (Some {| Dashboard.chunks := [GeminiRoute.encode "Red"; GeminiRoute.encode " planet"];
             Dashboard.ending := Dashboard.ReadFails |}).

(* ===================================================================== *)
(** ** Further vocabulary *)
(* ===================================================================== *)

(** *** Persistence *)

(** What loading a chat gives for the bytes stored under its key: the
    parsed value, and [null] when there are none, when they are empty and
    when they do not parse. *)
Definition loaded (stored : option string) : JSON.json :=
  match stored with
  | None => JSON.JNull
  | Some data => if Js.truthy data then default JSON.JNull (JSON.parse data) else JSON.JNull
  end.

(** The world of a signed-in user. *)
Definition signedInWorld (user : ChatRoute.User) (b : S3.Bucket) : Facade.World :=
  {| Facade.session := Some user; Facade.bucket := b |}.

(** The chat ids the endpoint lists for a user. *)
Definition chatIdsOf (user : ChatRoute.User) (b : S3.Bucket) : list string :=
  filter (fun s => Js.truthy s = true)
    (List.map ChatRoute.chatIdOfPrefix
       (S3.listCommonPrefixes (ChatRoute.id user +:+ "/chats/") "/" b)).

(** Another user, and a bucket with one record of alice's. *)
Definition bob : ChatRoute.User := {| ChatRoute.id := "bob" |}.

Definition aliceBucket : S3.Bucket :=
  {[ "alice/chats/1/data.json" := JSON.stringify (Facade.ChatData_js hello) ]}.

(** The three answers of the endpoint that are not a success. *)
Definition errorAnswer (status : nat) (message : string) : ChatRoute.Response :=
  ChatRoute.NextResponse_json (JSON.JObject [("error", JSON.JString message)]) status.

(** A bucket with records under nested and empty path segments. *)
Definition nestedBucket : S3.Bucket :=
  {[ "alice/chats/a/b/data.json" := "{}";
     "alice/chats/a/c/data.json" := "{}";
     "alice/chats//data.json" := "{}";
     "alice/chats/notes.txt" := "x";
     "bob/chats/7/data.json" := "{}" ]}.

(** *** The stream relay *)

(** The fragments a generation yields before it ends or fails. *)
Fixpoint leadingFragments (stream : GeminiRoute.ResultStream) : list string :=
  match stream with
  | GeminiRoute.StreamChunk (GeminiRoute.ChunkText fragment) rest =>
      fragment :: leadingFragments rest
  | _ => []
  end.

(** How a generation comes to its end: [None] when the provider signals
    the end, the error when the stream or the text of a chunk throws. *)
Fixpoint failureOf (stream : GeminiRoute.ResultStream) : option string :=
  match stream with
  | GeminiRoute.StreamEnd => None
  | GeminiRoute.StreamFails e => Some e
  | GeminiRoute.StreamChunk (GeminiRoute.ChunkText _) rest => failureOf rest
  | GeminiRoute.StreamChunk (GeminiRoute.ChunkThrows e) _ => Some e
  end.

(** The stream [start] leaves behind for each thing the provider can do. *)
Definition relayed (r : Js.Outcome GeminiRoute.ResultStream) : GeminiRoute.Controller :=
  match r with
  | Js.Thrown e =>
      {| GeminiRoute.enqueued := []; GeminiRoute.state := GeminiRoute.Errored e |}
  | Js.Returned stream =>
      {| GeminiRoute.enqueued := List.map GeminiRoute.encode (leadingFragments stream);
         GeminiRoute.state :=
           match failureOf stream with
           | None => GeminiRoute.Closed
           | Some e => GeminiRoute.Errored e
           end |}
  end.

(** A text the page's decoder gives back from its encoding: well-formed
    and not led by U+FEFF. *)
Definition decodesToItself (text : string) : Prop := Js.TextDecoder_decode text = text.

(** What happens for a fragment when nothing is held back: the provider
    yields it and the relay enqueues its encoding, before the provider is
    asked again. *)
Definition handedOn (fragments : list string) : list GeminiRoute.Event :=
  flat_map
    (fun fragment =>
       [GeminiRoute.ProviderYields (GeminiRoute.ChunkText fragment);
        GeminiRoute.Enqueue (GeminiRoute.encode fragment)])
    fragments.

(** How the iteration of a stream ends: the events its last turn leaves. *)
Fixpoint lastTurn (stream : GeminiRoute.ResultStream) : list GeminiRoute.Event :=
  match stream with
  | GeminiRoute.StreamEnd => [GeminiRoute.ProviderEnds]
  | GeminiRoute.StreamFails e => [GeminiRoute.ProviderFails e]
  | GeminiRoute.StreamChunk (GeminiRoute.ChunkText _) rest => lastTurn rest
  | GeminiRoute.StreamChunk (GeminiRoute.ChunkThrows e) _ =>
      [GeminiRoute.ProviderYields (GeminiRoute.ChunkThrows e)]
  end.

(** The call on the controller [start] ends with. *)
Definition settling (failure : option string) : GeminiRoute.Event :=
  match failure with
  | None => GeminiRoute.Close
  | Some e => GeminiRoute.Error e
  end.

(** The events of a run of [start], for each thing the provider can do. *)
Definition relayedEvents (r : Js.Outcome GeminiRoute.ResultStream) : list GeminiRoute.Event :=
  match r with
  | Js.Thrown e => [GeminiRoute.ProviderFails e; GeminiRoute.Error e]
  | Js.Returned stream =>
      handedOn (leadingFragments stream) ++ lastTurn stream ++ [settling (failureOf stream)]
  end.

(** A provider that fails after two fragments. *)
Definition cutShort : GeminiRoute.Provider :=
  fun _ => Js.Returned (fragmentsThen ["Red"; " planet"] (GeminiRoute.StreamFails "503")).

(** *** A submit, step by step *)

(** The chunks read from the body of a reply, and their text. *)
Definition chunksOf (reply : Dashboard.FetchResult) : list (list byte) :=
  match reply with
  | Dashboard.FetchResponds true (Some body) => Dashboard.chunks body
  | _ => []
  end.

Definition receivedText (reply : Dashboard.FetchResult) : string :=
  finalText (List.map Dashboard.decode (chunksOf reply)).

(** The reply is an ok response whose body is read to its end. *)
Definition generationSucceeds (reply : Dashboard.FetchResult) : bool :=
  match reply with
  | Dashboard.FetchResponds true (Some body) =>
      match Dashboard.ending body with
      | Dashboard.ReadDone => true
      | Dashboard.ReadFails => false
      end
  | _ => false
  end.

(** The assistant's turn a reply leads to. *)
Definition assistantMessage (content : string) : Facade.Message :=
  {| Facade.role := Facade.assistant; Facade.content := content |}.

Definition answerTo (reply : Dashboard.FetchResult) : string :=
  if generationSucceeds reply then receivedText reply else Dashboard.apology.

(** A chat with new messages and a new time of update. *)
Definition chatWith (chat : Dashboard.Chat) (messages : list Facade.Message) (now : Dashboard.Date)
  : Dashboard.Chat :=
  {| Dashboard.Chat.id := Dashboard.Chat.id chat;
     Dashboard.Chat.messages := messages;
     Dashboard.Chat.createdAt := Dashboard.Chat.createdAt chat;
     Dashboard.Chat.updatedAt := now |}.

(** The chats with every chat of the given id replaced. *)
Definition replaceChat (chatId : string) (updatedChat : Dashboard.Chat)
    (chats : list Dashboard.Chat) : list Dashboard.Chat :=
  List.map (fun c => if String.eqb (Dashboard.Chat.id c) chatId then updatedChat else c) chats.

(** Whom [saveChat] saves for and which chat it updates, if it does. *)
Definition savedChat (userId : option string) (view : Dashboard.State)
  : option (string * Dashboard.Chat) :=
  match Dashboard.signedIn userId with
  | Some uid =>
      match Dashboard.findChat (Dashboard.currentChatId view) (Dashboard.chats view) with
      | Some chat => Some (uid, chat)
      | None => None
      end
  | None => None
  end.

Definition chatsAfter (userId : option string) (view : Dashboard.State)
    (messages : list Facade.Message) (now : Dashboard.Date) : list Dashboard.Chat :=
  match savedChat userId view with
  | Some (_, chat) =>
      replaceChat (Dashboard.currentChatId view) (chatWith chat messages now) (Dashboard.chats view)
  | None => Dashboard.chats view
  end.

(** The save [saveChat] makes, if it does. *)
Definition saveCall (userId : option string) (view : Dashboard.State)
    (messages : list Facade.Message) (now : Dashboard.Date) : list Dashboard.Op :=
  match savedChat userId view with
  | Some (uid, chat) =>
      [Dashboard.saveChatToS3 uid (Dashboard.currentChatId view)
         (Dashboard.toChatData (chatWith chat messages now))]
  | None => []
  end.

(** The generation request a submit makes. *)
Definition requestOf (view : Dashboard.State) : GeminiRoute.GenerationRequest :=
  {| GeminiRoute.prompt := Some (Dashboard.input view);
     GeminiRoute.tone := Dashboard.toneField (Dashboard.tone view);
     GeminiRoute.goal := Dashboard.goalField (Dashboard.goal view);
     GeminiRoute.audience := Dashboard.audienceField (Dashboard.audience view);
     GeminiRoute.conversationHistory :=
       Some (List.map Dashboard.historyMessage (Js.slice_last 4 (Dashboard.messages view))) |}.

(** The page while a submit is under way, with the text streamed so far. *)
Definition inProgress (userId : option string) (view : Dashboard.State) (now1 : Dashboard.Date)
    (streamed : string) : Dashboard.State :=
  {| Dashboard.chats := chatsAfter userId view (Dashboard.messages view ++ [userMessage view]) now1;
     Dashboard.currentChatId := Dashboard.currentChatId view;
     Dashboard.messages := Dashboard.messages view ++ [userMessage view];
     Dashboard.input := "";
     Dashboard.isLoading := true;
     Dashboard.tone := Dashboard.tone view;
     Dashboard.goal := Dashboard.goal view;
     Dashboard.audience := Dashboard.audience view;
     Dashboard.currentStreamingMessage := streamed |}.

(** The messages a submit ends with. *)
Definition finalMessages (view : Dashboard.State) (reply : Dashboard.FetchResult)
  : list Facade.Message :=
  Dashboard.messages view ++ [userMessage view; assistantMessage (answerTo reply)].

(** The page once a submit has run to its end. *)
Definition settled (userId : option string) (view : Dashboard.State) (now2 : Dashboard.Date)
    (reply : Dashboard.FetchResult) : Dashboard.State :=
  {| Dashboard.chats := chatsAfter userId view (finalMessages view reply) now2;
     Dashboard.currentChatId := Dashboard.currentChatId view;
     Dashboard.messages := finalMessages view reply;
     Dashboard.input := "";
     Dashboard.isLoading := false;
     Dashboard.tone := Dashboard.tone view;
     Dashboard.goal := Dashboard.goal view;
     Dashboard.audience := Dashboard.audience view;
     Dashboard.currentStreamingMessage :=
       if generationSucceeds reply then "" else receivedText reply |}.

(** The updates of the page proper: neither the chats nor the current
    chat, and no call. *)
Definition plain (op : Dashboard.Op) : Prop :=
  match op with
  | Dashboard.setMessages _ | Dashboard.setInput _ | Dashboard.setIsLoading _
  | Dashboard.setCurrentStreamingMessage _ => True
  | _ => False
  end.

(** The first and the last but one batch of a submit. *)
Definition firstBatch (userId : option string) (view : Dashboard.State) (now1 : Dashboard.Date)
  : list Dashboard.Op :=
  [Dashboard.setMessages (Dashboard.messages view ++ [userMessage view]);
   Dashboard.setInput ""; Dashboard.setIsLoading true;
   Dashboard.setCurrentStreamingMessage ""]
  ++ Dashboard.saveChat userId (Dashboard.chats view) (Dashboard.currentChatId view)
       (Dashboard.messages view ++ [userMessage view]) now1.

Definition answerBatch (userId : option string) (view : Dashboard.State) (now2 : Dashboard.Date)
    (reply : Dashboard.FetchResult) : list Dashboard.Op :=
  (if generationSucceeds reply
   then [Dashboard.setMessages (finalMessages view reply); Dashboard.setCurrentStreamingMessage ""]
   else [Dashboard.setMessages (finalMessages view reply)])
  ++ Dashboard.saveChat userId (Dashboard.chats view) (Dashboard.currentChatId view)
       (finalMessages view reply) now2.

(** A reply that ends well after two chunks. *)
Definition redPlanetBody : Dashboard.Body :=
  {| Dashboard.chunks := [GeminiRoute.encode "Red"; GeminiRoute.encode " planet"];
     Dashboard.ending := Dashboard.ReadDone |}.

(** The current chat of [twoChats]. *)
Definition marsChat : Dashboard.Chat :=
  {| Dashboard.Chat.id := "1717171717171"; Dashboard.Chat.messages := [];
     Dashboard.Chat.createdAt := 1717171717171%Z;
     Dashboard.Chat.updatedAt := 1717171717171%Z |}.

(** A call that is a generation request. *)
Definition is_fetch (op : Dashboard.Op) : bool :=
  match op with
  | Dashboard.fetchGemini _ => true
  | _ => false
  end.

(** *** The prompt of a submit *)

(** The line of a selector of the page: none when it is on None. *)
Definition selectorLine (label : string) (choice : option string) : list string :=
  match choice with
  | Some name => [label +:+ ": " +:+ name +:+ Js.nl]
  | None => []
  end.

(** A message of the page as a labelled line. *)
Definition messageLine (m : Facade.Message) : string :=
  match Facade.role m with
  | Facade.user => "User"
  | Facade.assistant => "Assistant"
  end +:+ ": " +:+ Facade.content m +:+ Js.nl.

(* ===================================================================== *)
(** * Properties *)
(* ===================================================================== *)

(** ** Strings *)

Lemma app_String c s t : String c s +:+ t = String c (s +:+ t).
Proof. reflexivity. Qed.

Lemma app_empty_l s : "" +:+ s = s.
Proof. reflexivity. Qed.

Lemma app_empty_r s : s +:+ "" = s.
Proof. induction s as [|c s IH]; [reflexivity|]. rewrite app_String. by f_equal. Qed.

Lemma app_assoc_s s t u : (s +:+ t) +:+ u = s +:+ (t +:+ u).
Proof. induction s as [|c s IH]; [reflexivity|]. rewrite !app_String. by f_equal. Qed.

Lemma length_app_s s t : String.length (s +:+ t) = String.length s + String.length t.
Proof. induction s as [|c s IH]; [reflexivity|]. rewrite app_String. simpl. by f_equal. Qed.

(** ** The JSON codec: parsing undoes serialization *)

Section json_induction.
Import JSON.
Variable P : json -> Prop.
Hypothesis Hnull : P JNull.
Hypothesis Hbool : forall b, P (JBool b).
Hypothesis Hnumber : forall n, P (JNumber n).
Hypothesis Hstring : forall s, P (JString s).
Hypothesis Harray : forall xs, Forall P xs -> P (JArray xs).
Hypothesis Hobject : forall fields, Forall (fun kv => P (snd kv)) fields -> P (JObject fields).

Lemma json_ind : forall v, P v.
Proof.
  fix IH 1. intros [ | b | n | s | xs | fields].
  - exact Hnull.
  - apply Hbool.
  - apply Hnumber.
  - apply Hstring.
  - apply Harray. induction xs as [|x xs IHxs]; constructor; [apply IH | exact IHxs].
  - apply Hobject. induction fields as [|[k x] fields IHf]; constructor; [apply IH | exact IHf].
Qed.
End json_induction.

(** *** Numerals *)

Lemma char_digit_char d : JSON.char_digit (JSON.digit_char d) = Some d.
Proof. by destruct d. Qed.

Lemma numeralChar_digit d : numeralChar (JSON.digit_char d) = true.
Proof. by destruct d. Qed.

Lemma char_digit_stops c : numeralChar c = false -> JSON.char_digit c = None.
Proof.
  destruct c as [[] [] [] [] [] [] [] []]; try reflexivity; intros H; by vm_compute in H.
Qed.

Lemma parse_digits_text ds rest :
  stops rest -> JSON.parse_digits (JSON.digits_text ds rest) = (ds, rest).
Proof.
  intros Hrest. induction ds as [|d ds IH]; cbn [JSON.digits_text JSON.parse_digits].
  - destruct rest as [|c rest]; [reflexivity|]. cbn [JSON.parse_digits].
    by rewrite (char_digit_stops c Hrest).
  - by rewrite char_digit_char, IH.
Qed.

Lemma parse_digits1_text d ds rest :
  stops rest -> JSON.parse_digits1 (JSON.digits_text (d :: ds) rest) = Some ((d, ds), rest).
Proof. intros Hrest. unfold JSON.parse_digits1. by rewrite parse_digits_text. Qed.

Lemma parse_digits_noDigit ds rest :
  noDigit rest -> JSON.parse_digits (JSON.digits_text ds rest) = (ds, rest).
Proof.
  intros Hrest. induction ds as [|d ds IH]; cbn [JSON.digits_text JSON.parse_digits].
  - destruct rest as [|c rest]; [reflexivity|]. cbn [JSON.parse_digits]. cbn in Hrest.
    by rewrite Hrest.
  - by rewrite char_digit_char, IH.
Qed.

Lemma parse_sign_text sg d ds rest :
  JSON.parse_sign (JSON.sign_text sg (JSON.digits_text (d :: ds) rest))
  = (sg, JSON.digits_text (d :: ds) rest).
Proof. destruct sg as [[]|]; [reflexivity|reflexivity|]. by destruct d. Qed.

Lemma parse_exponent_text e rest :
  stops rest -> JSON.parse_exponent (JSON.exponent_text e rest) = Some (e, rest).
Proof.
  intros Hrest. destruct e as [[cap sg [d ds]]|].
  - cbn [JSON.exponent_text JSON.capital JSON.sign JSON.power fst snd].
    unfold JSON.parse_exponent.
    destruct cap; cbn [Ascii.eqb Bool.eqb andb orb];
      rewrite parse_sign_text, parse_digits1_text by exact Hrest; reflexivity.
  - cbn [JSON.exponent_text]. destruct rest as [|c rest]; [reflexivity|].
    cbn [JSON.parse_exponent]. cbn in Hrest. unfold numeralChar in Hrest.
    destruct (Ascii.eqb c "e"), (Ascii.eqb c "E"); try reflexivity;
      rewrite ?orb_true_r in Hrest; discriminate.
Qed.

Lemma exponent_text_head e rest :
  stops rest ->
  noDigit (JSON.exponent_text e rest)
  /\ match JSON.exponent_text e rest with
     | "" => True
     | String c _ => Ascii.eqb c "." = false
     end.
Proof.
  intros Hrest. destruct e as [[cap sg p]|]; cbn [JSON.exponent_text].
  - by destruct cap.
  - destruct rest as [|c rest]; [done|]. cbn in *. unfold numeralChar in Hrest.
    split; [by apply char_digit_stops|].
    destruct (Ascii.eqb c "."); [|reflexivity]. by rewrite orb_true_r in Hrest.
Qed.

Lemma parse_fraction_text f k :
  noDigit k ->
  match k with "" => True | String c _ => Ascii.eqb c "." = false end ->
  JSON.parse_fraction (JSON.fraction_text f k) = Some (f, k).
Proof.
  intros Hk Hpoint. destruct f as [[d ds]|]; cbn [JSON.fraction_text].
  - cbn -[JSON.parse_digits1 JSON.digits_text]. unfold JSON.parse_digits1.
    by rewrite parse_digits_noDigit.
  - destruct k as [|c k]; [reflexivity|]. cbn [JSON.parse_fraction]. by rewrite Hpoint.
Qed.

Lemma fraction_text_head f k : noDigit k -> noDigit (JSON.fraction_text f k).
Proof. intros Hk. by destruct f as [[d ds]|]. Qed.

Lemma parse_whole_text w k :
  noDigit k -> JSON.parse_whole (JSON.whole_text w k) = Some (w, k).
Proof.
  intros Hk. destruct w as [|p ds]; cbn [JSON.whole_text].
  - reflexivity.
  - unfold JSON.parse_whole.
    destruct p; cbn -[JSON.parse_digits JSON.digits_text]; by rewrite parse_digits_noDigit.
Qed.

Lemma parse_number_text n rest :
  stops rest -> JSON.parse_number (JSON.numeral_text n rest) = Some (n, rest).
Proof.
  intros Hrest. destruct n as [neg w f e]. unfold JSON.numeral_text.
  cbn [JSON.negative JSON.whole JSON.fraction JSON.exponent].
  destruct (exponent_text_head e rest Hrest) as [He1 He2].
  pose proof (fraction_text_head f _ He1) as Hf.
  assert (Hbody : forall s1,
             s1 = JSON.whole_text w (JSON.fraction_text f (JSON.exponent_text e rest)) ->
             match JSON.parse_whole s1 with
             | None => None
             | Some (w0, s2) =>
                 match JSON.parse_fraction s2 with
                 | None => None
                 | Some (f0, s3) =>
                     match JSON.parse_exponent s3 with
                     | None => None
                     | Some (e0, s4) =>
                         Some ({| JSON.negative := neg; JSON.whole := w0;
                                  JSON.fraction := f0; JSON.exponent := e0 |}, s4)
                     end
                 end
             end
             = Some ({| JSON.negative := neg; JSON.whole := w;
                        JSON.fraction := f; JSON.exponent := e |}, rest)).
  { intros s1 ->. rewrite parse_whole_text by exact Hf.
    rewrite parse_fraction_text by done. by rewrite parse_exponent_text. }
  destruct neg.
  - unfold JSON.parse_number. cbn [Ascii.eqb]. cbn -[JSON.parse_whole JSON.whole_text].
    by apply Hbody.
  - unfold JSON.parse_number.
    destruct w as [|p ds].
    + cbn -[JSON.parse_whole JSON.fraction_text]. by apply (Hbody _ eq_refl).
    + destruct p; cbn -[JSON.parse_whole JSON.fraction_text JSON.digits_text];
        by apply (Hbody _ eq_refl).
Qed.

Lemma numeral_text_app n k rest : JSON.numeral_text n k +:+ rest = JSON.numeral_text n (k +:+ rest).
Proof.
  assert (Hd : forall ds k, JSON.digits_text ds k +:+ rest = JSON.digits_text ds (k +:+ rest)).
  { induction ds as [|d ds IH]; intros k0; [reflexivity|].
    cbn [JSON.digits_text]. by rewrite app_String, IH. }
  destruct n as [neg w f e]. unfold JSON.numeral_text.
  cbn [JSON.negative JSON.whole JSON.fraction JSON.exponent].
  assert (He : JSON.exponent_text e k +:+ rest = JSON.exponent_text e (k +:+ rest)).
  { destruct e as [[cap sg [d ds]]|]; [|reflexivity]. cbn [JSON.exponent_text].
    cbn [JSON.capital JSON.sign JSON.power fst snd]. rewrite app_String. f_equal.
    destruct sg as [[]|]; cbn [JSON.sign_text]; rewrite ?app_String; by rewrite Hd. }
  assert (Hf : forall k1 k2, k1 +:+ rest = k2 ->
                 JSON.fraction_text f k1 +:+ rest = JSON.fraction_text f k2).
  { intros k1 k2 <-. destruct f as [[d ds]|]; [|reflexivity]. cbn [JSON.fraction_text].
    by rewrite app_String, Hd. }
  assert (Hw : forall k1 k2, k1 +:+ rest = k2 ->
                 JSON.whole_text w k1 +:+ rest = JSON.whole_text w k2).
  { intros k1 k2 <-. destruct w as [|p ds]; cbn [JSON.whole_text]; rewrite app_String; [done|].
    by rewrite Hd. }
  destruct neg; rewrite ?app_String; [f_equal|]; apply Hw, Hf, He.
Qed.

Lemma numeral_text_head n k :
  exists c body, JSON.numeral_text n k = String c body
                 /\ (Ascii.eqb c "-" || Js.between 48 57 c) = true.
Proof.
  destruct n as [[] w f e]; unfold JSON.numeral_text; cbn [JSON.negative JSON.whole].
  - by eexists _, _.
  - destruct w as [|p ds]; cbn [JSON.whole_text]; [by eexists _, _|].
    destruct p; by eexists _, _.
Qed.

(** *** Strings *)

Lemma parse_chars_escape_char c k :
  JSON.parse_chars (JSON.escape_char c +:+ k)
  = match JSON.parse_chars k with Some (t, r) => Some (String c t, r) | None => None end.
Proof.
  destruct c as [[] [] [] [] [] [] [] []]; reflexivity.
Qed.

Lemma parse_chars_escape s rest :
  JSON.parse_chars (JSON.escape s +:+ String Js.dquote rest) = Some (s, rest).
Proof.
  induction s as [|c s IH]; [reflexivity|].
  cbn [JSON.escape]. rewrite app_assoc_s, parse_chars_escape_char, IH. reflexivity.
Qed.

Lemma parse_chars_quote s rest :
  exists body, JSON.quote s +:+ rest = String Js.dquote body
               /\ JSON.parse_chars body = Some (s, rest).
Proof.
  exists (JSON.escape s +:+ String Js.dquote rest). split.
  - unfold JSON.quote. rewrite app_String, app_assoc_s. reflexivity.
  - apply parse_chars_escape.
Qed.

Ltac norm_app := repeat (rewrite app_String || rewrite app_empty_l || rewrite app_assoc_s).

Lemma parse_elements_S fuel s :
  JSON.parse_elements (S fuel) s
  = match JSON.parse_value fuel s with
    | Some (v, r) =>
        match JSON.skip_ws r with
        | "" => None
        | String c r' =>
            if Ascii.eqb c "," then
              match JSON.parse_elements fuel r' with
              | Some (vs, k) => Some (v :: vs, k)
              | None => None
              end
            else if Ascii.eqb c "]" then Some ([v], r')
            else None
        end
    | None => None
    end.
Proof. cbn [JSON.parse_elements]. destruct (JSON.parse_value fuel s) as [[v r]|]; [|reflexivity].
  cbn. destruct (JSON.skip_ws r) as [|c r']; [reflexivity|].
  destruct (Ascii.eqb c ","); [|reflexivity].
  destruct (JSON.parse_elements fuel r') as [[vs k]|]; reflexivity.
Qed.

Lemma parse_members_S fuel body :
  JSON.parse_members (S fuel) (String Js.dquote body)
  = match JSON.parse_chars body with
    | Some (key, r1) =>
        match Js.strip_prefix ":" (JSON.skip_ws r1) with
        | Some r2 =>
            match JSON.parse_value fuel r2 with
            | Some (v, r3) =>
                match JSON.skip_ws r3 with
                | "" => None
                | String c r' =>
                    if Ascii.eqb c "," then
                      match JSON.parse_members fuel r' with
                      | Some (fs, k) => Some ((key, v) :: fs, k)
                      | None => None
                      end
                    else if Ascii.eqb c "}" then Some ([(key, v)], r')
                    else None
                end
            | None => None
            end
        | None => None
        end
    | None => None
    end.
Proof.
  cbn [JSON.parse_members]. cbn.
  destruct (JSON.parse_chars body) as [[key r1]|]; [|reflexivity]. cbn.
  destruct (Js.strip_prefix ":" (JSON.skip_ws r1)) as [r2|]; [|reflexivity]. cbn.
  destruct (JSON.parse_value fuel r2) as [[v r3]|]; [|reflexivity]. cbn.
  destruct (JSON.skip_ws r3) as [|c r']; [reflexivity|].
  destruct (Ascii.eqb c ","); [|reflexivity].
  destruct (JSON.parse_members fuel r') as [[fs k]|]; reflexivity.
Qed.

Lemma stringify_head v k :
  exists c body, JSON.stringify v +:+ k = String c body /\ opening c = true.
Proof.
  destruct v as [ | [] | n | s | xs | fields]; cbn [JSON.stringify]; unfold JSON.quote; norm_app;
    try (eexists _, _; (split; [reflexivity | reflexivity])).
  rewrite numeral_text_app. destruct (numeral_text_head n ("" +:+ k)) as (c & body & -> & Hc).
  exists c, body. split; [reflexivity|].
  destruct c as [[] [] [] [] [] [] [] []]; try reflexivity; by vm_compute in Hc.
Qed.

Lemma skip_ws_opening c body :
  opening c = true -> JSON.skip_ws (String c body) = String c body.
Proof.
  unfold opening. intros H. cbn [JSON.skip_ws].
  destruct (JSON.is_ws c); [discriminate|reflexivity].
Qed.

Lemma strip_bracket_opening c body :
  opening c = true -> Js.strip_prefix "]" (String c body) = None.
Proof.
  unfold opening. intros H. cbn [Js.strip_prefix].
  destruct (Ascii.eqb "]" c) eqn:E; [|reflexivity].
  apply Ascii.eqb_eq in E. subst c. cbn in H. discriminate.
Qed.

Lemma strip_brace_opening c body :
  opening c = true -> Js.strip_prefix "}" (String c body) = None.
Proof.
  unfold opening. intros H. cbn [Js.strip_prefix].
  destruct (Ascii.eqb "}" c) eqn:E; [|reflexivity].
  apply Ascii.eqb_eq in E. subst c. cbn in H. discriminate.
Qed.

Lemma join_head {A} (f : A -> string) x xs k :
  exists k', Js.join "," (List.map f (x :: xs)) +:+ k = f x +:+ k'.
Proof.
  destruct xs as [|y ys].
  - exists k. reflexivity.
  - eexists. change (Js.join "," (List.map f (x :: y :: ys)))
      with (f x +:+ "," +:+ Js.join "," (List.map f (y :: ys))).
    rewrite app_assoc_s. reflexivity.
Qed.

Lemma list_sum_map_cons {A} (f : A -> nat) x xs :
  list_sum (List.map f (x :: xs)) = f x + list_sum (List.map f xs).
Proof. reflexivity. Qed.

Lemma parse_elements_stringify xs :
  Forall parses_back xs -> xs <> [] ->
  forall fuel rest,
    list_sum (List.map (fun x => S (JSON.size x)) xs) <= fuel ->
    JSON.parse_elements fuel (Js.join "," (List.map JSON.stringify xs) +:+ String "]" rest)
    = Some (xs, rest).
Proof.
  induction 1 as [|x xs Hx Hxs IH]; [done|]. intros _ fuel rest Hfuel.
  rewrite list_sum_map_cons in Hfuel.
  destruct fuel as [|fuel]; [lia|]. rewrite parse_elements_S.
  destruct xs as [|y ys].
  - cbn [List.map Js.join]. rewrite Hx by (first [reflexivity | cbn in Hfuel; lia]). reflexivity.
  - change (Js.join "," (List.map JSON.stringify (x :: y :: ys)))
      with (JSON.stringify x +:+ "," +:+ Js.join "," (List.map JSON.stringify (y :: ys))).
    norm_app. rewrite Hx by (first [reflexivity | lia]).
    cbn [JSON.skip_ws JSON.is_ws]. cbn -[JSON.parse_elements].
    rewrite IH; [reflexivity|done|lia].
Qed.

Lemma parse_members_stringify fields :
  Forall (fun kv => parses_back (snd kv)) fields -> fields <> [] ->
  forall fuel rest,
    list_sum (List.map (fun kv => S (JSON.size (snd kv))) fields) <= fuel ->
    JSON.parse_members fuel
      (Js.join "," (List.map (fun kv => JSON.quote (fst kv) +:+ ":" +:+ JSON.stringify (snd kv)) fields)
         +:+ String "}" rest)
    = Some (fields, rest).
Proof.
  induction 1 as [|[k x] fields Hx Hfs IH]; [done|]. intros _ fuel rest Hfuel.
  rewrite list_sum_map_cons in Hfuel. cbn [snd] in Hx, Hfuel.
  destruct fuel as [|fuel]; [lia|].
  destruct fields as [|kv fields'].
  - cbn [List.map Js.join fst snd]. norm_app.
    destruct (parse_chars_quote k (String ":" (JSON.stringify x +:+ String "}" rest)))
      as (body & -> & Hbody).
    rewrite parse_members_S, Hbody. cbn [JSON.skip_ws JSON.is_ws]. cbn -[JSON.parse_value].
    rewrite Hx by (first [reflexivity | cbn in Hfuel; lia]). reflexivity.
  - change (Js.join "," (List.map (fun kv => JSON.quote (fst kv) +:+ ":" +:+ JSON.stringify (snd kv))
                             ((k, x) :: kv :: fields')))
      with ((JSON.quote k +:+ ":" +:+ JSON.stringify x) +:+ "," +:+
            Js.join "," (List.map (fun kv => JSON.quote (fst kv) +:+ ":" +:+ JSON.stringify (snd kv))
                           (kv :: fields'))).
    norm_app.
    match goal with |- context [JSON.quote k +:+ ?r] =>
      destruct (parse_chars_quote k r) as (body & -> & Hbody) end.
    rewrite parse_members_S, Hbody. cbn [JSON.skip_ws JSON.is_ws]. cbn -[JSON.parse_value JSON.parse_members].
    rewrite Hx by (first [reflexivity | lia]). cbn [JSON.skip_ws JSON.is_ws]. cbn -[JSON.parse_members].
    rewrite IH; [reflexivity|done|lia].
Qed.

Lemma parse_value_stringify v : parses_back v.
Proof.
  induction v as [ | b | n | s | xs IH | fields IH] using json_ind; intros fuel rest Hfuel Hrest;
    (destruct fuel as [|fuel]; [cbn in Hfuel; lia|]).
  - reflexivity.
  - destruct b; reflexivity.
  - cbn [JSON.stringify]. rewrite numeral_text_app, app_empty_l.
    pose proof (parse_number_text n rest Hrest) as Hn.
    destruct (numeral_text_head n rest) as (c & body & Htext & Hc).
    rewrite Htext in Hn |- *. cbn [JSON.parse_value].
    assert (Hws : JSON.skip_ws (String c body) = String c body).
    { cbn [JSON.skip_ws].
      destruct c as [[] [] [] [] [] [] [] []]; try reflexivity; by vm_compute in Hc. }
    rewrite Hws.
    assert (Hother : Ascii.eqb c "n" = false /\ Ascii.eqb c "t" = false /\ Ascii.eqb c "f" = false
                     /\ Ascii.eqb c Js.dquote = false /\ Ascii.eqb c "[" = false
                     /\ Ascii.eqb c "{" = false).
    { destruct c as [[] [] [] [] [] [] [] []]; try (by vm_compute in Hc); by repeat split. }
    destruct Hother as (-> & -> & -> & -> & -> & ->). rewrite Hc, Hn. reflexivity.
  - cbn [JSON.stringify].
    destruct (parse_chars_quote s rest) as (body & -> & Hbody).
    cbn -[JSON.parse_chars]. rewrite Hbody. reflexivity.
  - cbn [JSON.stringify]. norm_app. destruct xs as [|x xs]; [reflexivity|].
    cbn [JSON.size] in Hfuel.
    pose proof (parse_elements_stringify (x :: xs) IH ltac:(done) fuel rest ltac:(lia)) as Hel.
    destruct (join_head JSON.stringify x xs (String "]" rest)) as (k' & Hk).
    destruct (stringify_head x k') as (c & b' & Hb & Hc).
    rewrite Hk, Hb in Hel |- *.
    cbn [JSON.parse_value JSON.skip_ws JSON.is_ws]. cbn -[JSON.parse_elements JSON.skip_ws Js.strip_prefix].
    rewrite skip_ws_opening by done.
    rewrite strip_bracket_opening by done.
    rewrite Hel. reflexivity.
  - cbn [JSON.stringify]. norm_app. destruct fields as [|kv fields]; [reflexivity|].
    cbn [JSON.size] in Hfuel.
    pose proof (parse_members_stringify (kv :: fields) IH ltac:(done) fuel rest ltac:(lia)) as Hel.
    destruct (join_head (fun kv => JSON.quote (fst kv) +:+ ":" +:+ JSON.stringify (snd kv))
                kv fields (String "}" rest)) as (k' & Hk).
    rewrite Hk in Hel |- *. revert Hel. unfold JSON.quote. norm_app. intros Hel.
    cbn [JSON.parse_value JSON.skip_ws JSON.is_ws]. cbn -[JSON.parse_members JSON.skip_ws Js.strip_prefix].
    rewrite Hel. reflexivity.
Qed.

Lemma size_le_length v : JSON.size v <= String.length (JSON.stringify v).
Proof.
  induction v as [ | b | n | s | xs IH | fields IH] using json_ind.
  - cbn. lia.
  - destruct b; cbn; lia.
  - cbn [JSON.stringify JSON.size].
    destruct (numeral_text_head n "") as (c & body & -> & _). cbn. lia.
  - cbn. lia.
  - cbn [JSON.stringify JSON.size]. rewrite !length_app_s. cbn [String.length].
    enough (list_sum (List.map (fun x => S (JSON.size x)) xs)
            <= S (String.length (Js.join "," (List.map JSON.stringify xs)))) by lia.
    induction IH as [|x xs Hx Hxs IHxs]; [cbn; lia|].
    rewrite list_sum_map_cons. destruct xs as [|y ys].
    + cbn. lia.
    + change (Js.join "," (List.map JSON.stringify (x :: y :: ys)))
        with (JSON.stringify x +:+ "," +:+ Js.join "," (List.map JSON.stringify (y :: ys))).
      rewrite !length_app_s. cbn [String.length]. lia.
  - cbn [JSON.stringify JSON.size]. rewrite !length_app_s. cbn [String.length].
    enough (list_sum (List.map (fun kv => S (JSON.size (snd kv))) fields)
            <= S (String.length (Js.join ","
                   (List.map (fun kv => JSON.quote (fst kv) +:+ ":" +:+ JSON.stringify (snd kv)) fields))))
      by lia.
    induction IH as [|[k x] fields Hx Hfs IHfs]; [cbn; lia|].
    rewrite list_sum_map_cons. cbn [snd] in *. destruct fields as [|kv fields'].
    + cbn [List.map Js.join fst snd list_sum fold_right]. rewrite !length_app_s. lia.
    + change (Js.join "," (List.map (fun kv => JSON.quote (fst kv) +:+ ":" +:+ JSON.stringify (snd kv))
                             ((k, x) :: kv :: fields')))
        with ((JSON.quote k +:+ ":" +:+ JSON.stringify x) +:+ "," +:+
              Js.join "," (List.map (fun kv => JSON.quote (fst kv) +:+ ":" +:+ JSON.stringify (snd kv))
                             (kv :: fields'))).
      rewrite !length_app_s. cbn [String.length]. lia.
Qed.

(** [JSON.parse(JSON.stringify(v))] is [v]. *)
Lemma parse_stringify v : JSON.parse (JSON.stringify v) = Some v.
Proof.
  unfold JSON.parse.
  rewrite <- (app_empty_r (JSON.stringify v)) at 2.
  rewrite parse_value_stringify by (first [exact I | pose proof (size_le_length v); lia]).
  reflexivity.
Qed.

(** A text written by [JSON.stringify] has no U+FEFF at its head. *)
Lemma strip_bom_stringify v : Js.strip_bom (JSON.stringify v) = JSON.stringify v.
Proof.
  destruct v as [ | [] | n | s | xs | fields]; try reflexivity.
  cbn [JSON.stringify]. destruct (numeral_text_head n "") as (c & body & -> & Hc).
  unfold Js.strip_bom, Js.BOM. cbn [Js.strip_prefix].
  destruct c as [[] [] [] [] [] [] [] []]; try reflexivity; by vm_compute in Hc.
Qed.

Lemma req_json_stringify v : ChatRoute.req_json (JSON.stringify v) = Some v.
Proof. unfold ChatRoute.req_json. by rewrite strip_bom_stringify, parse_stringify. Qed.

(** ** The persistence endpoint on the requests of the facade *)

Lemma handle_save user chatId chatData b :
  ChatRoute.handle user (saveRequest chatId chatData) b
  = Js.Returned
      (ChatRoute.NextResponse_json (JSON.JObject [("success", JSON.JBool true)]) 200,
       S3.putObject (keyOf (ChatRoute.id user) chatId) (JSON.stringify chatData) b).
Proof. unfold ChatRoute.handle, saveRequest. rewrite req_json_stringify. reflexivity. Qed.

Lemma handle_get user chatId b :
  ChatRoute.handle user (getRequest chatId) b
  = match b !! keyOf (ChatRoute.id user) chatId with
    | None => Js.Thrown "NoSuchKey"
    | Some data =>
        if Js.truthy data then
          match JSON.parse data with
          | Some value =>
              Js.Returned (ChatRoute.NextResponse_json (JSON.JObject [("data", value)]) 200, b)
          | None => Js.Thrown "SyntaxError"
          end
        else Js.Returned (ChatRoute.NextResponse_json (JSON.JObject [("data", JSON.JNull)]) 200, b)
    end.
Proof.
  unfold ChatRoute.handle, getRequest. rewrite req_json_stringify.
  cbn -[JSON.parse JSON.stringify]. unfold S3.getObject, keyOf.
  destruct (b !! _); reflexivity.
Qed.

Lemma handle_list user b :
  ChatRoute.handle user listRequest b
  = Js.Returned
      (ChatRoute.NextResponse_json
         (JSON.JObject
            [("chatIds",
              JSON.JArray
                (List.map JSON.JString
                   (filter (fun s => Js.truthy s = true)
                      (List.map ChatRoute.chatIdOfPrefix
                         (S3.listCommonPrefixes (ChatRoute.id user +:+ "/chats/") "/" b)))))]) 200,
       b).
Proof. unfold ChatRoute.handle, listRequest. rewrite req_json_stringify. reflexivity. Qed.

Lemma truthy_stringify v : Js.truthy (JSON.stringify v) = true.
Proof.
  destruct (stringify_head v "") as (c & body & H & _).
  rewrite app_empty_r in H. rewrite H. reflexivity.
Qed.

Lemma saveChatToS3_signed_in user b userId chatId chatData :
  Facade.saveChatToS3 userId chatId chatData
    {| Facade.session := Some user; Facade.bucket := b |}
  = (Js.Returned tt,
     {| Facade.session := Some user;
        Facade.bucket := <[keyOf (ChatRoute.id user) chatId := JSON.stringify chatData]> b |}).
Proof.
  unfold Facade.saveChatToS3, Facade.fetch, ChatRoute.POST. cbn [Facade.session Facade.bucket].
  fold (saveRequest chatId chatData). rewrite handle_save. reflexivity.
Qed.

Lemma getChatFromS3_stored user b userId chatId value :
  b !! keyOf (ChatRoute.id user) chatId = Some (JSON.stringify value) ->
  Facade.getChatFromS3 userId chatId {| Facade.session := Some user; Facade.bucket := b |}
  = (Some value, {| Facade.session := Some user; Facade.bucket := b |}).
Proof.
  intros Hb.
  unfold Facade.getChatFromS3, Facade.fetch, ChatRoute.POST. cbn [Facade.session Facade.bucket].
  fold (getRequest chatId). rewrite handle_get, Hb, truthy_stringify, parse_stringify.
  unfold ChatRoute.NextResponse_json. cbn [ChatRoute.ok ChatRoute.status ChatRoute.body].
  rewrite parse_stringify. reflexivity.
Qed.

(** Records with the same JavaScript object are the same record. *)
Lemma ChatData_js_inj d1 d2 : Facade.ChatData_js d1 = Facade.ChatData_js d2 -> d1 = d2.
Proof.
  destruct d1 as [i1 m1 c1 u1], d2 as [i2 m2 c2 u2]. unfold Facade.ChatData_js. cbn.
  intros H. injection H as -> Hm -> ->. f_equal.
  revert m2 Hm. induction m1 as [|[r1 t1] m1 IH]; intros [|[r2 t2] m2] Hm; try discriminate.
  - reflexivity.
  - cbn in Hm. injection Hm as Hr -> Hm. f_equal; [|by apply IH].
    destruct r1, r2; try discriminate; reflexivity.
Qed.

(** C1.  With somebody signed in, [saveChatToS3] of a record of the
    [ChatData] shape succeeds, and [getChatFromS3] of the same chat id then
    returns the record that was saved, whatever the [userId] arguments and
    the earlier contents of the bucket.  (A record is determined by the
    object that stands for it: [ChatData_js_inj].) *)
Theorem save_then_load_round_trip :
  forall (user : ChatRoute.User) (b : S3.Bucket) (userId userId' chatId : string)
         (record : Facade.ChatData),
    let w := {| Facade.session := Some user; Facade.bucket := b |} in
    let saved := Facade.saveChatToS3 userId chatId (Facade.ChatData_js record) w in
    saved.1 = Js.Returned tt
    /\ (Facade.getChatFromS3 userId' chatId saved.2).1 = Some (Facade.ChatData_js record).
Proof.
  intros user b userId userId' chatId record w saved. subst w saved.
  rewrite saveChatToS3_signed_in. cbn [fst snd]. split; [reflexivity|].
  erewrite getChatFromS3_stored by apply lookup_insert_eq. reflexivity.
Qed.


(** ** The object store: listings *)

Lemma compare_no_Gt_trans a : forall b c,
  String.compare a b <> Gt -> String.compare b c <> Gt -> String.compare a c <> Gt.
Proof.
  induction a as [|x a IH]; intros [|y b] [|z c]; cbn; try done.
  change (Ascii.compare x y) with (N.compare (N_of_ascii x) (N_of_ascii y)).
  change (Ascii.compare y z) with (N.compare (N_of_ascii y) (N_of_ascii z)).
  change (Ascii.compare x z) with (N.compare (N_of_ascii x) (N_of_ascii z)).
  destruct (N.compare_spec (N_of_ascii x) (N_of_ascii y)) as [Hxy|Hxy|Hxy]; [| |done];
  destruct (N.compare_spec (N_of_ascii y) (N_of_ascii z)) as [Hyz|Hyz|Hyz]; try done;
  destruct (N.compare_spec (N_of_ascii x) (N_of_ascii z)) as [Hxz|Hxz|Hxz]; try done; try lia.
  apply IH.
Qed.

#[local] Instance before_trans : Transitive S3.before.
Proof.
  intros a b c. unfold S3.before, String.leb. intros H1 H2.
  pose proof (compare_no_Gt_trans a b c) as H.
  destruct (String.compare a b), (String.compare b c), (String.compare a c); try done;
    exfalso; by apply H.
Qed.

#[local] Instance before_total : Total S3.before.
Proof. intros a b. apply String.leb_total. Qed.

#[local] Instance before_antisym : AntiSymm eq S3.before.
Proof. intros a b. apply String.leb_antisym. Qed.

Lemma elem_of_keysUnder prefix (b : S3.Bucket) k :
  k ∈ S3.keysUnder prefix b <-> is_Some (b !! k) /\ Js.startsWith k prefix = true.
Proof.
  unfold S3.keysUnder. rewrite merge_sort_Permutation, list_elem_of_filter, list_elem_of_fmap.
  split.
  - intros (Hp & [k' v] & -> & Hk). apply elem_of_map_to_list in Hk. split; [by eexists|done].
  - intros ([v Hv] & Hp). split; [done|]. exists (k, v). split; [done|].
    by apply elem_of_map_to_list.
Qed.

Lemma NoDup_keysUnder prefix (b : S3.Bucket) : NoDup (S3.keysUnder prefix b).
Proof.
  unfold S3.keysUnder. rewrite merge_sort_Permutation.
  apply NoDup_filter, NoDup_fst_map_to_list.
Qed.

(** A listing depends on the keys under its prefix only. *)
Lemma keysUnder_ext prefix (b b' : S3.Bucket) :
  (forall k, Js.startsWith k prefix = true -> (is_Some (b !! k) <-> is_Some (b' !! k))) ->
  S3.keysUnder prefix b = S3.keysUnder prefix b'.
Proof.
  intros H. apply (StronglySorted_unique S3.before _).
  - unfold S3.keysUnder. apply (StronglySorted_merge_sort S3.before); apply _.
  - unfold S3.keysUnder. apply (StronglySorted_merge_sort S3.before); apply _.
  - apply NoDup_Permutation; [apply NoDup_keysUnder..|].
    intros k. rewrite !elem_of_keysUnder. split; intros [Hk Hp]; (split; [by apply (H k Hp)|done]).
Qed.

Lemma listCommonPrefixes_ext prefix d (b b' : S3.Bucket) :
  (forall k, Js.startsWith k prefix = true -> (is_Some (b !! k) <-> is_Some (b' !! k))) ->
  S3.listCommonPrefixes prefix d b = S3.listCommonPrefixes prefix d b'.
Proof.
  intros H. unfold S3.listCommonPrefixes, S3.listing. by rewrite (keysUnder_ext prefix b b' H).
Qed.

Lemma commonPrefix_startsWith prefix d key cp :
  S3.commonPrefix prefix d key = Some cp -> Js.startsWith key prefix = true.
Proof.
  unfold S3.commonPrefix, Js.startsWith. by destruct (Js.strip_prefix prefix key).
Qed.

Lemma elem_of_listing prefix d (b : S3.Bucket) e :
  e ∈ S3.listing prefix d b
  <-> exists k, is_Some (b !! k) /\ Js.startsWith k prefix = true /\ e = S3.entry prefix d k.
Proof.
  unfold S3.listing. rewrite elem_of_remove_dups, list_elem_of_fmap. split.
  - intros (k & -> & Hk). apply elem_of_keysUnder in Hk as [Hk Hp]. by exists k.
  - intros (k & Hk & Hp & ->). exists k. split; [done|]. by apply elem_of_keysUnder.
Qed.

Lemma NoDup_listing prefix d (b : S3.Bucket) : NoDup (S3.listing prefix d b).
Proof. apply NoDup_remove_dups. Qed.

Lemma elem_of_commonPrefixes (l : list S3.Entry) cp :
  cp ∈ omap S3.isCommonPrefix l <-> S3.CommonPrefix cp ∈ l.
Proof.
  rewrite list_elem_of_omap. split.
  - intros ([k|cp'] & He & Hcp); [discriminate|]. cbn in Hcp. by simplify_eq.
  - intros He. by exists (S3.CommonPrefix cp).
Qed.

Lemma elem_of_take {A} (x : A) n l : x ∈ take n l -> x ∈ l.
Proof. intros H. rewrite <- (take_drop n l). apply elem_of_app. by left. Qed.

(** What one answer of the store lists is a common prefix of a stored
    key. *)
Lemma elem_of_listCommonPrefixes_stored prefix d (b : S3.Bucket) cp :
  cp ∈ S3.listCommonPrefixes prefix d b ->
  exists key, is_Some (b !! key) /\ S3.commonPrefix prefix d key = Some cp.
Proof.
  unfold S3.listCommonPrefixes. rewrite elem_of_commonPrefixes. intros H.
  apply elem_of_take, elem_of_listing in H as (k & Hk & Hp & He).
  exists k. split; [done|]. unfold S3.entry in He.
  destruct (S3.commonPrefix prefix d k); by simplify_eq.
Qed.

(** When the listing fits into one answer, every common prefix is there. *)
Lemma elem_of_listCommonPrefixes_any prefix d (b : S3.Bucket) cp :
  length (S3.listing prefix d b) <= S3.MaxKeys ->
  cp ∈ S3.listCommonPrefixes prefix d b
  <-> exists key, is_Some (b !! key) /\ S3.commonPrefix prefix d key = Some cp.
Proof.
  intros Hpage. split; [apply elem_of_listCommonPrefixes_stored|].
  intros (key & Hkey & Hcp). unfold S3.listCommonPrefixes.
  rewrite elem_of_commonPrefixes, take_ge by exact Hpage.
  apply elem_of_listing. exists key. split; [done|].
  split; [by eapply commonPrefix_startsWith|]. unfold S3.entry. by rewrite Hcp.
Qed.

Lemma NoDup_commonPrefixes (l : list S3.Entry) : NoDup l -> NoDup (omap S3.isCommonPrefix l).
Proof.
  induction 1 as [|e l Hnotin Hnd IH]; [constructor|].
  destruct e as [k|cp]; cbn [omap list_omap S3.isCommonPrefix]; [exact IH|].
  constructor; [|exact IH]. intros Hin. apply Hnotin.
  by apply elem_of_commonPrefixes.
Qed.

Lemma NoDup_take {A} n (l : list A) : NoDup l -> NoDup (take n l).
Proof.
  intros H. rewrite <- (take_drop n l) in H. by apply NoDup_app in H as [H _].
Qed.

Lemma NoDup_listCommonPrefixes prefix d (b : S3.Bucket) :
  NoDup (S3.listCommonPrefixes prefix d b).
Proof. apply NoDup_commonPrefixes, NoDup_take, NoDup_listing. Qed.

(** One answer lists [MaxKeys] common prefixes at most. *)
Lemma length_listCommonPrefixes prefix d (b : S3.Bucket) :
  length (S3.listCommonPrefixes prefix d b) <= S3.MaxKeys.
Proof.
  unfold S3.listCommonPrefixes.
  assert (H : forall l : list S3.Entry, length (omap S3.isCommonPrefix l) <= length l).
  { induction l as [|[k|cp] l IH]; cbn; lia. }
  etransitivity; [apply H|]. apply firstn_le_length.
Qed.

(** ** C2: which identity the storage key is formed from *)

Lemma strip_prefix_app p s : Js.strip_prefix p (p +:+ s) = Some s.
Proof.
  induction p as [|a p IH]; [reflexivity|].
  rewrite app_String. cbn [Js.strip_prefix]. by rewrite Ascii.eqb_refl.
Qed.

Lemma recordKey_namespace user chatId key :
  ChatRoute.recordKey user chatId = Js.Returned key ->
  Js.startsWith key (ChatRoute.id user +:+ "/chats/") = true.
Proof.
  unfold ChatRoute.recordKey. destruct (ChatRoute.template chatId) as [t|e]; [|discriminate].
  intros [= <-]. unfold Js.startsWith.
  replace (ChatRoute.id user +:+ "/chats/" +:+ t +:+ "/data.json")
    with ((ChatRoute.id user +:+ "/chats/") +:+ t +:+ "/data.json")
    by (by rewrite app_assoc_s).
  by rewrite strip_prefix_app.
Qed.

Lemma POST_bucket_change user body b k :
  (ChatRoute.POST (Some user) body b).2 !! k <> b !! k ->
  exists chatId, ChatRoute.recordKey user chatId = Js.Returned k.
Proof.
  unfold ChatRoute.POST, ChatRoute.handle. intros H.
  repeat (case_match; simplify_eq/=; try done).
  all: try (unfold S3.putObject in H;
            match type of H with
            | <[?key := _]> _ !! _ <> _ =>
                destruct (decide (key = k)) as [<-|Hne];
                [eexists; eassumption | by rewrite lookup_insert_ne in H]
            end).
Qed.

Lemma handle_fields user f1 f2 b :
  sameRequestFields f1 f2 ->
  ChatRoute.handle user (JSON.stringify (JSON.JObject f1)) b
  = ChatRoute.handle user (JSON.stringify (JSON.JObject f2)) b.
Proof.
  intros (Ha & Hc & Hd). unfold ChatRoute.handle. rewrite !req_json_stringify.
  cbn [JSON.get]. rewrite Ha, Hc, Hd. reflexivity.
Qed.

(** The answer to a request depends on the records of the session's user
    only. *)
Lemma handle_namespace user body (b b' : S3.Bucket) :
  (forall k, Js.startsWith k (ChatRoute.id user +:+ "/chats/") = true -> b !! k = b' !! k) ->
  match ChatRoute.handle user body b, ChatRoute.handle user body b' with
  | Js.Returned (r, _), Js.Returned (r', _) => r = r'
  | Js.Thrown _, Js.Thrown _ => True
  | _, _ => False
  end.
Proof.
  intros Hsame.
  assert (Hlist : S3.listCommonPrefixes (ChatRoute.id user +:+ "/chats/") "/" b
                  = S3.listCommonPrefixes (ChatRoute.id user +:+ "/chats/") "/" b').
  { apply listCommonPrefixes_ext. intros k Hk. by rewrite (Hsame k Hk). }
  unfold ChatRoute.handle. rewrite Hlist.
  destruct (ChatRoute.req_json body) as [request|]; [|done].
  destruct (ChatRoute.recordKey user (JSON.get "chatId" request)) as [key|e] eqn:Ekey.
  - apply recordKey_namespace in Ekey. unfold S3.getObject. rewrite (Hsame key Ekey).
    repeat (case_match; simplify_eq/=; try done).
  - repeat (case_match; simplify_eq/=; try done).
Qed.

(** C2, as the code has it.  The key of a record is formed from the id of
    the session's user and the [chatId] of the request: (1) the [userId]
    the facade functions take never reaches the endpoint; (2) two request
    objects with the same [action], [chatId] and [chatData] are answered
    alike, whatever other fields (a [userId], say) they carry; (3) whatever
    the request, every key the endpoint writes lies under
    [`${user.id}/chats/`] for the session's user, and (4) the answer
    depends on the records under that prefix only; (5) for a request whose
    [chatId] is a string, the one key that can change is
    [`${user.id}/chats/${chatId}/data.json`], a save writes it, and the
    answer to a get depends on what is stored under it only; (6) a list
    request is answered from the listing under [`${user.id}/chats/`];
    (7) without a session the answer is 401 and the bucket is left as it
    was. *)
Theorem storage_key_bound_to_session :
  (forall w userId1 userId2 chatId chatData,
      Facade.saveChatToS3 userId1 chatId chatData w = Facade.saveChatToS3 userId2 chatId chatData w
      /\ Facade.getChatFromS3 userId1 chatId w = Facade.getChatFromS3 userId2 chatId w
      /\ Facade.listUserChats userId1 w = Facade.listUserChats userId2 w)
  /\ (forall session f1 f2 b,
         sameRequestFields f1 f2 ->
         ChatRoute.POST session (JSON.stringify (JSON.JObject f1)) b
         = ChatRoute.POST session (JSON.stringify (JSON.JObject f2)) b)
  /\ (forall user body b k,
         (ChatRoute.POST (Some user) body b).2 !! k <> b !! k ->
         Js.startsWith k (ChatRoute.id user +:+ "/chats/") = true)
  /\ (forall user body (b b' : S3.Bucket),
         (forall k, Js.startsWith k (ChatRoute.id user +:+ "/chats/") = true -> b !! k = b' !! k) ->
         (ChatRoute.POST (Some user) body b).1 = (ChatRoute.POST (Some user) body b').1)
  /\ (forall user fields chatId (b : S3.Bucket),
         JSON.lookup_field "chatId" fields = Some (JSON.JString chatId) ->
         let body := JSON.stringify (JSON.JObject fields) in
         let key := ChatRoute.id user +:+ "/chats/" +:+ chatId +:+ "/data.json" in
         (forall k, k <> key -> (ChatRoute.POST (Some user) body b).2 !! k = b !! k)
         /\ (JSON.lookup_field "action" fields = Some (JSON.JString "save") ->
             is_Some ((ChatRoute.POST (Some user) body b).2 !! key))
         /\ (JSON.lookup_field "action" fields = Some (JSON.JString "get") ->
             forall b' : S3.Bucket,
               b !! key = b' !! key ->
               (ChatRoute.POST (Some user) body b).1 = (ChatRoute.POST (Some user) body b').1))
  /\ (forall user fields (b : S3.Bucket),
         JSON.lookup_field "action" fields = Some (JSON.JString "list") ->
         ChatRoute.POST (Some user) (JSON.stringify (JSON.JObject fields)) b
         = (ChatRoute.NextResponse_json
              (JSON.JObject
                 [("chatIds",
                   JSON.JArray
                     (List.map JSON.JString
                        (filter (fun s => Js.truthy s = true)
                           (List.map ChatRoute.chatIdOfPrefix
                              (S3.listCommonPrefixes (ChatRoute.id user +:+ "/chats/") "/" b)))))])
              200, b))
  /\ (forall body b,
         ChatRoute.POST None body b
         = (ChatRoute.NextResponse_json (JSON.JObject [("error", JSON.JString "Unauthorized")]) 401, b)).
Proof.
  split; [|split; [|split; [|split; [|split; [|split]]]]].
  - intros. repeat split; reflexivity.
  - intros [user|] f1 f2 b H; [|reflexivity].
    unfold ChatRoute.POST. by rewrite (handle_fields user f1 f2 b H).
  - intros user body b k H. destruct (POST_bucket_change user body b k H) as [chatId Hkey].
    by apply recordKey_namespace in Hkey.
  - intros user body b b' Hsame. unfold ChatRoute.POST.
    pose proof (handle_namespace user body b b' Hsame) as H.
    destruct (ChatRoute.handle user body b) as [[r b1]|e],
             (ChatRoute.handle user body b') as [[r' b2]|e'];
      first [done | cbn [fst]; by subst].
  - intros user fields chatId b Hid body key. subst body key.
    fold (keyOf (ChatRoute.id user) chatId).
    unfold ChatRoute.POST, ChatRoute.handle. rewrite req_json_stringify.
    cbn [JSON.get]. rewrite Hid.
    change (ChatRoute.recordKey user (Some (JSON.JString chatId)))
      with (Js.Returned (A:=string) (keyOf (ChatRoute.id user) chatId)).
    split; [|split].
    + intros k Hk.
      repeat (case_match; simplify_eq/=; try done).
      all: unfold S3.putObject; by rewrite lookup_insert_ne.
    + intros ->. cbn. unfold S3.putObject. rewrite lookup_insert_eq. by eexists.
    + intros -> b' Hsame. cbn. unfold S3.getObject. rewrite Hsame.
      repeat (case_match; simplify_eq/=; try done).
  - intros user fields b Haction.
    unfold ChatRoute.POST, ChatRoute.handle. rewrite req_json_stringify.
    cbn [JSON.get]. rewrite Haction. reflexivity.
  - reflexivity.
Qed.

(** C2 as stated fails: in alice's session, a save made with the [userId]
    "mallory" (as the facade's argument, or as a field of the request)
    writes alice's key and nothing under mallory's. *)
Lemma request_userId_does_not_reach_the_key :
  let w := {| Facade.session := Some alice; Facade.bucket := ∅ |} in
  let viaFacade := Facade.bucket (Facade.saveChatToS3 "mallory" "1" (Facade.ChatData_js hello) w).2 in
  let forged := (ChatRoute.POST (Some alice) forgedSave ∅).2 in
  viaFacade !! "mallory/chats/1/data.json" = None
  /\ viaFacade !! "alice/chats/1/data.json" = Some (JSON.stringify (Facade.ChatData_js hello))
  /\ forged !! "mallory/chats/1/data.json" = None
  /\ forged !! "alice/chats/1/data.json" = Some (JSON.stringify (Facade.ChatData_js hello)).
Proof. vm_compute. repeat split; reflexivity. Qed.

Lemma storage_key_bound_to_session_witness :
  let f1 := [("action", JSON.JString "save"); ("userId", JSON.JString "mallory");
             ("chatId", JSON.JString "1"); ("chatData", Facade.ChatData_js hello)] in
  let f2 := [("action", JSON.JString "save");
             ("chatId", JSON.JString "1"); ("chatData", Facade.ChatData_js hello)] in
  sameRequestFields f1 f2
  /\ ChatRoute.POST (Some alice) (JSON.stringify (JSON.JObject f1)) ∅
     = ChatRoute.POST (Some alice) (JSON.stringify (JSON.JObject f2)) ∅
  /\ (ChatRoute.POST (Some alice) forgedSave ∅).2 !! "alice/chats/1/data.json"
     <> (∅ : S3.Bucket) !! "alice/chats/1/data.json"
  /\ Js.startsWith "alice/chats/1/data.json" (ChatRoute.id alice +:+ "/chats/") = true
  /\ is_Some ((ChatRoute.POST (Some alice) (JSON.stringify (JSON.JObject f1)) ∅).2
               !! "alice/chats/1/data.json").
Proof.
  intros f1 f2.
  assert (Hsame : sameRequestFields f1 f2) by (repeat split; reflexivity).
  assert (Hchange : (ChatRoute.POST (Some alice) forgedSave ∅).2 !! "alice/chats/1/data.json"
                    <> (∅ : S3.Bucket) !! "alice/chats/1/data.json")
    by (vm_compute; discriminate).
  split; [exact Hsame|]. split.
  - exact (proj1 (proj2 storage_key_bound_to_session) (Some alice) f1 f2 ∅ Hsame).
  - split; [exact Hchange|]. split.
    + exact (proj1 (proj2 (proj2 storage_key_bound_to_session)) alice forgedSave ∅ _ Hchange).
    + exact (proj1 (proj2 (proj1 (proj2 (proj2 (proj2 (proj2 storage_key_bound_to_session))))
                             alice f1 "1" ∅ eq_refl)) eq_refl).
Defined.

(** ** C6: loading an absent or a malformed record *)

Lemma getChatFromS3_failed user b userId chatId :
  ChatRoute.POST (Some user) (getRequest chatId) b = (internalServerError, b) ->
  Facade.getChatFromS3 userId chatId {| Facade.session := Some user; Facade.bucket := b |}
  = (Some JSON.JNull, {| Facade.session := Some user; Facade.bucket := b |}).
Proof.
  intros H. unfold Facade.getChatFromS3, Facade.fetch. cbn [Facade.session Facade.bucket].
  fold (getRequest chatId). rewrite H. reflexivity.
Qed.

Lemma POST_get_absent user b chatId :
  b !! keyOf (ChatRoute.id user) chatId = None ->
  ChatRoute.POST (Some user) (getRequest chatId) b = (internalServerError, b).
Proof. intros H. unfold ChatRoute.POST. rewrite handle_get, H. reflexivity. Qed.

Lemma POST_get_malformed user b chatId data :
  b !! keyOf (ChatRoute.id user) chatId = Some data ->
  data <> "" -> JSON.parse data = None ->
  ChatRoute.POST (Some user) (getRequest chatId) b = (internalServerError, b).
Proof.
  intros H Hne Hp. unfold ChatRoute.POST. rewrite handle_get, H, Hp.
  destruct data; [done|reflexivity].
Qed.

Lemma POST_get_empty user b chatId :
  b !! keyOf (ChatRoute.id user) chatId = Some "" ->
  ChatRoute.POST (Some user) (getRequest chatId) b
  = (ChatRoute.NextResponse_json (JSON.JObject [("data", JSON.JNull)]) 200, b).
Proof.
  intros H. unfold ChatRoute.POST. by rewrite handle_get, H.
Qed.

(** C6, as the code has it.  With somebody signed in: when no record is
    stored under the chat id, and also when the stored bytes are not empty
    and not valid JSON, the endpoint answers 500 "Internal server error"
    (the store's not-found error and the parse failure both reach its one
    [catch]) and [getChatFromS3] turns that answer into [null], the "no
    record" result.  Empty stored bytes are not parsed: the endpoint
    answers 200 with [null] as the data, and [getChatFromS3] gives [null]
    again. *)
Theorem load_absent_or_malformed :
  forall (user : ChatRoute.User) (b : S3.Bucket) (userId chatId : string),
    let key := ChatRoute.id user +:+ "/chats/" +:+ chatId +:+ "/data.json" in
    let w := {| Facade.session := Some user; Facade.bucket := b |} in
    (b !! key = None
     \/ (exists data, b !! key = Some data /\ data <> "" /\ JSON.parse data = None) ->
     ChatRoute.POST (Some user) (getRequest chatId) b = (internalServerError, b)
     /\ Facade.getChatFromS3 userId chatId w = (Some JSON.JNull, w))
    /\ (b !! key = Some "" ->
        ChatRoute.POST (Some user) (getRequest chatId) b
        = (ChatRoute.NextResponse_json (JSON.JObject [("data", JSON.JNull)]) 200, b)
        /\ Facade.getChatFromS3 userId chatId w = (Some JSON.JNull, w)).
Proof.
  intros user b userId chatId key w. split.
  - intros H.
    assert (Hpost : ChatRoute.POST (Some user) (getRequest chatId) b = (internalServerError, b)).
    { destruct H as [H | (data & H & Hne & Hp)].
      - by apply POST_get_absent.
      - by eapply POST_get_malformed. }
    split; [exact Hpost|]. by apply getChatFromS3_failed.
  - intros H. split; [by apply POST_get_empty|].
    subst w. unfold Facade.getChatFromS3, Facade.fetch. cbn [Facade.session Facade.bucket].
    fold (getRequest chatId). rewrite (POST_get_empty _ _ _ H).
    unfold ChatRoute.NextResponse_json. cbn [ChatRoute.ok ChatRoute.status ChatRoute.body].
    rewrite parse_stringify. reflexivity.
Qed.

Lemma load_absent_or_malformed_witness :
  (brokenBucket !! "alice/chats/1/data.json" = Some "{" /\ JSON.parse "{" = None)
  /\ Facade.getChatFromS3 "alice" "1" {| Facade.session := Some alice; Facade.bucket := brokenBucket |}
     = (Some JSON.JNull, {| Facade.session := Some alice; Facade.bucket := brokenBucket |})
  /\ Facade.getChatFromS3 "alice" "1"
       {| Facade.session := Some alice;
          Facade.bucket := <["alice/chats/1/data.json" := ""]> brokenBucket |}
     = (Some JSON.JNull,
        {| Facade.session := Some alice;
           Facade.bucket := <["alice/chats/1/data.json" := ""]> brokenBucket |}).
Proof.
  split; [split; reflexivity|]. split.
  - refine (proj2 (proj1 (load_absent_or_malformed alice brokenBucket "alice" "1") _)).
    right. exists "{". split; [reflexivity|]. split; [discriminate|reflexivity].
  - refine (proj2 (proj2 (load_absent_or_malformed alice
                            (<["alice/chats/1/data.json" := ""]> brokenBucket) "alice" "1") _)).
    apply lookup_insert_eq.
Defined.

(** C6 as stated fails: with the malformed text "{" stored for chat "1" and
    nothing stored for chat "2", loading either chat gives the same result,
    [null]. *)
Lemma malformed_record_loads_like_absent_one :
  let w := {| Facade.session := Some alice; Facade.bucket := brokenBucket |} in
  JSON.parse "{" = None
  /\ brokenBucket !! "alice/chats/1/data.json" = Some "{"
  /\ brokenBucket !! "alice/chats/2/data.json" = None
  /\ (Facade.getChatFromS3 "alice" "1" w).1 = Some JSON.JNull
  /\ (Facade.getChatFromS3 "alice" "2" w).1 = Some JSON.JNull.
Proof. vm_compute. repeat split; reflexivity. Qed.

(** ** C8: listing the chat ids of a user *)

Lemma rev_app_spec s t : String.rev_app s t = String.rev s +:+ t.
Proof.
  revert t. induction s as [|a s IH]; intros t; [reflexivity|].
  unfold String.rev. cbn [String.rev_app]. rewrite IH, (IH (String a "")).
  rewrite app_assoc_s. reflexivity.
Qed.

Lemma rev_String a s : String.rev (String a s) = String.rev s +:+ String a "".
Proof. unfold String.rev at 1. cbn [String.rev_app]. apply rev_app_spec. Qed.

Lemma split_go_app d s cur r :
  Js.includes d s = false ->
  Js.split_go d cur (s +:+ String d r) = (String.rev cur +:+ s) :: Js.split_go d "" r.
Proof.
  revert cur. induction s as [|c s IH]; intros cur H.
  - rewrite app_empty_l, app_empty_r. cbn [Js.split_go]. by rewrite Ascii.eqb_refl.
  - cbn [Js.includes] in H. apply orb_false_iff in H as [Hc Hs].
    rewrite app_String. cbn [Js.split_go]. rewrite Hc, IH by done.
    by rewrite rev_String, app_assoc_s.
Qed.

Lemma split_go_end d s cur :
  Js.includes d s = false -> Js.split_go d cur s = [String.rev cur +:+ s].
Proof.
  revert cur. induction s as [|c s IH]; intros cur H.
  - by rewrite app_empty_r.
  - cbn [Js.includes] in H. apply orb_false_iff in H as [Hc Hs].
    cbn [Js.split_go]. rewrite Hc, IH by done.
    by rewrite rev_String, app_assoc_s.
Qed.

Lemma chatIdOfPrefix_plain uid chatId :
  Js.includes "/" uid = false -> plainId chatId ->
  ChatRoute.chatIdOfPrefix ((uid +:+ "/chats/") +:+ chatId +:+ "/") = chatId.
Proof.
  intros Hu [Hne Hc]. unfold ChatRoute.chatIdOfPrefix, Js.split.
  rewrite app_assoc_s.
  change ("/chats/" +:+ chatId +:+ "/") with (String "/" ("chats" +:+ String "/" (chatId +:+ String "/" ""))).
  rewrite split_go_app by done.
  rewrite split_go_app by reflexivity.
  rewrite split_go_app by done.
  cbn [lookup list_lookup]. unfold Js.or_else. destruct chatId; [done|reflexivity].
Qed.

Lemma through_delimiter_app d s r :
  Js.includes d s = false ->
  S3.through_delimiter d (s +:+ String d r) = Some (s +:+ String d "").
Proof.
  induction s as [|c s IH]; intros H.
  - rewrite !app_empty_l. cbn. by rewrite Ascii.eqb_refl.
  - cbn [Js.includes] in H. apply orb_false_iff in H as [Hc Hs].
    rewrite !app_String. cbn [S3.through_delimiter]. rewrite Hc, IH by done. reflexivity.
Qed.

Lemma commonPrefix_record uid chatId :
  Js.includes "/" chatId = false ->
  S3.commonPrefix (uid +:+ "/chats/") "/" (keyOf uid chatId)
  = Some ((uid +:+ "/chats/") +:+ chatId +:+ "/").
Proof.
  intros H. unfold S3.commonPrefix, keyOf.
  replace (uid +:+ "/chats/" +:+ chatId +:+ "/data.json")
    with ((uid +:+ "/chats/") +:+ chatId +:+ String "/" "data.json")
    by (rewrite app_assoc_s; reflexivity).
  rewrite strip_prefix_app. cbn [mbind option_bind].
  rewrite through_delimiter_app by done. reflexivity.
Qed.

Lemma commonPrefix_outside prefix d key :
  Js.startsWith key prefix = false -> S3.commonPrefix prefix d key = None.
Proof.
  unfold Js.startsWith, S3.commonPrefix. by destruct (Js.strip_prefix prefix key).
Qed.

Lemma putAll_lookup uid records b k :
  is_Some (putAll uid records b !! k)
  <-> is_Some (b !! k) \/ exists r, r ∈ records /\ k = keyOf uid (fst r).
Proof.
  revert b. induction records as [|r records IH]; intros b; cbn [putAll foldl].
  - split; [by left|]. intros [H | (r & Hr & _)]; [done|]. by apply elem_of_nil in Hr.
  - fold (putAll uid records (<[keyOf uid (fst r) := JSON.stringify (snd r)]> b)).
    rewrite IH. rewrite lookup_insert_is_Some. split.
    + intros [[<- | [_ H]] | (r' & Hr' & ->)].
      * right. exists r. split; [left|done].
      * by left.
      * right. exists r'. split; [by right|done].
    + intros [H | (r' & Hr' & ->)].
      * destruct (decide (keyOf uid (fst r) = k)); [left; by left|left; by right].
      * apply elem_of_cons in Hr' as [-> | Hr'].
        -- left. by left.
        -- right. by exists r'.
Qed.

Lemma saveAll_signed_in user b userId records :
  saveAll userId records {| Facade.session := Some user; Facade.bucket := b |}
  = {| Facade.session := Some user; Facade.bucket := putAll (ChatRoute.id user) records b |}.
Proof.
  revert b. induction records as [|r records IH]; intros b; [reflexivity|].
  cbn [saveAll putAll foldl]. rewrite saveChatToS3_signed_in. cbn [snd]. apply IH.
Qed.

Lemma map_fmap {A B} (f : A -> B) (l : list A) : List.map f l = f <$> l.
Proof. reflexivity. Qed.

Section listing.
Variable user : ChatRoute.User.
Variable b : S3.Bucket.
Variable records : list (string * JSON.json).

Let uid := ChatRoute.id user.
Let prefix := uid +:+ "/chats/".

Hypothesis uid_plain : Js.includes "/" uid = false.
Hypothesis nothing_before : forall k, is_Some (b !! k) -> Js.startsWith k prefix = false.
Hypothesis ids_plain : Forall (fun r => plainId (fst r)) records.
Hypothesis one_page : length records <= S3.MaxKeys.

Lemma stored_commonPrefix key cp :
  is_Some (putAll uid records b !! key) ->
  S3.commonPrefix prefix "/" key = Some cp ->
  exists r, r ∈ records /\ cp = prefix +:+ fst r +:+ "/".
Proof.
  intros Hsome Hcp. apply putAll_lookup in Hsome as [Hb | (r & Hr & ->)].
  - rewrite commonPrefix_outside in Hcp by auto. discriminate.
  - exists r. split; [done|].
    pose proof (proj1 (Forall_forall _ _) ids_plain) as Hids. destruct (Hids r Hr) as [_ Hplain].
    unfold prefix in *. rewrite commonPrefix_record in Hcp by done. by simplify_eq.
Qed.

(** The listing has one common prefix for each chat id, and nothing else:
    it fits into one answer. *)
Lemma listing_one_page : length (S3.listing prefix "/" (putAll uid records b)) <= S3.MaxKeys.
Proof.
  etransitivity; [|exact one_page].
  rewrite <- (length_fmap (fun r => S3.CommonPrefix (prefix +:+ fst r +:+ "/")) records).
  apply submseteq_length, NoDup_submseteq; [apply NoDup_listing|].
  intros e He. apply elem_of_listing in He as (k & Hk & Hp & ->).
  apply list_elem_of_fmap. unfold S3.entry.
  apply putAll_lookup in Hk as [Hb | (r & Hr & ->)].
  - rewrite nothing_before in Hp by done. discriminate.
  - exists r. split; [|done].
    pose proof (proj1 (Forall_forall _ _) ids_plain) as Hids. destruct (Hids r Hr) as [_ Hplain].
    unfold prefix. by rewrite commonPrefix_record.
Qed.

Lemma elem_of_listCommonPrefixes cp :
  cp ∈ S3.listCommonPrefixes prefix "/" (putAll uid records b)
  <-> exists r, r ∈ records /\ cp = prefix +:+ fst r +:+ "/".
Proof.
  rewrite elem_of_listCommonPrefixes_any by apply listing_one_page. split.
  - intros (key & Hkey & Hcp). by eapply stored_commonPrefix.
  - intros (r & Hr & ->).
    assert (Hsome : is_Some (putAll uid records b !! keyOf uid (fst r))).
    { apply putAll_lookup. right. by exists r. }
    exists (keyOf uid (fst r)). split; [done|].
    pose proof (proj1 (Forall_forall _ _) ids_plain) as Hids. destruct (Hids r Hr) as [_ Hplain].
    unfold prefix. by rewrite commonPrefix_record.
Qed.

Lemma elem_of_listed chatId :
  chatId ∈ listed user b records <-> chatId ∈ List.map fst records.
Proof.
  unfold listed. rewrite !map_fmap, list_elem_of_filter, !list_elem_of_fmap. split.
  - intros (_ & cp & -> & Hcp). apply elem_of_listCommonPrefixes in Hcp as (r & Hr & ->).
    pose proof (proj1 (Forall_forall _ _) ids_plain) as Hids.
    exists r. split; [|done]. unfold prefix. by rewrite chatIdOfPrefix_plain by auto.
  - intros (r & -> & Hr).
    pose proof (proj1 (Forall_forall _ _) ids_plain) as Hids. destruct (Hids r Hr) as [Hne Hplain].
    split; [by destruct (fst r)|].
    exists (prefix +:+ fst r +:+ "/"). split.
    + unfold prefix. by rewrite chatIdOfPrefix_plain.
    + apply elem_of_listCommonPrefixes. by exists r.
Qed.

Lemma NoDup_listed : NoDup (listed user b records).
Proof.
  unfold listed. apply NoDup_filter. rewrite map_fmap.
  apply NoDup_fmap_2_strong; [|apply NoDup_listCommonPrefixes].
  intros cp1 cp2 H1 H2 Heq.
  apply elem_of_listCommonPrefixes in H1 as (r1 & Hr1 & ->).
  apply elem_of_listCommonPrefixes in H2 as (r2 & Hr2 & ->).
  pose proof (proj1 (Forall_forall _ _) ids_plain) as Hids. unfold prefix in Heq.
  rewrite !chatIdOfPrefix_plain in Heq by auto. by rewrite Heq.
Qed.

Lemma listUserChats_listed userId :
  Facade.listUserChats userId
    (saveAll userId records {| Facade.session := Some user; Facade.bucket := b |})
  = (Some (JSON.JArray (List.map JSON.JString (listed user b records))),
     {| Facade.session := Some user; Facade.bucket := putAll uid records b |}).
Proof.
  rewrite saveAll_signed_in.
  unfold Facade.listUserChats, Facade.fetch, ChatRoute.POST. cbn [Facade.session Facade.bucket].
  fold listRequest. rewrite handle_list.
  unfold ChatRoute.NextResponse_json. cbn [ChatRoute.ok ChatRoute.status ChatRoute.body].
  rewrite parse_stringify. reflexivity.
Qed.
End listing.

Lemma listCommonPrefixes_nothing prefix d (b : S3.Bucket) :
  (forall k, is_Some (b !! k) -> Js.startsWith k prefix = false) ->
  S3.listCommonPrefixes prefix d b = [].
Proof.
  intros Hb.
  destruct (S3.listCommonPrefixes prefix d b) as [|cp l] eqn:E; [reflexivity|].
  assert (Hcp : cp ∈ S3.listCommonPrefixes prefix d b) by (rewrite E; left).
  apply elem_of_listCommonPrefixes_stored in Hcp as (key & Hkey & Hcp).
  apply commonPrefix_startsWith in Hcp. rewrite Hb in Hcp by done. discriminate.
Qed.

(** C8, as the code has it.  Let somebody be signed in and let nothing be
    stored under that user's prefix.  (1) With nothing saved,
    [listUserChats] returns the empty array, and the endpoint answers 200.
    (2) When the user's id is free of "/" and records are saved under chat
    ids that are not empty and free of "/", no more of them than one
    answer of the store holds, [listUserChats] returns an array without
    repetitions whose members are exactly the ids saved (a permutation of
    them when they are distinct), and the endpoint answers 200. *)
Theorem listUserChats_after_saves :
  forall (user : ChatRoute.User) (b : S3.Bucket) (userId : string),
    (forall k, is_Some (b !! k) -> Js.startsWith k (ChatRoute.id user +:+ "/chats/") = false) ->
    (let w := {| Facade.session := Some user; Facade.bucket := b |} in
     (Facade.listUserChats userId w).1 = Some (JSON.JArray [])
     /\ ChatRoute.status (ChatRoute.POST (Facade.session w) listRequest (Facade.bucket w)).1 = 200)
    /\ forall records : list (string * JSON.json),
         Js.includes "/" (ChatRoute.id user) = false ->
         Forall (fun r => plainId (fst r)) records ->
         length records <= S3.MaxKeys ->
         let w := saveAll userId records {| Facade.session := Some user; Facade.bucket := b |} in
         exists ids : list string,
           (Facade.listUserChats userId w).1 = Some (JSON.JArray (List.map JSON.JString ids))
           /\ ChatRoute.status
                (ChatRoute.POST (Facade.session w) listRequest (Facade.bucket w)).1 = 200
           /\ NoDup ids
           /\ (forall chatId, chatId ∈ ids <-> chatId ∈ List.map fst records)
           /\ (NoDup (List.map fst records) -> ids ≡ₚ List.map fst records).
Proof.
  intros user b userId Hb. split.
  - cbn zeta. cbn [Facade.session Facade.bucket].
    pose proof (listUserChats_listed user b [] userId) as H.
    cbn [saveAll putAll foldl] in H. rewrite H. unfold listed, ChatRoute.POST.
    rewrite handle_list. cbn [putAll foldl].
    rewrite (listCommonPrefixes_nothing _ _ b Hb). split; reflexivity.
  - intros records Hu Hids Hpage w.
    exists (listed user b records). subst w.
    rewrite listUserChats_listed. rewrite saveAll_signed_in. cbn [fst Facade.session Facade.bucket].
    split; [reflexivity|]. split.
    { unfold ChatRoute.POST. rewrite handle_list. reflexivity. }
    split; [by apply NoDup_listed|].
    split; [intros chatId; by apply elem_of_listed|].
    intros Hnd. apply NoDup_Permutation; [by apply NoDup_listed|done|].
    intros chatId. by apply elem_of_listed.
Qed.

Lemma listUserChats_after_saves_witness :
  let records := [("1717171717171", Facade.ChatData_js hello); ("1717171717172", JSON.JNull)] in
  let w := saveAll "alice" records {| Facade.session := Some alice; Facade.bucket := ∅ |} in
  exists ids : list string,
    (Facade.listUserChats "alice" w).1 = Some (JSON.JArray (List.map JSON.JString ids))
    /\ ChatRoute.status (ChatRoute.POST (Facade.session w) listRequest (Facade.bucket w)).1 = 200
    /\ NoDup ids
    /\ (forall chatId, chatId ∈ ids <-> chatId ∈ List.map fst records)
    /\ (NoDup (List.map fst records) -> ids ≡ₚ List.map fst records).
Proof.
  intros records.
  assert (Hnothing : forall k, is_Some ((∅ : S3.Bucket) !! k) ->
                               Js.startsWith k (ChatRoute.id alice +:+ "/chats/") = false).
  { intros k [x Hx]. rewrite lookup_empty in Hx. discriminate. }
  apply (proj2 (listUserChats_after_saves alice ∅ "alice" Hnothing) records).
  - reflexivity.
  - repeat constructor; discriminate.
  - subst records. unfold S3.MaxKeys. cbn [length]. lia.
Defined.

(** C8 as stated fails: after saving the one chat id "a/b" for alice, the
    listing returns the one id "a". *)
Lemma listUserChats_splits_an_id_with_a_slash :
  let w := saveAll "alice" [("a/b", Facade.ChatData_js hello)]
             {| Facade.session := Some alice; Facade.bucket := ∅ |} in
  (Facade.listUserChats "alice" w).1 = Some (JSON.JArray [JSON.JString "a"]).
Proof. vm_compute. reflexivity. Qed.

(** ** C3 and C4: the stream relay *)

Lemma bind_unfold {A B} (m : GeminiRoute.Action A) (k : A -> GeminiRoute.Action B) c :
  (m ≫= k) c = match m c with
               | (Js.Returned a, c') => k a c'
               | (Js.Thrown e, c') => (Js.Thrown e, c')
               end.
Proof. reflexivity. Qed.

Ltac relay_step :=
  repeat first
    [ rewrite bind_unfold
    | progress cbn [GeminiRoute.chunk_text GeminiRoute.ret GeminiRoute.throw GeminiRoute.note
                      GeminiRoute.enqueue GeminiRoute.close GeminiRoute.error
                      GeminiRoute.generateContentStream
                      GeminiRoute.controller GeminiRoute.events
                      GeminiRoute.state GeminiRoute.enqueued] ].

Lemma leadingFragments_fragmentsThen fragments rest :
  leadingFragments (fragmentsThen fragments rest) = fragments ++ leadingFragments rest.
Proof.
  induction fragments as [|f fragments IH]; [reflexivity|].
  cbn [fragmentsThen foldr leadingFragments]. fold (fragmentsThen fragments rest). by rewrite IH.
Qed.

Lemma failureOf_fragmentsThen fragments rest :
  failureOf (fragmentsThen fragments rest) = failureOf rest.
Proof. induction fragments as [|f fragments IH]; [reflexivity|]. exact IH. Qed.

Lemma lastTurn_fragmentsThen fragments rest :
  lastTurn (fragmentsThen fragments rest) = lastTurn rest.
Proof. induction fragments as [|f fragments IH]; [reflexivity|]. exact IH. Qed.


(** The iteration of a stream, turn by turn: every fragment is enqueued
    before the stream is asked again. *)
Lemma forAwait_run stream queue log :
  GeminiRoute.forAwait stream
    {| GeminiRoute.controller :=
         {| GeminiRoute.enqueued := queue; GeminiRoute.state := GeminiRoute.Readable |};
       GeminiRoute.events := log |}
  = (match failureOf stream with None => Js.Returned tt | Some e => Js.Thrown e end,
     {| GeminiRoute.controller :=
          {| GeminiRoute.enqueued := queue ++ List.map GeminiRoute.encode (leadingFragments stream);
             GeminiRoute.state := GeminiRoute.Readable |};
        GeminiRoute.events := log ++ handedOn (leadingFragments stream) ++ lastTurn stream |}).
Proof.
  revert queue log. induction stream as [|e|[f|e] rest IH]; intros queue log;
    cbn [GeminiRoute.forAwait leadingFragments failureOf lastTurn List.map handedOn flat_map].
  - relay_step. by rewrite app_nil_r.
  - relay_step. by rewrite app_nil_r.
  - relay_step. rewrite IH. fold (handedOn (leadingFragments rest)).
    by rewrite <- !app_assoc.
  - relay_step. by rewrite app_nil_r.
Qed.

(** What a run of [start] comes to, whatever the provider does. *)
Lemma start_run model prompt :
  GeminiRoute.start model prompt GeminiRoute.newRun
  = (Js.Returned tt,
     {| GeminiRoute.controller := relayed (model prompt);
        GeminiRoute.events := relayedEvents (model prompt) |}).
Proof.
  unfold GeminiRoute.start, GeminiRoute.try_catch, GeminiRoute.newRun, GeminiRoute.newController,
    relayed, relayedEvents.
  rewrite bind_unfold. unfold GeminiRoute.generateContentStream.
  destruct (model prompt) as [stream|e]; relay_step; [|reflexivity].
  rewrite forAwait_run. cbn [app].
  destruct (failureOf stream); relay_step; cbn [settling]; by rewrite <- app_assoc.
Qed.




Lemma relayed_fails_at_once r e :
  failsBeforeFirstFragment r = Some e ->
  relayed r = {| GeminiRoute.enqueued := []; GeminiRoute.state := GeminiRoute.Errored e |}.
Proof.
  destruct r as [[ | e' | [f|e'] rest] | e']; cbn; intros H; by simplify_eq.
Qed.



(** C3.  When the provider call fails before any fragment is there (the
    call is rejected, the stream fails at once, or its first chunk has no
    text), the stream the handler answers with has nothing enqueued and is
    in the errored state, with the provider's error; a consumer reading it
    sees no chunk and a failure, never a clean end. *)
Theorem failure_before_first_fragment :
  forall (user : ChatRoute.User) (req : GeminiRoute.GenerationRequest)
         (model : GeminiRoute.Provider) (e : string),
    GeminiRoute.given (GeminiRoute.prompt req) = true ->
    failsBeforeFirstFragment (model (GeminiRoute.compose req)) = Some e ->
    let c := {| GeminiRoute.enqueued := []; GeminiRoute.state := GeminiRoute.Errored e |} in
    GeminiRoute.POST (Some user) req model = GeminiRoute.ReplyStream c
    /\ GeminiRoute.state c <> GeminiRoute.Closed
    /\ forall body, observes c body ->
         body = {| Dashboard.chunks := []; Dashboard.ending := Dashboard.ReadFails |}.
Proof.
  intros user req model e Hp Hf c. split; [|split].
  - unfold GeminiRoute.POST. rewrite Hp. cbn [negb]. rewrite start_run.
    cbn [snd GeminiRoute.controller]. by rewrite (relayed_fails_at_once _ e).
  - discriminate.
  - intros [chunks ending]. unfold observes. cbn. intros [Hpre ->].
    apply prefix_nil_inv in Hpre. by subst.
Qed.

Lemma failure_before_first_fragment_witness :
  GeminiRoute.POST (Some alice) marsRequest quotaExceeded
  = GeminiRoute.ReplyStream
      {| GeminiRoute.enqueued := [];
         GeminiRoute.state := GeminiRoute.Errored "429 Too Many Requests" |}.
Proof.
  apply (failure_before_first_fragment alice marsRequest quotaExceeded "429 Too Many Requests");
    reflexivity.
Defined.






(** ** The reader of the stream *)

(** Decoding the chunk a text was encoded into is decoding the bytes of
    the text. *)
Lemma decode_encode text :
  Dashboard.decode (GeminiRoute.encode text) = Js.TextDecoder_decode text.
Proof.
  unfold Dashboard.decode, GeminiRoute.encode. by rewrite string_of_list_byte_of_string.
Qed.

Lemma decode_encode_fragments fragments :
  List.map Dashboard.decode (List.map GeminiRoute.encode fragments)
  = List.map Js.TextDecoder_decode fragments.
Proof.
  rewrite List.map_map. apply List.map_ext. intros f. apply decode_encode.
Qed.

Lemma decoded_fragments fragments :
  Forall decodesToItself fragments -> List.map Js.TextDecoder_decode fragments = fragments.
Proof.
  induction 1 as [|f fragments Hf _ IH]; [reflexivity|].
  cbn [List.map]. by rewrite Hf, IH.
Qed.

(** ** C9: the composed instruction *)

Lemma appendHistory_lines enhancedPrompt history :
  GeminiRoute.appendHistory enhancedPrompt history
  = enhancedPrompt +:+ finalText (List.map turnLine history).
Proof.
  revert enhancedPrompt. induction history as [|msg history IH]; intros p.
  - cbn. by rewrite app_empty_r.
  - cbn [GeminiRoute.appendHistory List.map finalText foldr]. rewrite IH.
    fold (finalText (List.map turnLine history)). unfold turnLine.
    by rewrite !app_assoc_s.
Qed.

Lemma compose_blocks req :
  GeminiRoute.compose req
  = heading +:+ finalText (constraintLines req) +:+ historyBlock req +:+ requestBlock req.
Proof.
  unfold GeminiRoute.compose, constraintLines, constraintLine, historyBlock, requestBlock.
  fold heading.
  destruct req as [p [t|] [g|] [a|] [[|m h]|]]; cbn [GeminiRoute.tone GeminiRoute.goal
    GeminiRoute.audience GeminiRoute.conversationHistory GeminiRoute.prompt GeminiRoute.given
    GeminiRoute.text default];
    repeat match goal with |- context [Js.truthy ?v] => destruct (Js.truthy v) end;
    rewrite ?appendHistory_lines; cbn [app finalText foldr];
    rewrite ?app_assoc_s, ?app_empty_l, ?app_empty_r; reflexivity.
Qed.

Lemma constraintLine_length label value :
  length (constraintLine label value) = if GeminiRoute.given value then 1 else 0.
Proof. destruct value as [v|]; cbn; [destruct (Js.truthy v)|]; reflexivity. Qed.

Lemma constraintLine_value label value line :
  line ∈ constraintLine label value ->
  exists v, value = Some v /\ v <> "" /\ line = label +:+ ": " +:+ v +:+ Js.nl.
Proof.
  destruct value as [v|]; cbn; [|by intros ?%elem_of_nil].
  destruct v as [|c v]; cbn; [by intros ?%elem_of_nil|].
  intros ->%list_elem_of_singleton. eexists. split; [reflexivity|]. split; [discriminate|reflexivity].
Qed.

(** C9.  The composed instruction is the heading, the constraint lines, the
    prior turns and the request, where (1) with tone, goal and audience all
    absent there is no constraint line: the heading is followed at once by
    the prior turns or the request; (2) in general there is one line for
    each constraint that is given, so each of the three counts on its own;
    and (3) every constraint line carries the value it was given, which is
    not empty. *)
Theorem constraint_lines_only_when_present :
  forall req : GeminiRoute.GenerationRequest,
    GeminiRoute.compose req
    = heading +:+ finalText (constraintLines req) +:+ historyBlock req +:+ requestBlock req
    /\ (GeminiRoute.tone req = None -> GeminiRoute.goal req = None ->
        GeminiRoute.audience req = None ->
        constraintLines req = []
        /\ GeminiRoute.compose req = heading +:+ historyBlock req +:+ requestBlock req)
    /\ length (constraintLines req) = constraintsGiven req
    /\ (forall line, line ∈ constraintLines req ->
        exists label v,
          v <> "" /\ line = label +:+ ": " +:+ v +:+ Js.nl
          /\ (label = "Tone" /\ GeminiRoute.tone req = Some v
              \/ label = "Goal" /\ GeminiRoute.goal req = Some v
              \/ label = "Target Audience" /\ GeminiRoute.audience req = Some v)).
Proof.
  intros req. split; [apply compose_blocks|]. split; [|split].
  - intros Ht Hg Ha.
    assert (Hnone : constraintLines req = []) by (unfold constraintLines; by rewrite Ht, Hg, Ha).
    split; [exact Hnone|]. rewrite compose_blocks, Hnone. reflexivity.
  - unfold constraintLines, constraintsGiven. rewrite !length_app, !constraintLine_length. lia.
  - intros line. unfold constraintLines. rewrite !elem_of_app.
    intros [H | [H | H]]; apply constraintLine_value in H as (v & Hv & Hne & ->);
      eexists _, v; (split; [done|]); (split; [reflexivity|]); eauto.
Qed.

Lemma constraint_lines_only_when_present_witness :
  constraintLines plainRequest = []
  /\ GeminiRoute.compose plainRequest
     = heading +:+ historyBlock plainRequest +:+ requestBlock plainRequest.
Proof.
  exact (proj1 (proj2 (constraint_lines_only_when_present plainRequest)) eq_refl eq_refl eq_refl).
Defined.

(** ** C10: submitting a blank input *)

Lemma is_space2_lead a b : Js.is_space2 a b = true -> Js.is_space1 a = false.
Proof.
  unfold Js.is_space2, Js.is_space1. intros H.
  apply andb_true_iff in H as [Ha _]. apply N.eqb_eq in Ha. rewrite Ha. reflexivity.
Qed.

Lemma is_space3_lead a b c :
  Js.is_space3 a b c = true -> Js.is_space1 a = false /\ Js.is_space2 a b = false.
Proof.
  unfold Js.is_space3, Js.is_space2, Js.is_space1. intros H.
  repeat (apply orb_true_iff in H as [H | H]);
    repeat (apply andb_true_iff in H as [H ?]);
    apply N.eqb_eq in H; rewrite H; split; reflexivity.
Qed.

Lemma trimStart_whitespaceOnly s : whitespaceOnly s -> Js.trimStart s = "".
Proof.
  induction 1 as [|a s Ha _ IH|a b s Hab _ IH|a b c s Habc _ IH]; cbn [Js.trimStart].
  - reflexivity.
  - by rewrite Ha.
  - by rewrite (is_space2_lead a b Hab), Hab.
  - destruct (is_space3_lead a b c Habc) as [H1 H2]. by rewrite H1, H2, Habc.
Qed.

Lemma trim_whitespaceOnly s : whitespaceOnly s -> Js.trim s = "".
Proof. intros H. unfold Js.trim. by rewrite trimStart_whitespaceOnly. Qed.

(** C10.  Submitting an input that is empty or all white space, by the
    button or by the Enter key, does nothing in any state of the page: the
    handler makes no update and no call (no save, no generation request),
    so the state, with its messages, chats, loading flag and streaming
    buffer, is what it was. *)
Theorem blank_submit_is_a_no_op :
  forall (env : Dashboard.Surroundings) (view : Dashboard.State),
    whitespaceOnly (Dashboard.input view) ->
    Dashboard.handleSubmit (Dashboard.userId env) view (Dashboard.date1 env) (Dashboard.date2 env)
      (Dashboard.reply env) = []
    /\ (forall c, c = Dashboard.SubmitButton \/ c = Dashboard.PromptEnterKey ->
          Dashboard.calls (Dashboard.handler env view c) = []
          /\ Dashboard.fire env c view = view
          /\ forall st, Dashboard.run (Dashboard.handler env view c) st = st).
Proof.
  intros env view Hblank.
  assert (Hnone : Dashboard.handleSubmit (Dashboard.userId env) view (Dashboard.date1 env)
                    (Dashboard.date2 env) (Dashboard.reply env) = []).
  { unfold Dashboard.handleSubmit. by rewrite trim_whitespaceOnly. }
  split; [exact Hnone|].
  intros c [-> | ->]; unfold Dashboard.fire; cbn [Dashboard.handler]; rewrite Hnone;
    (split; [reflexivity|]); (split; [|reflexivity]).
  - by destruct (Dashboard.enabled view Dashboard.SubmitButton).
  - reflexivity.
Qed.

Lemma blank_submit_is_a_no_op_witness :
  whitespaceOnly (Dashboard.input blankView)
  /\ Dashboard.fire calmSurroundings Dashboard.PromptEnterKey blankView = blankView.
Proof.
  assert (H : whitespaceOnly (Dashboard.input blankView))
    by (repeat (apply blank_one; [reflexivity|]); apply blank_empty).
  split; [exact H|].
  exact (proj1 (proj2 (proj2 (blank_submit_is_a_no_op calmSurroundings blankView H)
                         Dashboard.PromptEnterKey (or_intror eq_refl)))).
Defined.

(** ** C5: what the loading flag disables *)

Lemma showCurrentChat_frame st :
  Dashboard.chats (Dashboard.showCurrentChat st) = Dashboard.chats st
  /\ Dashboard.currentChatId (Dashboard.showCurrentChat st) = Dashboard.currentChatId st
  /\ Dashboard.isLoading (Dashboard.showCurrentChat st) = Dashboard.isLoading st.
Proof.
  unfold Dashboard.showCurrentChat.
  destruct (Dashboard.findChat _ _); repeat split; reflexivity.
Qed.

Lemma commit_createNewChat userId now created updated st :
  Dashboard.commit (Dashboard.createNewChat userId now created updated) st
  = Dashboard.showCurrentChat
      {| Dashboard.chats :=
           Dashboard.chats st ++
           [ {| Dashboard.Chat.id := pretty now; Dashboard.Chat.messages := [];
                Dashboard.Chat.createdAt := created; Dashboard.Chat.updatedAt := updated |} ];
         Dashboard.currentChatId := pretty now;
         Dashboard.messages := [];
         Dashboard.input := "";
         Dashboard.isLoading := Dashboard.isLoading st;
         Dashboard.tone := Dashboard.tone st;
         Dashboard.goal := Dashboard.goal st;
         Dashboard.audience := Dashboard.audience st;
         Dashboard.currentStreamingMessage := "" |}.
Proof.
  unfold Dashboard.commit, Dashboard.createNewChat.
  destruct (Dashboard.signedIn userId); reflexivity.
Qed.

Lemma commit_setCurrentChatId chatId st :
  let st' := Dashboard.commit [Dashboard.setCurrentChatId chatId] st in
  Dashboard.chats st' = Dashboard.chats st
  /\ Dashboard.currentChatId st' = chatId
  /\ Dashboard.isLoading st' = Dashboard.isLoading st.
Proof.
  unfold Dashboard.commit. cbn [fold_left existsb Dashboard.sets_chats Dashboard.apply orb].
  destruct (negb _).
  - destruct (showCurrentChat_frame (Dashboard.with_currentChatId chatId st)) as (-> & -> & ->).
    repeat split; reflexivity.
  - repeat split; reflexivity.
Qed.

Lemma enabled_ChatItem st chat :
  chat ∈ Dashboard.chats st ->
  Dashboard.enabled st (Dashboard.ChatItem (Dashboard.Chat.id chat)) = true.
Proof.
  intros H. cbn [Dashboard.enabled]. apply existsb_exists. exists chat.
  split; [by apply list_elem_of_In|apply String.eqb_refl].
Qed.

(** C5, as the code has it.  In every state of the page, loading or not:
    the "New Chat" button takes the click, and the click adds a chat and
    makes it the current one; each item of the chat list takes the click,
    and the click makes that chat the current one; neither touches the
    loading flag.  Only the submit button is disabled while loading. *)
Theorem loading_flag_guards_only_the_submit_button :
  forall (env : Dashboard.Surroundings) (st : Dashboard.State),
    Dashboard.enabled st Dashboard.SubmitButton = negb (Dashboard.isLoading st)
    /\ Dashboard.enabled st Dashboard.NewChatButton = true
    /\ (let st' := Dashboard.fire env Dashboard.NewChatButton st in
        Dashboard.currentChatId st' = pretty (Dashboard.now env)
        /\ Dashboard.chats st'
           = Dashboard.chats st ++
             [ {| Dashboard.Chat.id := pretty (Dashboard.now env);
                  Dashboard.Chat.messages := [];
                  Dashboard.Chat.createdAt := Dashboard.date1 env;
                  Dashboard.Chat.updatedAt := Dashboard.date2 env |} ]
        /\ Dashboard.isLoading st' = Dashboard.isLoading st)
    /\ (forall chat, chat ∈ Dashboard.chats st ->
          Dashboard.enabled st (Dashboard.ChatItem (Dashboard.Chat.id chat)) = true
          /\ let st' := Dashboard.fire env (Dashboard.ChatItem (Dashboard.Chat.id chat)) st in
             Dashboard.currentChatId st' = Dashboard.Chat.id chat
             /\ Dashboard.chats st' = Dashboard.chats st
             /\ Dashboard.isLoading st' = Dashboard.isLoading st).
Proof.
  intros env st. split; [reflexivity|]. split; [reflexivity|]. split.
  - unfold Dashboard.fire. cbn [Dashboard.enabled Dashboard.handler Dashboard.run fold_left].
    rewrite commit_createNewChat.
    match goal with |- context [Dashboard.showCurrentChat ?s] =>
      destruct (showCurrentChat_frame s) as (-> & -> & ->) end.
    repeat split; reflexivity.
  - intros chat Hchat. pose proof (enabled_ChatItem st chat Hchat) as Hen.
    split; [exact Hen|]. unfold Dashboard.fire. rewrite Hen.
    cbn [Dashboard.handler Dashboard.run fold_left].
    destruct (commit_setCurrentChatId (Dashboard.Chat.id chat) st) as (H1 & H2 & H3).
    repeat split; assumption.
Qed.

Lemma loading_flag_guards_only_the_submit_button_witness :
  let chat := {| Dashboard.Chat.id := "1717171700000";
                 Dashboard.Chat.messages :=
                   [ {| Facade.role := Facade.user; Facade.content := "hello" |} ];
                 Dashboard.Chat.createdAt := 1717171700000%Z;
                 Dashboard.Chat.updatedAt := 1717171700500%Z |} in
  chat ∈ Dashboard.chats awaitingFirstFragment
  /\ Dashboard.enabled awaitingFirstFragment (Dashboard.ChatItem "1717171700000") = true.
Proof.
  intros chat.
  assert (H : chat ∈ Dashboard.chats awaitingFirstFragment) by (vm_compute; left).
  split; [exact H|].
  exact (proj1 (proj2 (proj2 (proj2
           (loading_flag_guards_only_the_submit_button calmSurroundings awaitingFirstFragment)))
           chat H)).
Defined.

(** C5 as stated fails: while the generation request is in flight and the
    loading flag is set, the "New Chat" button and the item of the other
    chat both take the click, and either click changes the current chat. *)
Lemma new_chat_and_switch_while_loading :
  Dashboard.isLoading awaitingFirstFragment = true
  /\ Dashboard.currentChatId awaitingFirstFragment = "1717171717171"
  /\ Dashboard.enabled awaitingFirstFragment Dashboard.NewChatButton = true
  /\ Dashboard.currentChatId
       (Dashboard.fire calmSurroundings Dashboard.NewChatButton awaitingFirstFragment)
     = "1717171718000"
  /\ length (Dashboard.chats
               (Dashboard.fire calmSurroundings Dashboard.NewChatButton awaitingFirstFragment)) = 3
  /\ Dashboard.enabled awaitingFirstFragment (Dashboard.ChatItem "1717171700000") = true
  /\ Dashboard.currentChatId
       (Dashboard.fire calmSurroundings (Dashboard.ChatItem "1717171700000") awaitingFirstFragment)
     = "1717171700000".
Proof. vm_compute. repeat split; reflexivity. Qed.

(** ** C7: the fallback message *)

Lemma readAll_streamingOnly acc values :
  Forall streamingOnly (Dashboard.readAll acc values).1.
Proof.
  revert acc. induction values as [|v values IH]; intros acc; cbn [Dashboard.readAll].
  - constructor.
  - specialize (IH (acc +:+ Dashboard.decode v)).
    destruct (Dashboard.readAll _ values) as [updates final]. cbn [fst] in *.
    constructor; [by eexists|done].
Qed.

Lemma receive_fails reply :
  generationFails reply ->
  exists updates e,
    Dashboard.receive reply = (updates, Js.Thrown e) /\ Forall streamingOnly updates.
Proof.
  destruct reply as [|[] [body|]]; cbn; intros H; try (by eexists [], _).
  pose proof (readAll_streamingOnly "" (Dashboard.chunks body)) as Hs.
  destruct (Dashboard.readAll "" (Dashboard.chunks body)) as [updates final].
  rewrite H. by eexists updates, _.
Qed.

Lemma run_cons batch script st :
  Dashboard.run (batch :: script) st = Dashboard.run script (Dashboard.commit batch st).
Proof. reflexivity. Qed.

Lemma run_app script1 script2 st :
  Dashboard.run (script1 ++ script2) st = Dashboard.run script2 (Dashboard.run script1 st).
Proof. unfold Dashboard.run. apply fold_left_app. Qed.

Lemma run_streamingOnly updates st :
  Forall streamingOnly updates ->
  exists s, Dashboard.run updates st = Dashboard.with_currentStreamingMessage s st.
Proof.
  intros H. revert st. induction H as [|batch updates [s ->] _ IH]; intros st.
  - exists (Dashboard.currentStreamingMessage st). by destruct st.
  - rewrite run_cons.
    assert (Hc : Dashboard.commit [Dashboard.setCurrentStreamingMessage s] st
                 = Dashboard.with_currentStreamingMessage s st).
    { unfold Dashboard.commit. cbn. by rewrite String.eqb_refl. }
    rewrite Hc. destruct (IH (Dashboard.with_currentStreamingMessage s st)) as [s' ->].
    by exists s'.
Qed.

Lemma calls_streamingOnly updates :
  Forall streamingOnly updates -> List.filter Dashboard.is_call (concat updates) = [].
Proof.
  induction 1 as [|batch updates [s ->] _ IH]; [reflexivity|]. cbn. exact IH.
Qed.

Lemma findChat_id chatId chats chat :
  Dashboard.findChat chatId chats = Some chat -> Dashboard.Chat.id chat = chatId.
Proof.
  unfold Dashboard.findChat. intros H. apply find_some in H as [_ H].
  by apply String.eqb_eq.
Qed.

Lemma findChat_replace chatId chats chat updatedChat :
  Dashboard.findChat chatId chats = Some chat ->
  Dashboard.Chat.id updatedChat = chatId ->
  Dashboard.findChat chatId
    (List.map (fun c => if String.eqb (Dashboard.Chat.id c) chatId then updatedChat else c) chats)
  = Some updatedChat.
Proof.
  unfold Dashboard.findChat. intros H Hid.
  induction chats as [|x chats IH]; [discriminate|].
  cbn [find List.map] in *. destruct (String.eqb (Dashboard.Chat.id x) chatId) eqn:E.
  - by rewrite Hid, String.eqb_refl.
  - rewrite E. by apply IH.
Qed.

Lemma saveChat_signed_in userId uid chats chatId chat updatedMessages now :
  Dashboard.signedIn userId = Some uid ->
  Dashboard.findChat chatId chats = Some chat ->
  Dashboard.saveChat userId chats chatId updatedMessages now
  = let updatedChat :=
      {| Dashboard.Chat.id := Dashboard.Chat.id chat;
         Dashboard.Chat.messages := updatedMessages;
         Dashboard.Chat.createdAt := Dashboard.Chat.createdAt chat;
         Dashboard.Chat.updatedAt := now |} in
    [Dashboard.setChats_replace chatId updatedChat;
     Dashboard.saveChatToS3 uid chatId (Dashboard.toChatData updatedChat)].
Proof. intros Hu Hc. unfold Dashboard.saveChat. by rewrite Hu, Hc. Qed.

(** A batch that sets the messages and saves the chat, committed in a state
    where the chat is the current one. *)
Lemma commit_save_batch pre st chatId chat updatedChat uid data :
  Dashboard.currentChatId st = chatId ->
  Dashboard.findChat chatId (Dashboard.chats st) = Some chat ->
  Dashboard.Chat.id updatedChat = chatId ->
  (forall s, Dashboard.chats (fold_left (fun s op => Dashboard.apply op s) pre s) = Dashboard.chats s
             /\ Dashboard.currentChatId (fold_left (fun s op => Dashboard.apply op s) pre s)
                = Dashboard.currentChatId s) ->
  let st' := Dashboard.commit
               (pre ++ [Dashboard.setChats_replace chatId updatedChat;
                        Dashboard.saveChatToS3 uid chatId data]) st in
  Dashboard.messages st' = Dashboard.Chat.messages updatedChat
  /\ Dashboard.findChat chatId (Dashboard.chats st') = Some updatedChat
  /\ Dashboard.currentChatId st' = chatId
  /\ Dashboard.isLoading st'
     = Dashboard.isLoading (fold_left (fun s op => Dashboard.apply op s) pre st).
Proof.
  intros Hcur Hfind Hid Hpre st'. subst st'. unfold Dashboard.commit.
  rewrite existsb_app, fold_left_app. cbn [existsb Dashboard.sets_chats orb fold_left Dashboard.apply].
  rewrite orb_true_r. cbn [orb].
  destruct (Hpre st) as [Hchats Hcurrent].
  set (mid := fold_left (fun s op => Dashboard.apply op s) pre st) in *.
  unfold Dashboard.showCurrentChat.
  cbn [Dashboard.with_chats Dashboard.chats Dashboard.currentChatId].
  rewrite Hcurrent, Hcur, Hchats.
  rewrite (findChat_replace chatId (Dashboard.chats st) chat updatedChat Hfind Hid).
  cbn [Dashboard.with_messages Dashboard.with_chats Dashboard.messages Dashboard.chats
         Dashboard.currentChatId Dashboard.isLoading].
  rewrite ?Hcurrent, ?Hcur, ?Hchats.
  rewrite (findChat_replace chatId (Dashboard.chats st) chat updatedChat Hfind Hid).
  repeat split; reflexivity.
Qed.

Lemma commit_fetchGemini request st : Dashboard.commit [Dashboard.fetchGemini request] st = st.
Proof. unfold Dashboard.commit. cbn. by rewrite String.eqb_refl. Qed.

Lemma commit_setIsLoading value st :
  Dashboard.commit [Dashboard.setIsLoading value] st = Dashboard.with_isLoading value st.
Proof. unfold Dashboard.commit. cbn. by rewrite String.eqb_refl. Qed.

Lemma perform_signed_in user b op :
  exists b', perform {| Facade.session := Some user; Facade.bucket := b |} op
             = {| Facade.session := Some user; Facade.bucket := b' |}.
Proof.
  destruct op; try (by eexists). cbn [perform]. rewrite saveChatToS3_signed_in. by eexists.
Qed.

Lemma foldl_perform_signed_in user ops b :
  exists b', foldl perform {| Facade.session := Some user; Facade.bucket := b |} ops
             = {| Facade.session := Some user; Facade.bucket := b' |}.
Proof.
  revert b. induction ops as [|op ops IH]; intros b; [by eexists|].
  cbn [foldl]. destruct (perform_signed_in user b op) as [b' ->]. apply IH.
Qed.

(** The failing generation when [saveChat] goes through: somebody is signed
    in and the current chat is in the list of chats. *)
Lemma failed_generation_saved :
  forall (userId : option string) (uid : string) (view : Dashboard.State)
         (chat : Dashboard.Chat) (now1 now2 : Dashboard.Date) (reply : Dashboard.FetchResult),
    Dashboard.signedIn userId = Some uid ->
    Dashboard.findChat (Dashboard.currentChatId view) (Dashboard.chats view) = Some chat ->
    Js.trim (Dashboard.input view) <> "" ->
    generationFails reply ->
    let script := Dashboard.handleSubmit userId view now1 now2 reply in
    let final := Dashboard.run script view in
    let fallback := withApology view chat now2 in
    Dashboard.messages final = Dashboard.messages view ++ [userMessage view; apologyMessage]
    /\ Dashboard.findChat (Dashboard.currentChatId view) (Dashboard.chats final) = Some fallback
    /\ last (Dashboard.calls script)
       = Some (Dashboard.saveChatToS3 uid (Dashboard.currentChatId view)
                 (Dashboard.toChatData fallback))
    /\ (forall (user : ChatRoute.User) (b : S3.Bucket),
          (Facade.getChatFromS3 uid (Dashboard.currentChatId view)
             (performAll script {| Facade.session := Some user; Facade.bucket := b |})).1
          = Some (Facade.ChatData_js (Dashboard.toChatData fallback)))
    /\ Dashboard.isLoading final = false.
Proof.
  intros userId uid view chat now1 now2 reply Hu Hchat Hinput Hfail script final fallback.
  subst final script. unfold performAll, Dashboard.handleSubmit.
  destruct (Js.trim (Dashboard.input view)) as [|c0 trimmed] eqn:Htrim; [done|]. clear Hinput.
  cbn [Js.truthy negb].
  destruct (receive_fails reply Hfail) as (updates & e & -> & Hupdates).
  rewrite !(saveChat_signed_in userId uid _ _ chat _ _ Hu Hchat). cbv zeta.
  set (cid := Dashboard.currentChatId view) in *.
  set (updatedMessages := Dashboard.messages view ++ [_]).
  set (updated1 := {| Dashboard.Chat.messages := updatedMessages |}).
  set (request := {| GeminiRoute.prompt := _ |}).
  replace (Dashboard.Chat.Build_t _ (updatedMessages ++ _) _ now2) with fallback
    by (subst fallback updatedMessages; unfold withApology, userMessage, apologyMessage;
        by rewrite <- app_assoc).
  pose proof (findChat_id _ _ _ Hchat) as Hid.
  (* up to the request *)
  rewrite !run_app, !run_cons. cbn [Dashboard.run fold_left].
  match goal with |- context [Dashboard.commit (?pre ++ [Dashboard.setChats_replace cid updated1; ?save]) view] =>
    destruct (commit_save_batch pre view cid chat updated1 uid (Dashboard.toChatData updated1)
                eq_refl Hchat Hid ltac:(intros s; split; reflexivity)) as (_ & Hfind1 & Hcur1 & _);
    set (st1 := Dashboard.commit (pre ++ [Dashboard.setChats_replace cid updated1; save]) view) in *
  end.
  rewrite commit_fetchGemini.
  (* the fragments *)
  destruct (run_streamingOnly updates st1 Hupdates) as [s Hrun].
  rewrite Hrun.
  set (st2 := Dashboard.with_currentStreamingMessage s st1).
  (* the fallback *)
  match goal with |- context [Dashboard.commit (?pre ++ [Dashboard.setChats_replace cid fallback; ?save]) st2] =>
    destruct (commit_save_batch pre st2 cid updated1 fallback uid (Dashboard.toChatData fallback)
                Hcur1 Hfind1 Hid ltac:(intros s'; split; reflexivity)) as (Hm & Hfind2 & _ & _);
    set (st3 := Dashboard.commit (pre ++ [Dashboard.setChats_replace cid fallback; save]) st2) in *
  end.
  rewrite commit_setIsLoading.
  cbn [Dashboard.with_isLoading Dashboard.messages Dashboard.chats Dashboard.isLoading].
  split; [exact Hm|]. split; [exact Hfind2|].
  unfold Dashboard.calls.
  rewrite !concat_app, !List.filter_app, (calls_streamingOnly updates Hupdates).
  split; [reflexivity|]. split; [|reflexivity].
  intros user b. cbn [concat List.filter app Dashboard.is_call foldl].
  match goal with |- context [perform ?w (Dashboard.fetchGemini request)] =>
    change (perform w (Dashboard.fetchGemini request)) with w end.
  destruct (perform_signed_in user b
              (Dashboard.saveChatToS3 uid cid (Dashboard.toChatData updated1))) as [b1 ->].
  cbn [perform]. rewrite saveChatToS3_signed_in. cbn [snd].
  erewrite getChatFromS3_stored; [reflexivity|].
  apply lookup_insert_eq.
Qed.

(** The failing generation when [saveChat] returns at once. *)
Lemma failed_generation_not_saved userId view now1 now2 reply :
  (forall updatedMessages now,
      Dashboard.saveChat userId (Dashboard.chats view) (Dashboard.currentChatId view)
        updatedMessages now = []) ->
  Js.trim (Dashboard.input view) <> "" ->
  generationFails reply ->
  let script := Dashboard.handleSubmit userId view now1 now2 reply in
  let final := Dashboard.run script view in
  Dashboard.messages final = Dashboard.messages view ++ [userMessage view; apologyMessage]
  /\ Dashboard.chats final = Dashboard.chats view
  /\ (forall uid chatId chatData, Dashboard.saveChatToS3 uid chatId chatData ∉ Dashboard.calls script)
  /\ Dashboard.isLoading final = false.
Proof.
  intros Hsave Hinput Hfail script final. subst final script. unfold Dashboard.handleSubmit.
  destruct (Js.trim (Dashboard.input view)) as [|c0 trimmed] eqn:Htrim; [done|]. clear Hinput.
  cbn [Js.truthy negb].
  destruct (receive_fails reply Hfail) as (updates & e & -> & Hupdates).
  rewrite !Hsave, !app_nil_r.
  rewrite !run_app, !run_cons. cbn [Dashboard.run fold_left].
  rewrite commit_fetchGemini.
  match goal with |- context [Dashboard.commit ?batch view] =>
    assert (Hc1 : Dashboard.commit batch view
                  = fold_left (fun s op => Dashboard.apply op s) batch view)
      by (unfold Dashboard.commit; cbn; by rewrite String.eqb_refl);
    rewrite Hc1; clear Hc1 end.
  cbn [fold_left Dashboard.apply].
  match goal with |- context [Dashboard.run updates ?st1] =>
    destruct (run_streamingOnly updates st1 Hupdates) as [s ->] end.
  match goal with |- context [Dashboard.commit [Dashboard.setMessages ?m] ?st2] =>
    assert (Hc2 : Dashboard.commit [Dashboard.setMessages m] st2 = Dashboard.with_messages m st2)
      by (unfold Dashboard.commit; cbn; by rewrite String.eqb_refl);
    rewrite Hc2; clear Hc2 end.
  rewrite commit_setIsLoading. cbn.
  split; [unfold userMessage, apologyMessage; by rewrite <- app_assoc|].
  split; [reflexivity|]. split; [|reflexivity].
  intros uid chatId chatData. unfold Dashboard.calls.
  rewrite !concat_app, !List.filter_app, (calls_streamingOnly updates Hupdates). cbn.
  intros H. apply list_elem_of_singleton in H. discriminate.
Qed.

Lemma saveChat_skipped userId chats chatId :
  Dashboard.signedIn userId = None \/ Dashboard.findChat chatId chats = None ->
  forall updatedMessages now,
    Dashboard.saveChat userId chats chatId updatedMessages now = [].
Proof.
  intros [H | H] updatedMessages now; unfold Dashboard.saveChat.
  - by rewrite H.
  - rewrite H. by destruct (Dashboard.signedIn userId).
Qed.

(** C7, as the code has it.  Let the input not be blank.  When the
    generation request fails, or its stream fails while it is read (after
    any number of fragments), the handler ends with the apology as the
    assistant's turn: the messages shown are the earlier ones, the user's
    turn and the fixed apology, and the loading flag is cleared.  When
    moreover somebody is signed in and the current chat is in the list of
    chats, the chat in the list holds the same messages, the last call the
    handler makes saves exactly that record, and, the calls carried out in
    the user's session, loading the chat gives that record.  Otherwise the
    list of chats is left as it was and the handler makes no save. *)
Theorem failed_generation_falls_back_to_apology :
  forall (userId : option string) (view : Dashboard.State)
         (now1 now2 : Dashboard.Date) (reply : Dashboard.FetchResult),
    Js.trim (Dashboard.input view) <> "" ->
    generationFails reply ->
    let script := Dashboard.handleSubmit userId view now1 now2 reply in
    let final := Dashboard.run script view in
    Dashboard.messages final = Dashboard.messages view ++ [userMessage view; apologyMessage]
    /\ Dashboard.isLoading final = false
    /\ (forall (uid : string) (chat : Dashboard.Chat),
          Dashboard.signedIn userId = Some uid ->
          Dashboard.findChat (Dashboard.currentChatId view) (Dashboard.chats view) = Some chat ->
          let fallback := withApology view chat now2 in
          Dashboard.findChat (Dashboard.currentChatId view) (Dashboard.chats final) = Some fallback
          /\ last (Dashboard.calls script)
             = Some (Dashboard.saveChatToS3 uid (Dashboard.currentChatId view)
                       (Dashboard.toChatData fallback))
          /\ forall (user : ChatRoute.User) (b : S3.Bucket),
               (Facade.getChatFromS3 uid (Dashboard.currentChatId view)
                  (performAll script {| Facade.session := Some user; Facade.bucket := b |})).1
               = Some (Facade.ChatData_js (Dashboard.toChatData fallback)))
    /\ (Dashboard.signedIn userId = None
        \/ Dashboard.findChat (Dashboard.currentChatId view) (Dashboard.chats view) = None ->
        Dashboard.chats final = Dashboard.chats view
        /\ forall uid chatId chatData,
             Dashboard.saveChatToS3 uid chatId chatData ∉ Dashboard.calls script).
Proof.
  intros userId view now1 now2 reply Hinput Hfail script final.
  assert (Hshown : Dashboard.messages final
                   = Dashboard.messages view ++ [userMessage view; apologyMessage]
                   /\ Dashboard.isLoading final = false).
  { destruct (Dashboard.signedIn userId) as [uid|] eqn:Hu;
      [destruct (Dashboard.findChat (Dashboard.currentChatId view) (Dashboard.chats view))
         as [chat|] eqn:Hchat|].
    - destruct (failed_generation_saved userId uid view chat now1 now2 reply
                  Hu Hchat Hinput Hfail) as (Hm & _ & _ & _ & Hl). by split.
    - destruct (failed_generation_not_saved userId view now1 now2 reply
                  (saveChat_skipped userId _ _ (or_intror Hchat)) Hinput Hfail)
        as (Hm & _ & _ & Hl). by split.
    - destruct (failed_generation_not_saved userId view now1 now2 reply
                  (saveChat_skipped userId _ _ (or_introl Hu)) Hinput Hfail)
        as (Hm & _ & _ & Hl). by split. }
  destruct Hshown as [Hm Hl]. split; [exact Hm|]. split; [exact Hl|]. split.
  - intros uid chat Hu Hchat fallback.
    destruct (failed_generation_saved userId uid view chat now1 now2 reply Hu Hchat Hinput Hfail)
      as (_ & Hfind & Hlast & Hload & _).
    split; [exact Hfind|]. split; [exact Hlast|exact Hload].
  - intros Hskip.
    destruct (failed_generation_not_saved userId view now1 now2 reply
                (saveChat_skipped userId _ _ Hskip) Hinput Hfail) as (_ & Hchats & Hcalls & _).
    split; [exact Hchats|exact Hcalls].
Qed.

Lemma failed_generation_falls_back_to_apology_witness :
  let script :=
    Dashboard.handleSubmit (Some "alice") twoChats 1717171718001%Z 1717171719000%Z
      failingMidStream in
  Dashboard.messages (Dashboard.run script twoChats)
  = [ {| Facade.role := Facade.user; Facade.content := "write a tweet about Mars" |};
      {| Facade.role := Facade.assistant;
         Facade.content := "Sorry, I encountered an error. Please try again." |} ]
  /\ (Facade.getChatFromS3 "alice" "1717171717171"
        (performAll script {| Facade.session := Some alice; Facade.bucket := ∅ |})).1
     = Some (Facade.ChatData_js
               {| Facade.id := "1717171717171";
                  Facade.messages :=
                    [ {| Facade.role := Facade.user; Facade.content := "write a tweet about Mars" |};
                      {| Facade.role := Facade.assistant;
                         Facade.content := "Sorry, I encountered an error. Please try again." |} ];
                  Facade.createdAt := "2024-05-31T16:08:37.171Z";
                  Facade.updatedAt := "2024-05-31T16:08:39.000Z" |}).
Proof.
  intros script.
  pose proof (failed_generation_falls_back_to_apology (Some "alice") twoChats
                1717171718001%Z 1717171719000%Z failingMidStream
                ltac:(vm_compute; discriminate) eq_refl)
    as (Hm & _ & Hsaved & _).
  split; [exact Hm|].
  exact (proj2 (proj2 (Hsaved "alice"
           {| Dashboard.Chat.id := "1717171717171"; Dashboard.Chat.messages := [];
              Dashboard.Chat.createdAt := 1717171717171%Z;
              Dashboard.Chat.updatedAt := 1717171717171%Z |} eq_refl eq_refl)) alice ∅).
Defined.

(** C7 as stated fails: with nobody signed in the generation request is
    answered 401; the apology is shown, but the handler makes no save and
    the chat in the list stays without the user's turn and the apology. *)
Lemma apology_without_a_session_is_not_persisted :
  let script :=
    Dashboard.handleSubmit None twoChats 1717171718001%Z 1717171719000%Z unauthorizedReply in
  let final := Dashboard.run script twoChats in
  Dashboard.messages final
  = [ {| Facade.role := Facade.user; Facade.content := "write a tweet about Mars" |};
      {| Facade.role := Facade.assistant;
         Facade.content := "Sorry, I encountered an error. Please try again." |} ]
  /\ List.filter (fun op => match op with Dashboard.saveChatToS3 _ _ _ => true | _ => false end)
       (Dashboard.calls script) = []
  /\ Dashboard.chats final = Dashboard.chats twoChats
  /\ (Dashboard.Chat.messages <$> Dashboard.findChat "1717171717171" (Dashboard.chats final))
     = Some [].
Proof. vm_compute. repeat split; reflexivity. Qed.

(* ===================================================================== *)
(** * Further properties *)
(* ===================================================================== *)

(** ** The persistence endpoint and the facade *)

Lemma POST_get_answer user chatId b :
  ChatRoute.POST (Some user) (getRequest chatId) b
  = (match b !! keyOf (ChatRoute.id user) chatId with
     | None => internalServerError
     | Some data =>
         if Js.truthy data then
           match JSON.parse data with
           | Some value =>
               ChatRoute.NextResponse_json (JSON.JObject [("data", value)]) 200
           | None => internalServerError
           end
         else ChatRoute.NextResponse_json (JSON.JObject [("data", JSON.JNull)]) 200
     end, b).
Proof.
  unfold ChatRoute.POST. rewrite handle_get.
  destruct (b !! _) as [data|]; [|reflexivity].
  destruct (Js.truthy data); [|reflexivity].
  destruct (JSON.parse data); reflexivity.
Qed.

Lemma getChatFromS3_loaded user b userId chatId :
  Facade.getChatFromS3 userId chatId (signedInWorld user b)
  = (Some (loaded (b !! keyOf (ChatRoute.id user) chatId)), signedInWorld user b).
Proof.
  unfold Facade.getChatFromS3, Facade.fetch, signedInWorld. cbn [Facade.session Facade.bucket].
  fold (getRequest chatId). rewrite POST_get_answer. unfold loaded.
  destruct (b !! _) as [data|]; [|reflexivity].
  destruct (Js.truthy data).
  - destruct (JSON.parse data) as [value|]; [|reflexivity].
    unfold ChatRoute.NextResponse_json. cbn [ChatRoute.ok ChatRoute.status ChatRoute.body].
    rewrite parse_stringify. reflexivity.
  - unfold ChatRoute.NextResponse_json. cbn [ChatRoute.ok ChatRoute.status ChatRoute.body].
    rewrite parse_stringify. reflexivity.
Qed.

Lemma saveChatToS3_returns user b userId chatId chatData :
  Facade.saveChatToS3 userId chatId chatData (signedInWorld user b)
  = (Js.Returned tt,
     signedInWorld user (<[keyOf (ChatRoute.id user) chatId := JSON.stringify chatData]> b)).
Proof. apply saveChatToS3_signed_in. Qed.

(** X1.  A save overwrites: with somebody signed in, after two saves under
    the same chat id loading gives the record saved last, and saving the
    same record a second time leaves the store as the first save left
    it. *)
Theorem save_overwrites :
  forall (user : ChatRoute.User) (b : S3.Bucket) (userId chatId : string)
         (first second : JSON.json),
    let w1 := (Facade.saveChatToS3 userId chatId first (signedInWorld user b)).2 in
    let w2 := (Facade.saveChatToS3 userId chatId second w1).2 in
    (Facade.getChatFromS3 userId chatId w2).1 = Some second
    /\ (Facade.saveChatToS3 userId chatId first w1).2 = w1.
Proof.
  intros user b userId chatId first second w1 w2. subst w1 w2.
  rewrite !saveChatToS3_returns. cbn [snd]. rewrite !saveChatToS3_returns. cbn [snd].
  rewrite !insert_insert_eq. split; [|reflexivity].
  rewrite getChatFromS3_loaded, lookup_insert_eq. cbn [fst loaded].
  by rewrite truthy_stringify, parse_stringify.
Qed.

Lemma app_inj_r s1 s2 t : s1 +:+ t = s2 +:+ t -> s1 = s2.
Proof.
  intros H.
  assert (Hlen : String.length s1 = String.length s2).
  { apply (f_equal String.length) in H. rewrite !length_app_s in H. lia. }
  revert s2 H Hlen. induction s1 as [|a s1 IH]; intros [|b s2] H Hlen; try discriminate.
  - reflexivity.
  - rewrite !app_String in H. injection H as -> H. f_equal. apply IH; [done|].
    cbn in Hlen. lia.
Qed.

Lemma keyOf_inj_chat uid chatId chatId' : keyOf uid chatId = keyOf uid chatId' -> chatId = chatId'.
Proof.
  unfold keyOf. intros H. apply (inj (String.app uid)) in H.
  apply (inj (String.app "/chats/")) in H. by apply app_inj_r in H.
Qed.

Lemma strip_prefix_Some p s r : Js.strip_prefix p s = Some r <-> s = p +:+ r.
Proof.
  split; [|intros ->; apply strip_prefix_app].
  revert s. induction p as [|a p IH]; intros s H.
  - cbn in H. by simplify_eq.
  - destruct s as [|b s]; [discriminate|]. cbn [Js.strip_prefix] in H.
    destruct (Ascii.eqb a b) eqn:E; [|discriminate].
    apply Ascii.eqb_eq in E as ->. rewrite app_String. f_equal. by apply IH.
Qed.

Lemma strip_prefix_other_user u1 u2 s t :
  Js.includes "/" u1 = false -> Js.includes "/" u2 = false -> u1 <> u2 ->
  Js.strip_prefix (u2 +:+ String "/" s) (u1 +:+ String "/" t) = None.
Proof.
  revert u1. induction u2 as [|a u2 IH]; intros [|c u1] H1 H2 Hne; try done.
  - rewrite app_empty_l, app_String. cbn [Js.strip_prefix Js.includes] in *.
    apply orb_false_iff in H1 as [H1 _]. rewrite Ascii.eqb_sym. by rewrite H1.
  - rewrite app_empty_l, app_String. cbn [Js.strip_prefix Js.includes] in *.
    apply orb_false_iff in H2 as [H2 _]. by rewrite H2.
  - rewrite !app_String. cbn [Js.strip_prefix Js.includes] in *.
    apply orb_false_iff in H1 as [_ H1]. apply orb_false_iff in H2 as [_ H2].
    destruct (Ascii.eqb a c) eqn:E; [|reflexivity].
    apply Ascii.eqb_eq in E as ->. apply IH; [done..|congruence].
Qed.

Lemma keyOf_other_user u1 u2 chatId chatId' :
  Js.includes "/" u1 = false -> Js.includes "/" u2 = false -> u1 <> u2 ->
  keyOf u1 chatId <> keyOf u2 chatId'.
Proof.
  intros H1 H2 Hne Heq.
  pose proof (strip_prefix_other_user u1 u2 ("chats/" +:+ chatId' +:+ "/data.json")
                ("chats/" +:+ chatId +:+ "/data.json") H1 H2 Hne) as Hs.
  change (u1 +:+ String "/" ("chats/" +:+ chatId +:+ "/data.json")) with (keyOf u1 chatId) in Hs.
  change (u2 +:+ String "/" ("chats/" +:+ chatId' +:+ "/data.json")) with (keyOf u2 chatId') in Hs.
  rewrite Heq in Hs. rewrite <- (app_empty_r (keyOf u2 chatId')) in Hs at 2.
  rewrite strip_prefix_app in Hs. discriminate.
Qed.

Lemma elem_of_chatIdsOf user b chatId :
  chatId ∈ chatIdsOf user b
  <-> chatId <> ""
      /\ exists cp, cp ∈ S3.listCommonPrefixes (ChatRoute.id user +:+ "/chats/") "/" b
                    /\ chatId = ChatRoute.chatIdOfPrefix cp.
Proof.
  unfold chatIdsOf. rewrite map_fmap, list_elem_of_filter, list_elem_of_fmap.
  split; intros [H1 (cp & H2 & H3)]; (split; [|by exists cp]).
  - by destruct chatId.
  - by destruct chatId.
Qed.

Lemma listUserChats_chatIds user b userId :
  Facade.listUserChats userId (signedInWorld user b)
  = (Some (JSON.JArray (List.map JSON.JString (chatIdsOf user b))), signedInWorld user b).
Proof.
  unfold Facade.listUserChats, Facade.fetch, ChatRoute.POST, signedInWorld.
  cbn [Facade.session Facade.bucket]. fold listRequest. rewrite handle_list.
  unfold ChatRoute.NextResponse_json. cbn [ChatRoute.ok ChatRoute.status ChatRoute.body].
  rewrite parse_stringify. reflexivity.
Qed.

(** X2.  A save touches one chat of one user.  With somebody signed in,
    saving under a chat id leaves what loading any other chat id of that
    user gives as it was.  And when two users have ids that differ and are
    free of "/", a save in the session of one leaves what the other loads
    and the chat ids the other is listed as they were. *)
Theorem save_touches_one_record :
  forall (user : ChatRoute.User) (b : S3.Bucket) (userId chatId : string) (record : JSON.json),
    let b' := Facade.bucket (Facade.saveChatToS3 userId chatId record (signedInWorld user b)).2 in
    (forall otherChat, otherChat <> chatId ->
        (Facade.getChatFromS3 userId otherChat (signedInWorld user b')).1
        = (Facade.getChatFromS3 userId otherChat (signedInWorld user b)).1)
    /\ (forall other : ChatRoute.User,
           Js.includes "/" (ChatRoute.id user) = false ->
           Js.includes "/" (ChatRoute.id other) = false ->
           ChatRoute.id other <> ChatRoute.id user ->
           (forall anyChat,
               (Facade.getChatFromS3 userId anyChat (signedInWorld other b')).1
               = (Facade.getChatFromS3 userId anyChat (signedInWorld other b)).1)
           /\ (forall listedId, listedId ∈ chatIdsOf other b' <-> listedId ∈ chatIdsOf other b)).
Proof.
  intros user b userId chatId record b'. subst b'.
  rewrite saveChatToS3_returns. cbn [snd Facade.bucket signedInWorld]. split.
  - intros otherChat Hne. rewrite !getChatFromS3_loaded. cbn [fst].
    rewrite lookup_insert_ne; [reflexivity|]. intros H. by apply keyOf_inj_chat in H.
  - intros other Hu Ho Hne. split.
    + intros anyChat. rewrite !getChatFromS3_loaded. cbn [fst].
      rewrite lookup_insert_ne; [reflexivity|]. by apply keyOf_other_user.
    + intros listedId.
      assert (Hout : Js.startsWith (keyOf (ChatRoute.id user) chatId)
                       (ChatRoute.id other +:+ "/chats/") = false).
      { unfold Js.startsWith, keyOf.
        change (ChatRoute.id other +:+ "/chats/")
          with (ChatRoute.id other +:+ String "/" "chats/").
        change (ChatRoute.id user +:+ "/chats/" +:+ chatId +:+ "/data.json")
          with (ChatRoute.id user +:+ String "/" ("chats/" +:+ chatId +:+ "/data.json")).
        by rewrite strip_prefix_other_user by (done || congruence). }
      assert (Hlist : S3.listCommonPrefixes (ChatRoute.id other +:+ "/chats/") "/"
                        (<[keyOf (ChatRoute.id user) chatId := JSON.stringify record]> b)
                      = S3.listCommonPrefixes (ChatRoute.id other +:+ "/chats/") "/" b).
      { apply listCommonPrefixes_ext. intros k Hk. rewrite lookup_insert_is_Some.
        split; [intros [<- | [_ H]]; [congruence|done]|].
        intros H. destruct (decide (keyOf (ChatRoute.id user) chatId = k)); [by left|by right]. }
      unfold chatIdsOf. by rewrite Hlist.
Qed.

Lemma save_touches_one_record_witness :
  let b' := Facade.bucket
              (Facade.saveChatToS3 "alice" "2" (Facade.ChatData_js hello)
                 (signedInWorld alice aliceBucket)).2 in
  (Facade.getChatFromS3 "alice" "1" (signedInWorld alice b')).1
  = (Facade.getChatFromS3 "alice" "1" (signedInWorld alice aliceBucket)).1
  /\ (forall listedId, listedId ∈ chatIdsOf bob b' <-> listedId ∈ chatIdsOf bob aliceBucket).
Proof.
  intros b'.
  destruct (save_touches_one_record alice aliceBucket "alice" "2" (Facade.ChatData_js hello))
    as [Hsame Hother].
  split.
  - apply Hsame. discriminate.
  - apply (Hother bob); [reflexivity | reflexivity | discriminate].
Defined.

Lemma world_eta w : {| Facade.session := Facade.session w; Facade.bucket := Facade.bucket w |} = w.
Proof. by destruct w. Qed.

Lemma POST_writes_only_on_save session body b :
  (ChatRoute.POST session body b).2 <> b ->
  exists user request,
    session = Some user /\ ChatRoute.req_json body = Some request
    /\ JSON.get "action" request = Some (JSON.JString "save").
Proof.
  destruct session as [user|]; [|done]. unfold ChatRoute.POST, ChatRoute.handle.
  destruct (ChatRoute.req_json body) as [request|]; [|done].
  intros H. exists user, request. split; [done|]. split; [done|].
  destruct request as [ | b0 | n | s | xs | fields]; try done.
  cbv zeta in H. cbn [JSON.get] in *.
  destruct (JSON.lookup_field "action" fields) as [[ | b0 | n | a | xs | fs]|];
    try (exfalso; apply H; clear H; by repeat (case_match; simplify_eq)).
  destruct (String.eqb a "save") eqn:E; [by apply String.eqb_eq in E as ->|].
  exfalso. apply H. clear H. by repeat (case_match; simplify_eq).
Qed.

(** X3.  Only a save writes.  Whatever the request body, when the endpoint
    leaves the bucket other than it found it, somebody is signed in and
    the body, read as [req.json()] reads it, is a JSON text whose [action]
    is "save"; and the two reading functions of the facade hand the world
    back as it was. *)
Theorem only_a_save_writes :
  (forall session body b,
      (ChatRoute.POST session body b).2 <> b ->
      exists user request,
        session = Some user /\ ChatRoute.req_json body = Some request
        /\ JSON.get "action" request = Some (JSON.JString "save"))
  /\ (forall w userId chatId,
         (Facade.getChatFromS3 userId chatId w).2 = w
         /\ (Facade.listUserChats userId w).2 = w).
Proof.
  split; [exact POST_writes_only_on_save|].
  intros w userId chatId.
  assert (Hread : forall body,
             JSON.get "action" (JSON.JObject body) <> Some (JSON.JString "save") ->
             (Facade.fetch (JSON.stringify (JSON.JObject body)) w).2 = w).
  { intros body Hbody. unfold Facade.fetch.
    destruct (ChatRoute.POST _ _ _) as [response b'] eqn:E. cbn [snd].
    destruct (decide (b' = Facade.bucket w)) as [->|Hne]; [apply world_eta|].
    exfalso.
    destruct (POST_writes_only_on_save (Facade.session w)
                (JSON.stringify (JSON.JObject body)) (Facade.bucket w))
      as (user & request & _ & Hp & Ha); [by rewrite E|].
    rewrite req_json_stringify in Hp. by simplify_eq. }
  split.
  - unfold Facade.getChatFromS3.
    specialize (Hread [("action", JSON.JString "get"); ("chatId", JSON.JString chatId)]
                  ltac:(discriminate)).
    destruct (Facade.fetch _ w) as [response w']. cbn [snd] in *. subst w'.
    repeat case_match; reflexivity.
  - unfold Facade.listUserChats.
    specialize (Hread [("action", JSON.JString "list")] ltac:(discriminate)).
    destruct (Facade.fetch _ w) as [response w']. cbn [snd] in *. subst w'.
    repeat case_match; reflexivity.
Qed.

Lemma only_a_save_writes_witness :
  (ChatRoute.POST (Some alice) forgedSave ∅).2 <> ∅
  /\ exists user request,
       Some alice = Some user /\ ChatRoute.req_json forgedSave = Some request
       /\ JSON.get "action" request = Some (JSON.JString "save").
Proof.
  assert (H : (ChatRoute.POST (Some alice) forgedSave ∅).2 <> ∅).
  { intros H. apply (f_equal (fun m : S3.Bucket => m !! "alice/chats/1/data.json")) in H.
    vm_compute in H. discriminate. }
  split; [exact H|]. exact (proj1 only_a_save_writes (Some alice) forgedSave ∅ H).
Defined.

(** X4.  The answers of the endpoint.  Whatever the session, the request
    body and the bucket, the status is 200, 400, 401 or 500, the body of
    the answer is a JSON text of an object, and an answer that is not [ok]
    is one of [{error: "Invalid action"}] with 400,
    [{error: "Unauthorized"}] with 401 and
    [{error: "Internal server error"}] with 500, and leaves the bucket as
    it was. *)
Theorem endpoint_answers :
  forall (session : option ChatRoute.User) (body : string) (b : S3.Bucket),
    let answer := (ChatRoute.POST session body b).1 in
    (exists fields, JSON.parse (ChatRoute.body answer) = Some (JSON.JObject fields))
    /\ (ChatRoute.status answer = 200 /\ ChatRoute.ok answer = true
        \/ (answer = errorAnswer 400 "Invalid action"
            \/ answer = errorAnswer 401 "Unauthorized"
            \/ answer = errorAnswer 500 "Internal server error")
           /\ ChatRoute.ok answer = false /\ (ChatRoute.POST session body b).2 = b).
Proof.
  intros session body b answer. subst answer.
  assert (Hjson : forall v status,
             exists fields,
               JSON.parse (ChatRoute.body (ChatRoute.NextResponse_json (JSON.JObject v) status))
               = Some (JSON.JObject fields)).
  { intros v status. exists v. apply parse_stringify. }
  destruct session as [user|]; [|split; [apply Hjson|right; repeat split; auto]].
  assert (Hhandle :
            (exists e, ChatRoute.handle user body b = Js.Thrown e)
            \/ (exists v b', ChatRoute.handle user body b
                             = Js.Returned (ChatRoute.NextResponse_json (JSON.JObject v) 200, b'))
            \/ ChatRoute.handle user body b = Js.Returned (errorAnswer 400 "Invalid action", b)).
  { unfold ChatRoute.handle.
    destruct (ChatRoute.req_json body) as [request|]; [|left; by eexists].
    destruct request; cbv zeta; repeat case_match; simplify_eq;
      first [ left; by eexists
            | right; left; by eexists _, _
            | right; right; reflexivity ]. }
  unfold ChatRoute.POST.
  destruct Hhandle as [[e ->] | [(v & b' & ->) | ->]].
  - split; [apply Hjson|right; repeat split; auto].
  - split; [apply Hjson|left; by split].
  - split; [apply Hjson|right; repeat split; auto].
Qed.

(** X5.  The facade and the session.  With nobody signed in, saving throws
    "Failed to save chat data", loading gives [null] and listing gives the
    empty array, and the world is left as it was.  With somebody signed in,
    saving never throws and listing gives an array of strings. *)
Theorem facade_needs_a_session :
  forall (w : Facade.World) (userId chatId : string) (chatData : JSON.json),
    (Facade.session w = None ->
     Facade.saveChatToS3 userId chatId chatData w = (Js.Thrown "Failed to save chat data", w)
     /\ Facade.getChatFromS3 userId chatId w = (Some JSON.JNull, w)
     /\ Facade.listUserChats userId w = (Some (JSON.JArray []), w))
    /\ (is_Some (Facade.session w) ->
        (Facade.saveChatToS3 userId chatId chatData w).1 = Js.Returned tt
        /\ exists ids : list string,
             (Facade.listUserChats userId w).1 = Some (JSON.JArray (List.map JSON.JString ids))).
Proof.
  intros [session b] userId chatId chatData. cbn [Facade.session]. split.
  - intros ->. repeat split; reflexivity.
  - intros [user ->]. split.
    + by rewrite saveChatToS3_signed_in.
    + exists (chatIdsOf user b).
      change {| Facade.session := Some user; Facade.bucket := b |} with (signedInWorld user b).
      by rewrite listUserChats_chatIds.
Qed.

Lemma facade_needs_a_session_witness :
  Facade.saveChatToS3 "alice" "1" (Facade.ChatData_js hello)
    {| Facade.session := None; Facade.bucket := aliceBucket |}
  = (Js.Thrown "Failed to save chat data",
     {| Facade.session := None; Facade.bucket := aliceBucket |})
  /\ (Facade.saveChatToS3 "alice" "1" (Facade.ChatData_js hello) (signedInWorld alice aliceBucket)).1
     = Js.Returned tt.
Proof.
  split.
  - exact (proj1 (proj1 (facade_needs_a_session
                           {| Facade.session := None; Facade.bucket := aliceBucket |}
                           "alice" "1" (Facade.ChatData_js hello)) eq_refl)).
  - exact (proj1 (proj2 (facade_needs_a_session (signedInWorld alice aliceBucket)
                           "alice" "1" (Facade.ChatData_js hello))
                    (ex_intro _ alice eq_refl))).
Defined.

Lemma through_delimiter_Some d s t :
  S3.through_delimiter d s = Some t ->
  exists segment rest,
    Js.includes d segment = false /\ s = segment +:+ String d rest /\ t = segment +:+ String d "".
Proof.
  revert t. induction s as [|c s IH]; intros t H; [discriminate|].
  cbn [S3.through_delimiter] in H. destruct (Ascii.eqb c d) eqn:E.
  - apply Ascii.eqb_eq in E as ->. simplify_eq. by exists "", s.
  - destruct (S3.through_delimiter d s) as [t'|]; [|discriminate]. cbn in H. simplify_eq.
    destruct (IH t' eq_refl) as (segment & rest & Hseg & -> & ->).
    exists (String c segment), rest. cbn [Js.includes]. rewrite E, Hseg. by split.
Qed.

Lemma commonPrefix_Some prefix d key cp :
  S3.commonPrefix prefix d key = Some cp
  <-> exists segment rest,
        Js.includes d segment = false
        /\ key = prefix +:+ segment +:+ String d rest
        /\ cp = prefix +:+ segment +:+ String d "".
Proof.
  unfold S3.commonPrefix. split.
  - destruct (Js.strip_prefix prefix key) as [r|] eqn:Hr; [|discriminate]. cbn.
    destruct (S3.through_delimiter d r) as [t|] eqn:Ht; [|discriminate]. cbn. intros ?; simplify_eq.
    apply strip_prefix_Some in Hr as ->.
    apply through_delimiter_Some in Ht as (segment & rest & Hseg & -> & ->).
    by exists segment, rest.
  - intros (segment & rest & Hseg & -> & ->).
    rewrite strip_prefix_app. cbn. by rewrite through_delimiter_app.
Qed.

Lemma chatIdOfPrefix_segment uid segment :
  Js.includes "/" uid = false -> Js.includes "/" segment = false ->
  ChatRoute.chatIdOfPrefix ((uid +:+ "/chats/") +:+ segment +:+ "/") = segment.
Proof.
  intros Hu Hc. unfold ChatRoute.chatIdOfPrefix, Js.split.
  rewrite app_assoc_s.
  change ("/chats/" +:+ segment +:+ "/")
    with (String "/" ("chats" +:+ String "/" (segment +:+ String "/" ""))).
  rewrite split_go_app by done.
  rewrite split_go_app by reflexivity.
  rewrite split_go_app by done.
  cbn [lookup list_lookup]. unfold Js.or_else. by destruct segment.
Qed.

(** X6.  What the listing gives, whatever the bucket holds.  For a
    signed-in user whose id is free of "/", the answer is 200 with chat
    ids none of which is listed twice, no more of them than one answer of
    the store holds; each is a non-empty text free of "/" that is the
    path segment right after the user's prefix of some stored key with a
    "/" further on; and when the listing under the user's prefix fits
    into one answer of the store, every such segment is listed. *)
Theorem listing_gives_first_segments :
  forall (user : ChatRoute.User) (b : S3.Bucket) (userId : string),
    Js.includes "/" (ChatRoute.id user) = false ->
    let segmentOf (chatId : string) :=
      chatId <> "" /\ Js.includes "/" chatId = false
      /\ exists key rest,
           is_Some (b !! key)
           /\ key = (ChatRoute.id user +:+ "/chats/") +:+ chatId +:+ String "/" rest in
    (Facade.listUserChats userId (signedInWorld user b)).1
    = Some (JSON.JArray (List.map JSON.JString (chatIdsOf user b)))
    /\ ChatRoute.status (ChatRoute.POST (Some user) listRequest b).1 = 200
    /\ NoDup (chatIdsOf user b)
    /\ length (chatIdsOf user b) <= S3.MaxKeys
    /\ (forall chatId, chatId ∈ chatIdsOf user b -> segmentOf chatId)
    /\ (length (S3.listing (ChatRoute.id user +:+ "/chats/") "/" b) <= S3.MaxKeys ->
        forall chatId, segmentOf chatId -> chatId ∈ chatIdsOf user b).
Proof.
  intros user b userId Hu segmentOf. subst segmentOf.
  assert (Hcp : forall key cp,
             S3.commonPrefix (ChatRoute.id user +:+ "/chats/") "/" key = Some cp
             <-> exists segment rest,
                   Js.includes "/" segment = false
                   /\ key = (ChatRoute.id user +:+ "/chats/") +:+ segment +:+ String "/" rest
                   /\ cp = (ChatRoute.id user +:+ "/chats/") +:+ segment +:+ "/").
  { intros key cp. apply commonPrefix_Some. }
  assert (Hlisted : forall cp,
             cp ∈ S3.listCommonPrefixes (ChatRoute.id user +:+ "/chats/") "/" b ->
             exists segment key rest,
               Js.includes "/" segment = false /\ is_Some (b !! key)
               /\ key = (ChatRoute.id user +:+ "/chats/") +:+ segment +:+ String "/" rest
               /\ cp = (ChatRoute.id user +:+ "/chats/") +:+ segment +:+ "/").
  { intros cp H. apply elem_of_listCommonPrefixes_stored in H as (key & Hkey & H).
    apply Hcp in H as (segment & rest & ? & ? & ?). by exists segment, key, rest. }
  split; [by rewrite listUserChats_chatIds|]. split.
  { unfold ChatRoute.POST. by rewrite handle_list. }
  split; [|split; [|split]].
  - unfold chatIdsOf. apply NoDup_filter. rewrite map_fmap.
    apply NoDup_fmap_2_strong; [|apply NoDup_listCommonPrefixes].
    intros cp1 cp2 H1 H2 Heq.
    apply Hlisted in H1 as (s1 & _ & _ & Hs1 & _ & _ & ->).
    apply Hlisted in H2 as (s2 & _ & _ & Hs2 & _ & _ & ->).
    rewrite !chatIdOfPrefix_segment in Heq by done. by rewrite Heq.
  - unfold chatIdsOf. etransitivity; [apply length_filter|].
    rewrite length_map. apply length_listCommonPrefixes.
  - intros chatId. rewrite elem_of_chatIdsOf.
    intros (Hne & cp & H & ->). apply Hlisted in H as (segment & key & rest & Hs & Hkey & -> & ->).
    rewrite chatIdOfPrefix_segment in * by done. split; [done|]. split; [done|].
    eexists _, rest. split; [exact Hkey|reflexivity].
  - intros Hpage chatId (Hne & Hs & key & rest & Hkey & ->). apply elem_of_chatIdsOf.
    split; [done|].
    exists ((ChatRoute.id user +:+ "/chats/") +:+ chatId +:+ "/"). split.
    + apply elem_of_listCommonPrefixes_any; [exact Hpage|].
      eexists. split; [exact Hkey|]. apply Hcp. by exists chatId, rest.
    + by rewrite chatIdOfPrefix_segment.
Qed.

Lemma listing_gives_first_segments_witness :
  (Facade.listUserChats "alice" (signedInWorld alice nestedBucket)).1
  = Some (JSON.JArray (List.map JSON.JString (chatIdsOf alice nestedBucket)))
  /\ NoDup (chatIdsOf alice nestedBucket)
  /\ "a" ∈ chatIdsOf alice nestedBucket.
Proof.
  destruct (listing_gives_first_segments alice nestedBucket "alice" eq_refl)
    as (H1 & _ & H2 & _ & _ & H3).
  split; [exact H1|]. split; [exact H2|].
  apply H3.
  - vm_compute. lia.
  - split; [discriminate|]. split; [reflexivity|].
    exists "alice/chats/a/b/data.json", "b/data.json". split; [|reflexivity].
    vm_compute. by eexists.
Defined.

(** X7.  A save without a record.  With somebody signed in, a save
    request that carries no [chatData] is answered 200 and stores empty
    bytes under the key of the chat, whatever was there; the chat then
    loads as [null], as a chat never saved does. *)
Theorem save_without_a_record_blanks_the_chat :
  forall (user : ChatRoute.User) (b : S3.Bucket) (userId chatId : string) (fields : list (string * JSON.json)),
    JSON.lookup_field "action" fields = Some (JSON.JString "save") ->
    JSON.lookup_field "chatId" fields = Some (JSON.JString chatId) ->
    JSON.lookup_field "chatData" fields = None ->
    let key := ChatRoute.id user +:+ "/chats/" +:+ chatId +:+ "/data.json" in
    let answer := ChatRoute.POST (Some user) (JSON.stringify (JSON.JObject fields)) b in
    ChatRoute.status answer.1 = 200
    /\ answer.2 = <[key := ""]> b
    /\ (Facade.getChatFromS3 userId chatId (signedInWorld user answer.2)).1 = Some JSON.JNull.
Proof.
  intros user b userId chatId fields Haction Hid Hdata key answer. subst key answer.
  fold (keyOf (ChatRoute.id user) chatId).
  assert (Hb : ChatRoute.POST (Some user) (JSON.stringify (JSON.JObject fields)) b
               = (ChatRoute.NextResponse_json (JSON.JObject [("success", JSON.JBool true)]) 200,
                  <[keyOf (ChatRoute.id user) chatId := ""]> b)).
  { unfold ChatRoute.POST, ChatRoute.handle. rewrite req_json_stringify.
    cbn [JSON.get]. rewrite Haction, Hid, Hdata. reflexivity. }
  rewrite Hb. cbn [fst snd]. split; [reflexivity|]. split; [reflexivity|].
  by rewrite getChatFromS3_loaded, lookup_insert_eq.
Qed.

Lemma save_without_a_record_blanks_the_chat_witness :
  (Facade.getChatFromS3 "alice" "1"
     (signedInWorld alice
        (ChatRoute.POST (Some alice)
           (JSON.stringify (JSON.JObject [("action", JSON.JString "save");
                                          ("chatId", JSON.JString "1")])) aliceBucket).2)).1
  = Some JSON.JNull.
Proof.
  exact (proj2 (proj2 (save_without_a_record_blanks_the_chat alice aliceBucket "alice" "1"
                         [("action", JSON.JString "save"); ("chatId", JSON.JString "1")]
                         eq_refl eq_refl eq_refl))).
Defined.

(** ** The generation endpoint *)

(** X8.  A run of the relay that fails.  [start] never throws and never
    leaves the stream readable.  When the provider rejects the call, the
    one call on the controller is [error] with the provider's error.  When
    the stream fails, or the text of a chunk throws, after some fragments,
    every one of them was enqueued as it was yielded, before the failure;
    then comes [error] with the provider's error, as the last call, and
    [close] is never called. *)
Theorem relay_outcome :
  forall (model : GeminiRoute.Provider) (prompt : string),
    let result := GeminiRoute.start model prompt GeminiRoute.newRun in
    let calls := GeminiRoute.events result.2 in
    let c := GeminiRoute.controller result.2 in
    result.1 = Js.Returned tt
    /\ GeminiRoute.state c <> GeminiRoute.Readable
    /\ (forall e,
           model prompt = Js.Thrown e ->
           calls = [GeminiRoute.ProviderFails e; GeminiRoute.Error e]
           /\ GeminiRoute.state c = GeminiRoute.Errored e)
    /\ (forall fragments e,
           model prompt = Js.Returned (fragmentsThen fragments (GeminiRoute.StreamFails e)) ->
           calls = handedOn fragments ++ [GeminiRoute.ProviderFails e; GeminiRoute.Error e]
           /\ GeminiRoute.state c = GeminiRoute.Errored e)
    /\ (forall fragments e rest,
           model prompt
           = Js.Returned (fragmentsThen fragments
                            (GeminiRoute.StreamChunk (GeminiRoute.ChunkThrows e) rest)) ->
           calls = handedOn fragments
                     ++ [GeminiRoute.ProviderYields (GeminiRoute.ChunkThrows e);
                         GeminiRoute.Error e]
           /\ GeminiRoute.state c = GeminiRoute.Errored e).
Proof.
  intros model prompt result calls c. subst result calls c. rewrite start_run.
  cbn [fst snd GeminiRoute.events GeminiRoute.controller].
  split; [reflexivity|]. split; [|split; [|split]].
  - unfold relayed. destruct (model prompt) as [stream|e]; cbn; [|discriminate].
    destruct (failureOf stream); discriminate.
  - by intros e ->.
  - intros fragments e ->. unfold relayed, relayedEvents.
    rewrite leadingFragments_fragmentsThen, failureOf_fragmentsThen, lastTurn_fragmentsThen.
    cbn [leadingFragments failureOf lastTurn settling GeminiRoute.state app].
    by rewrite app_nil_r.
  - intros fragments e rest ->. unfold relayed, relayedEvents.
    rewrite leadingFragments_fragmentsThen, failureOf_fragmentsThen, lastTurn_fragmentsThen.
    cbn [leadingFragments failureOf lastTurn settling GeminiRoute.state app].
    by rewrite app_nil_r.
Qed.

Lemma relay_outcome_witness :
  GeminiRoute.events (GeminiRoute.start cutShort "Mars" GeminiRoute.newRun).2
  = handedOn ["Red"; " planet"] ++ [GeminiRoute.ProviderFails "503"; GeminiRoute.Error "503"].
Proof.
  exact (proj1 (proj1 (proj2 (proj2 (proj2 (relay_outcome cutShort "Mars"))))
                  ["Red"; " planet"] "503" eq_refl)).
Defined.

(** ** A submit, step by step *)

Lemma State_eta (st : Dashboard.State) :
  {| Dashboard.chats := Dashboard.chats st;
     Dashboard.currentChatId := Dashboard.currentChatId st;
     Dashboard.messages := Dashboard.messages st;
     Dashboard.input := Dashboard.input st;
     Dashboard.isLoading := Dashboard.isLoading st;
     Dashboard.tone := Dashboard.tone st;
     Dashboard.goal := Dashboard.goal st;
     Dashboard.audience := Dashboard.audience st;
     Dashboard.currentStreamingMessage := Dashboard.currentStreamingMessage st |} = st.
Proof. by destruct st. Qed.

Lemma readAll_text acc values :
  (Dashboard.readAll acc values).2 = acc +:+ finalText (List.map Dashboard.decode values).
Proof.
  revert acc. induction values as [|v values IH]; intros acc; cbn [Dashboard.readAll List.map finalText foldr].
  - by rewrite app_empty_r.
  - specialize (IH (acc +:+ Dashboard.decode v)).
    destruct (Dashboard.readAll _ values) as [updates final]. cbn [snd] in *.
    rewrite IH. by rewrite app_assoc_s.
Qed.

Lemma readAll_length acc values : length (Dashboard.readAll acc values).1 = length values.
Proof.
  revert acc. induction values as [|v values IH]; intros acc; cbn [Dashboard.readAll]; [reflexivity|].
  specialize (IH (acc +:+ Dashboard.decode v)).
  destruct (Dashboard.readAll _ values) as [updates final]. cbn [fst length] in *. by rewrite IH.
Qed.

Lemma readAll_take acc values k :
  take k (Dashboard.readAll acc values).1 = (Dashboard.readAll acc (take k values)).1.
Proof.
  revert acc k. induction values as [|v values IH]; intros acc [|k]; cbn [Dashboard.readAll take];
    try reflexivity.
  specialize (IH (acc +:+ Dashboard.decode v) k).
  destruct (Dashboard.readAll _ values) as [updates final].
  destruct (Dashboard.readAll _ (take k values)) as [updates' final'].
  cbn [fst] in *. cbn [take]. by rewrite IH.
Qed.

Lemma commit_setCurrentStreamingMessage s st :
  Dashboard.commit [Dashboard.setCurrentStreamingMessage s] st
  = Dashboard.with_currentStreamingMessage s st.
Proof. unfold Dashboard.commit. cbn. by rewrite String.eqb_refl. Qed.

(** The reads of the body leave the text read so far as the streaming
    message and touch nothing else. *)
Lemma run_readAll acc values st :
  Dashboard.currentStreamingMessage st = acc ->
  Dashboard.run (Dashboard.readAll acc values).1 st
  = Dashboard.with_currentStreamingMessage
      (acc +:+ finalText (List.map Dashboard.decode values)) st.
Proof.
  revert acc st. induction values as [|v values IH]; intros acc st Hacc;
    cbn [Dashboard.readAll List.map finalText foldr].
  - rewrite app_empty_r. subst acc. by destruct st.
  - specialize (IH (acc +:+ Dashboard.decode v)).
    destruct (Dashboard.readAll _ values) as [updates final]. cbn [fst] in *.
    rewrite run_cons, commit_setCurrentStreamingMessage, IH by reflexivity.
    by rewrite app_assoc_s.
Qed.

Lemma fold_plain sets st :
  Forall plain sets ->
  let st' := fold_left (fun s op => Dashboard.apply op s) sets st in
  Dashboard.chats st' = Dashboard.chats st
  /\ Dashboard.currentChatId st' = Dashboard.currentChatId st
  /\ existsb Dashboard.sets_chats sets = false.
Proof.
  intros H. revert st. induction H as [|op sets Hop _ IH]; intros st; [done|].
  cbn [fold_left existsb]. destruct (IH (Dashboard.apply op st)) as (-> & -> & ->).
  by destruct op.
Qed.

(** A batch of updates of the page proper followed by [saveChat]. *)
Lemma commit_save sets userId view messages now st :
  Forall plain sets ->
  Dashboard.commit
    (sets ++ Dashboard.saveChat userId (Dashboard.chats view) (Dashboard.currentChatId view)
               messages now) st
  = let st' := fold_left (fun s op => Dashboard.apply op s) sets st in
    match savedChat userId view with
    | None => st'
    | Some (_, chat) =>
        Dashboard.showCurrentChat
          (Dashboard.with_chats
             (replaceChat (Dashboard.currentChatId view) (chatWith chat messages now)) st')
    end.
Proof.
  intros Hsets. destruct (fold_plain sets st Hsets) as (Hchats & Hcur & Hno).
  unfold Dashboard.saveChat, savedChat, Dashboard.commit.
  destruct (Dashboard.signedIn userId) as [uid|];
    [destruct (Dashboard.findChat _ _) as [chat|]|].
  - rewrite existsb_app, fold_left_app. cbn. by rewrite orb_true_r.
  - rewrite app_nil_r, Hno, Hcur, String.eqb_refl. reflexivity.
  - rewrite app_nil_r, Hno, Hcur, String.eqb_refl. reflexivity.
Qed.

Lemma replaceChat_twice chatId c1 c2 chats :
  Dashboard.Chat.id c1 = chatId ->
  replaceChat chatId c2 (replaceChat chatId c1 chats) = replaceChat chatId c2 chats.
Proof.
  intros Hid. unfold replaceChat. rewrite List.map_map. apply List.map_ext. intros c.
  destruct (String.eqb (Dashboard.Chat.id c) chatId) eqn:E; [|by rewrite E].
  by rewrite Hid, String.eqb_refl.
Qed.

Lemma findChat_replaceChat_other other chatId c' chats :
  Dashboard.Chat.id c' = chatId -> other <> chatId ->
  Dashboard.findChat other (replaceChat chatId c' chats) = Dashboard.findChat other chats.
Proof.
  intros Hid Hne. unfold Dashboard.findChat, replaceChat.
  induction chats as [|c chats IH]; [reflexivity|]. cbn [List.map find].
  destruct (String.eqb (Dashboard.Chat.id c) chatId) eqn:E.
  - apply String.eqb_eq in E. rewrite Hid, E.
    destruct (String.eqb chatId other) eqn:E'; [apply String.eqb_eq in E'; congruence|]. exact IH.
  - by rewrite IH.
Qed.

Lemma savedChat_Some userId view uid chat :
  savedChat userId view = Some (uid, chat) ->
  Dashboard.signedIn userId = Some uid
  /\ Dashboard.findChat (Dashboard.currentChatId view) (Dashboard.chats view) = Some chat
  /\ Dashboard.Chat.id chat = Dashboard.currentChatId view.
Proof.
  unfold savedChat. destruct (Dashboard.signedIn userId) as [u|]; [|done].
  destruct (Dashboard.findChat _ _) as [c|] eqn:E; [|done]. intros [= -> ->].
  repeat split. by apply findChat_id in E.
Qed.

Lemma savedChat_None userId view :
  savedChat userId view = None ->
  Dashboard.signedIn userId = None
  \/ Dashboard.findChat (Dashboard.currentChatId view) (Dashboard.chats view) = None.
Proof.
  unfold savedChat. destruct (Dashboard.signedIn userId) as [u|]; [|by left].
  destruct (Dashboard.findChat _ _) as [c|] eqn:E; [done|by right].
Qed.

Lemma saveChat_saveCall userId view messages now :
  List.filter Dashboard.is_call
    (Dashboard.saveChat userId (Dashboard.chats view) (Dashboard.currentChatId view) messages now)
  = saveCall userId view messages now.
Proof.
  unfold Dashboard.saveChat, saveCall, savedChat.
  destruct (Dashboard.signedIn userId) as [uid|]; [|reflexivity].
  by destruct (Dashboard.findChat _ _) as [chat|].
Qed.

(** The script of a submit, batch by batch. *)
Lemma handleSubmit_script userId view now1 now2 reply :
  Js.trim (Dashboard.input view) <> "" ->
  Dashboard.handleSubmit userId view now1 now2 reply
  = [firstBatch userId view now1; [Dashboard.fetchGemini (requestOf view)]]
    ++ (Dashboard.readAll "" (chunksOf reply)).1
    ++ [answerBatch userId view now2 reply; [Dashboard.setIsLoading false]].
Proof.
  intros Hinput. unfold Dashboard.handleSubmit.
  destruct (Js.trim (Dashboard.input view)) as [|c0 trimmed]; [done|].
  cbn [Js.truthy negb]. fold (userMessage view). fold (requestOf view).
  fold (firstBatch userId view now1).
  unfold answerBatch, finalMessages, answerTo, receivedText.
  destruct reply as [|[] [body|]]; cbn [Dashboard.receive chunksOf generationSucceeds];
    try (cbn [Dashboard.readAll fst]; by rewrite <- app_assoc).
  pose proof (readAll_text "" (Dashboard.chunks body)) as Htext.
  destruct (Dashboard.readAll "" (Dashboard.chunks body)) as [updates final].
  cbn [fst snd] in *. rewrite app_empty_l in Htext. subst final.
  destruct (Dashboard.ending body); by rewrite <- app_assoc.
Qed.

Lemma findChat_replaceChat chatId chats chat updatedChat :
  Dashboard.findChat chatId chats = Some chat ->
  Dashboard.Chat.id updatedChat = chatId ->
  Dashboard.findChat chatId (replaceChat chatId updatedChat chats) = Some updatedChat.
Proof. apply findChat_replace. Qed.

Lemma showCurrentChat_found st chat :
  Dashboard.findChat (Dashboard.currentChatId st) (Dashboard.chats st) = Some chat ->
  Dashboard.showCurrentChat st = Dashboard.with_messages (Dashboard.Chat.messages chat) st.
Proof. intros H. unfold Dashboard.showCurrentChat. by rewrite H. Qed.

Lemma commit_firstBatch userId view now1 :
  Dashboard.commit (firstBatch userId view now1) view = inProgress userId view now1 "".
Proof.
  unfold firstBatch. rewrite commit_save by (repeat constructor).
  unfold inProgress, chatsAfter. cbn [fold_left Dashboard.apply].
  destruct (savedChat userId view) as [[uid chat]|] eqn:E; [|reflexivity].
  apply savedChat_Some in E as (_ & Hfind & Hid).
  rewrite (showCurrentChat_found _
             (chatWith chat (Dashboard.messages view ++ [userMessage view]) now1));
    [reflexivity|].
  apply (findChat_replaceChat _ _ chat); [exact Hfind|exact Hid].
Qed.

Lemma commit_answerBatch userId view now1 now2 reply :
  Dashboard.commit (answerBatch userId view now2 reply)
    (inProgress userId view now1 (receivedText reply))
  = Dashboard.with_isLoading true (settled userId view now2 reply).
Proof.
  unfold answerBatch. rewrite commit_save by (destruct (generationSucceeds reply); repeat constructor).
  unfold settled, inProgress, chatsAfter.
  destruct (savedChat userId view) as [[uid chat]|] eqn:E.
  - apply savedChat_Some in E as (_ & Hfind & Hid).
    assert (Hshow : forall st,
               Dashboard.currentChatId st = Dashboard.currentChatId view ->
               Dashboard.chats st
               = replaceChat (Dashboard.currentChatId view)
                   (chatWith chat (Dashboard.messages view ++ [userMessage view]) now1)
                   (Dashboard.chats view) ->
               Dashboard.showCurrentChat
                 (Dashboard.with_chats
                    (replaceChat (Dashboard.currentChatId view)
                       (chatWith chat (finalMessages view reply) now2)) st)
               = Dashboard.with_messages (finalMessages view reply)
                   (Dashboard.with_chats
                      (fun _ => replaceChat (Dashboard.currentChatId view)
                                  (chatWith chat (finalMessages view reply) now2)
                                  (Dashboard.chats view)) st)).
    { intros st Hcur Hchats.
      rewrite (showCurrentChat_found _ (chatWith chat (finalMessages view reply) now2)).
      - unfold Dashboard.with_chats. cbn [Dashboard.chats]. rewrite Hchats.
        rewrite replaceChat_twice by exact Hid. reflexivity.
      - unfold Dashboard.with_chats. cbn [Dashboard.chats Dashboard.currentChatId].
        rewrite Hcur, Hchats, replaceChat_twice by exact Hid.
        apply (findChat_replaceChat _ _ chat); [exact Hfind|exact Hid]. }
    destruct (generationSucceeds reply); cbn [fold_left];
      rewrite Hshow by reflexivity; reflexivity.
  - by destruct (generationSucceeds reply).
Qed.

(** The page after the first batches of a submit: up to the request, and
    after each of the first [k] chunks. *)
Lemma handleSubmit_progress userId view now1 now2 reply k :
  Js.trim (Dashboard.input view) <> "" ->
  Dashboard.run (take (2 + k) (Dashboard.handleSubmit userId view now1 now2 reply)) view
  = if decide (k <= length (chunksOf reply))
    then inProgress userId view now1
           (finalText (List.map Dashboard.decode (take k (chunksOf reply))))
    else if decide (k = S (length (chunksOf reply)))
    then Dashboard.with_isLoading true (settled userId view now2 reply)
    else settled userId view now2 reply.
Proof.
  intros Hinput. rewrite handleSubmit_script by exact Hinput.
  cbn [app Nat.add take]. rewrite !run_cons, commit_firstBatch, commit_fetchGemini.
  pose proof (readAll_length "" (chunksOf reply)) as Hlen.
  destruct (decide (k <= length (chunksOf reply))) as [Hk|Hk].
  - rewrite take_app_le by lia. rewrite readAll_take, run_readAll by reflexivity.
    by rewrite app_empty_l.
  - rewrite take_app_ge by lia. rewrite run_app, run_readAll by reflexivity.
    rewrite app_empty_l. fold (receivedText reply).
    change (Dashboard.with_currentStreamingMessage (receivedText reply)
              (inProgress userId view now1 ""))
      with (inProgress userId view now1 (receivedText reply)).
    rewrite Hlen.
    destruct (decide (k = S (length (chunksOf reply)))) as [->|Hk'].
    + replace (S (length (chunksOf reply)) - length (chunksOf reply)) with 1 by lia.
      cbn [take]. rewrite run_cons. cbn [Dashboard.run fold_left].
      apply commit_answerBatch.
    + destruct (k - length (chunksOf reply)) as [|[|n]] eqn:En; [lia|lia|].
      cbn [take]. rewrite !run_cons, commit_answerBatch, commit_setIsLoading.
      destruct n; reflexivity.
Qed.

(** The page when a submit has run to its end. *)
Lemma handleSubmit_settles userId view now1 now2 reply :
  Js.trim (Dashboard.input view) <> "" ->
  Dashboard.run (Dashboard.handleSubmit userId view now1 now2 reply) view
  = settled userId view now2 reply.
Proof.
  intros Hinput. rewrite handleSubmit_script by exact Hinput.
  cbn [app]. rewrite !run_cons, commit_firstBatch, commit_fetchGemini, run_app.
  rewrite run_readAll by reflexivity. rewrite app_empty_l. fold (receivedText reply).
  change (Dashboard.with_currentStreamingMessage (receivedText reply)
            (inProgress userId view now1 ""))
    with (inProgress userId view now1 (receivedText reply)).
  rewrite !run_cons, commit_answerBatch, commit_setIsLoading. reflexivity.
Qed.

(** The calls of a submit. *)
Lemma handleSubmit_calls userId view now1 now2 reply :
  Js.trim (Dashboard.input view) <> "" ->
  Dashboard.calls (Dashboard.handleSubmit userId view now1 now2 reply)
  = saveCall userId view (Dashboard.messages view ++ [userMessage view]) now1
    ++ [Dashboard.fetchGemini (requestOf view)]
    ++ saveCall userId view (finalMessages view reply) now2.
Proof.
  intros Hinput. rewrite handleSubmit_script by exact Hinput. unfold Dashboard.calls.
  rewrite !concat_app. cbn [concat]. rewrite !List.filter_app, app_nil_r.
  rewrite (calls_streamingOnly _ (readAll_streamingOnly "" (chunksOf reply))).
  unfold firstBatch, answerBatch. rewrite !List.filter_app, !saveChat_saveCall.
  destruct (generationSucceeds reply); cbn [List.filter Dashboard.is_call app];
    by rewrite <- app_assoc, app_nil_r.
Qed.

Lemma loaded_stringify v : loaded (Some (JSON.stringify v)) = v.
Proof. unfold loaded. by rewrite truthy_stringify, parse_stringify. Qed.

Lemma generationSucceeds_done body :
  Dashboard.ending body = Dashboard.ReadDone ->
  generationSucceeds (Dashboard.FetchResponds true (Some body)) = true
  /\ answerTo (Dashboard.FetchResponds true (Some body))
     = finalText (List.map Dashboard.decode (Dashboard.chunks body)).
Proof. intros H. unfold answerTo, generationSucceeds. by rewrite H. Qed.

Lemma generationFails_not_succeeds reply :
  generationFails reply ->
  generationSucceeds reply = false /\ answerTo reply = Dashboard.apology.
Proof.
  unfold answerTo. destruct reply as [|[] [body|]]; cbn; try done. by intros ->.
Qed.

Lemma savedChat_found userId view uid chat :
  Dashboard.signedIn userId = Some uid ->
  Dashboard.findChat (Dashboard.currentChatId view) (Dashboard.chats view) = Some chat ->
  savedChat userId view = Some (uid, chat).
Proof. intros Hu Hc. unfold savedChat. by rewrite Hu, Hc. Qed.

Lemma savedChat_skipped userId view :
  Dashboard.signedIn userId = None
  \/ Dashboard.findChat (Dashboard.currentChatId view) (Dashboard.chats view) = None ->
  savedChat userId view = None.
Proof.
  unfold savedChat. intros [-> | ->]; [reflexivity|]. by destruct (Dashboard.signedIn userId).
Qed.

(** The saves of a submit carried out, and the chat loaded afterwards. *)
Lemma performAll_handleSubmit userId view now1 now2 reply uid chat user b :
  Js.trim (Dashboard.input view) <> "" ->
  savedChat userId view = Some (uid, chat) ->
  (Facade.getChatFromS3 uid (Dashboard.currentChatId view)
     (performAll (Dashboard.handleSubmit userId view now1 now2 reply) (signedInWorld user b))).1
  = Some (Facade.ChatData_js
            (Dashboard.toChatData (chatWith chat (finalMessages view reply) now2))).
Proof.
  intros Hinput Hsaved. unfold performAll. rewrite handleSubmit_calls by exact Hinput.
  unfold saveCall. rewrite Hsaved. cbn [app foldl perform].
  rewrite saveChatToS3_returns. cbn [snd]. rewrite saveChatToS3_returns. cbn [snd].
  rewrite getChatFromS3_loaded, lookup_insert_eq, loaded_stringify. reflexivity.
Qed.

(** X10.  A generation that succeeds.  Let the input not be blank and the
    reply be an ok response whose body is read to its end.  The handler
    ends with the earlier messages, the user's turn and an assistant's turn
    holding the text of all the chunks in order, each chunk decoded on its
    own; the streaming message and the input are empty and the loading
    flag is cleared.  With somebody
    signed in and the current chat among the chats, that chat holds these
    messages, the calls are a save, the generation request and a save, in
    this order, and the chat loaded afterwards is the one with the
    assistant's turn.  Otherwise the chats are unchanged and the
    generation request is the only call. *)
Theorem successful_generation_is_appended_and_saved :
  forall (userId : option string) (view : Dashboard.State)
         (now1 now2 : Dashboard.Date) (body : Dashboard.Body),
    Js.trim (Dashboard.input view) <> "" ->
    Dashboard.ending body = Dashboard.ReadDone ->
    let script :=
      Dashboard.handleSubmit userId view now1 now2 (Dashboard.FetchResponds true (Some body)) in
    let final := Dashboard.run script view in
    let answer := assistantMessage (finalText (List.map Dashboard.decode (Dashboard.chunks body))) in
    Dashboard.messages final = Dashboard.messages view ++ [userMessage view; answer]
    /\ Dashboard.currentStreamingMessage final = ""
    /\ Dashboard.input final = ""
    /\ Dashboard.isLoading final = false
    /\ (forall (uid : string) (chat : Dashboard.Chat),
          Dashboard.signedIn userId = Some uid ->
          Dashboard.findChat (Dashboard.currentChatId view) (Dashboard.chats view) = Some chat ->
          let asked := chatWith chat (Dashboard.messages view ++ [userMessage view]) now1 in
          let answered :=
            chatWith chat (Dashboard.messages view ++ [userMessage view; answer]) now2 in
          Dashboard.findChat (Dashboard.currentChatId view) (Dashboard.chats final)
          = Some answered
          /\ Dashboard.calls script
             = [Dashboard.saveChatToS3 uid (Dashboard.currentChatId view)
                  (Dashboard.toChatData asked);
                Dashboard.fetchGemini (requestOf view);
                Dashboard.saveChatToS3 uid (Dashboard.currentChatId view)
                  (Dashboard.toChatData answered)]
          /\ forall (user : ChatRoute.User) (b : S3.Bucket),
               (Facade.getChatFromS3 uid (Dashboard.currentChatId view)
                  (performAll script (signedInWorld user b))).1
               = Some (Facade.ChatData_js (Dashboard.toChatData answered)))
    /\ (Dashboard.signedIn userId = None
        \/ Dashboard.findChat (Dashboard.currentChatId view) (Dashboard.chats view) = None ->
        Dashboard.chats final = Dashboard.chats view
        /\ Dashboard.calls script = [Dashboard.fetchGemini (requestOf view)]).
Proof.
  intros userId view now1 now2 body Hinput Hdone script final answer.
  destruct (generationSucceeds_done body Hdone) as [Hok Hanswer].
  assert (Hfinal : finalMessages view (Dashboard.FetchResponds true (Some body))
                   = Dashboard.messages view ++ [userMessage view; answer]).
  { unfold finalMessages. by rewrite Hanswer. }
  subst final script. rewrite handleSubmit_settles, handleSubmit_calls by exact Hinput.
  unfold settled. cbn [Dashboard.messages Dashboard.currentStreamingMessage Dashboard.input
                         Dashboard.isLoading Dashboard.chats].
  rewrite Hok, Hfinal. repeat split.
  - unfold chatsAfter. rewrite (savedChat_found _ _ _ _ H H0).
    apply (findChat_replaceChat _ _ chat); [exact H0|]. by apply findChat_id in H0.
  - unfold saveCall. by rewrite (savedChat_found _ _ _ _ H H0).
  - intros user b.
    pose proof (performAll_handleSubmit userId view now1 now2
                  (Dashboard.FetchResponds true (Some body)) uid chat user b Hinput
                  (savedChat_found _ _ _ _ H H0)) as Hload.
    rewrite Hfinal in Hload. exact Hload.
  - unfold chatsAfter. by rewrite (savedChat_skipped _ _ H).
  - unfold saveCall. by rewrite (savedChat_skipped _ _ H).
Qed.

Lemma successful_generation_is_appended_and_saved_witness :
  Dashboard.messages
    (Dashboard.run
       (Dashboard.handleSubmit (Some "alice") twoChats 1717171718001%Z 1717171719000%Z
          (Dashboard.FetchResponds true (Some redPlanetBody))) twoChats)
  = [ {| Facade.role := Facade.user; Facade.content := "write a tweet about Mars" |};
      {| Facade.role := Facade.assistant; Facade.content := "Red planet" |} ].
Proof.
  refine (proj1 (successful_generation_is_appended_and_saved (Some "alice") twoChats
                   1717171718001%Z 1717171719000%Z redPlanetBody _ eq_refl)).
  vm_compute. discriminate.
Defined.

(** X11.  A generation that fails leaves the streamed text behind.  Let the
    input not be blank and the generation fail.  The handler ends with the
    apology as the assistant's turn, and the streaming message is not
    cleared: it still holds the text of the chunks read before the failure,
    so after a stream that failed past its first fragments the page has the
    apology among the messages and the partial text as streaming message.
    For chunks that are the encodings of fragments this text is what
    [TextDecoder] makes of each fragment's bytes, joined; it is the
    fragments joined when the decoder gives each of them back.  When the
    request failed before a body was read the streaming message is empty. *)
Theorem interrupted_stream_leaves_its_text :
  forall (userId : option string) (view : Dashboard.State)
         (now1 now2 : Dashboard.Date) (reply : Dashboard.FetchResult),
    Js.trim (Dashboard.input view) <> "" ->
    generationFails reply ->
    let final := Dashboard.run (Dashboard.handleSubmit userId view now1 now2 reply) view in
    last (Dashboard.messages final) = Some apologyMessage
    /\ Dashboard.currentStreamingMessage final = receivedText reply
    /\ (forall fragments ending,
           reply = Dashboard.FetchResponds true
                     (Some {| Dashboard.chunks := List.map GeminiRoute.encode fragments;
                              Dashboard.ending := ending |}) ->
           Dashboard.currentStreamingMessage final
           = finalText (List.map Js.TextDecoder_decode fragments)
           /\ (Forall decodesToItself fragments ->
               Dashboard.currentStreamingMessage final = finalText fragments))
    /\ (chunksOf reply = [] -> Dashboard.currentStreamingMessage final = "").
Proof.
  intros userId view now1 now2 reply Hinput Hfails final. subst final.
  rewrite handleSubmit_settles by exact Hinput.
  destruct (generationFails_not_succeeds reply Hfails) as [Hno Hanswer].
  unfold settled, finalMessages.
  cbn [Dashboard.messages Dashboard.currentStreamingMessage]. rewrite Hno, Hanswer.
  split; [|split; [reflexivity|split]].
  - change [userMessage view; assistantMessage Dashboard.apology]
      with ([userMessage view] ++ [apologyMessage]).
    by rewrite app_assoc, last_snoc.
  - intros fragments ending ->. unfold receivedText. cbn [chunksOf Dashboard.chunks].
    rewrite decode_encode_fragments. split; [reflexivity|].
    intros H. by rewrite decoded_fragments.
  - intros H. unfold receivedText. by rewrite H.
Qed.

Lemma interrupted_stream_leaves_its_text_witness :
  Dashboard.currentStreamingMessage
    (Dashboard.run
       (Dashboard.handleSubmit (Some "alice") twoChats 1717171718001%Z 1717171719000%Z
          failingMidStream) twoChats)
  = "Red planet".
Proof.
  refine (proj2 (proj1 (proj2 (proj2 (interrupted_stream_leaves_its_text (Some "alice") twoChats
                   1717171718001%Z 1717171719000%Z failingMidStream _ eq_refl)))
            ["Red"; " planet"] Dashboard.ReadFails eq_refl) _).
  - vm_compute. discriminate.
  - repeat constructor.
Defined.

Lemma handleSubmit_length userId view now1 now2 reply :
  Js.trim (Dashboard.input view) <> "" ->
  length (Dashboard.handleSubmit userId view now1 now2 reply) = 4 + length (chunksOf reply).
Proof.
  intros Hinput. rewrite handleSubmit_script by exact Hinput.
  cbn [app length]. rewrite length_app, readAll_length. cbn [length]. lia.
Qed.

(** X12.  A submit under way.  Let the input not be blank; the script of
    the handler has four batches and one more for each chunk of the reply.
    From the first batch up to the last but one the loading flag is set,
    so the submit button does not take an event; the last batch clears it.
    Once the request is made and [k] chunks are read, the messages are
    the earlier ones and the user's turn, the input is empty and the
    streaming message is the text of the first [k] chunks, each decoded on
    its own. *)
Theorem submit_in_progress :
  forall (userId : option string) (view : Dashboard.State)
         (now1 now2 : Dashboard.Date) (reply : Dashboard.FetchResult),
    Js.trim (Dashboard.input view) <> "" ->
    let script := Dashboard.handleSubmit userId view now1 now2 reply in
    length script = 4 + length (chunksOf reply)
    /\ (forall j, 1 <= j < length script ->
          let st := Dashboard.run (take j script) view in
          Dashboard.isLoading st = true
          /\ Dashboard.enabled st Dashboard.SubmitButton = false)
    /\ (forall k, k <= length (chunksOf reply) ->
          let st := Dashboard.run (take (2 + k) script) view in
          Dashboard.messages st = Dashboard.messages view ++ [userMessage view]
          /\ Dashboard.input st = ""
          /\ Dashboard.currentStreamingMessage st
             = finalText (List.map Dashboard.decode (take k (chunksOf reply))))
    /\ Dashboard.isLoading (Dashboard.run script view) = false.
Proof.
  intros userId view now1 now2 reply Hinput script. subst script.
  pose proof (handleSubmit_length userId view now1 now2 reply Hinput) as Hlen.
  split; [exact Hlen|]. split; [|split].
  - intros j Hj.
    assert (Hloading : Dashboard.isLoading
                         (Dashboard.run
                            (take j (Dashboard.handleSubmit userId view now1 now2 reply)) view)
                       = true).
    { destruct j as [|[|k]]; [lia| |].
      - rewrite handleSubmit_script by exact Hinput. cbn [app take].
        rewrite run_cons, commit_firstBatch. reflexivity.
      - change (S (S k)) with (2 + k).
        rewrite handleSubmit_progress by exact Hinput.
        destruct (decide (k <= length (chunksOf reply))); [reflexivity|].
        destruct (decide (k = S (length (chunksOf reply)))); [reflexivity|]. lia. }
    cbv zeta. split; [exact Hloading|]. unfold Dashboard.enabled. by rewrite Hloading.
  - intros k Hk. cbv zeta. rewrite handleSubmit_progress by exact Hinput.
    destruct (decide (k <= length (chunksOf reply))); [|lia]. by repeat split.
  - by rewrite handleSubmit_settles by exact Hinput.
Qed.

Lemma submit_in_progress_witness :
  Dashboard.currentStreamingMessage
    (Dashboard.run
       (take 3 (Dashboard.handleSubmit (Some "alice") twoChats 1717171718001%Z 1717171719000%Z
                  (Dashboard.FetchResponds true (Some redPlanetBody)))) twoChats)
  = "Red".
Proof.
  refine (proj2 (proj2 (proj1 (proj2 (proj2 (submit_in_progress (Some "alice") twoChats
            1717171718001%Z 1717171719000%Z
            (Dashboard.FetchResponds true (Some redPlanetBody)) _))) 1 _))).
  - vm_compute. discriminate.
  - vm_compute. lia.
Defined.

Lemma slice_last_suffix {A} (n : nat) (xs : list A) :
  exists earlier,
    xs = earlier ++ Js.slice_last n xs
    /\ length (Js.slice_last n xs) = Nat.min n (length xs).
Proof.
  unfold Js.slice_last. exists (take (length xs - n) xs). split.
  - by rewrite take_drop.
  - rewrite length_drop. lia.
Qed.

(** X13.  The generation request of a submit.  Let the input not be blank.
    Whatever the reply and whoever is signed in, the handler makes exactly
    one generation request.  Its prompt is the input as typed; its history
    is made of the last four of the messages shown before the submit, or
    of all of them when they are fewer, so the user's new turn is not in
    it; and it gives a tone, a goal or an audience exactly when the
    selector is not on None. *)
Theorem submit_makes_one_generation_request :
  forall (userId : option string) (view : Dashboard.State)
         (now1 now2 : Dashboard.Date) (reply : Dashboard.FetchResult),
    Js.trim (Dashboard.input view) <> "" ->
    let script := Dashboard.handleSubmit userId view now1 now2 reply in
    exists request,
      List.filter is_fetch (Dashboard.calls script) = [Dashboard.fetchGemini request]
      /\ GeminiRoute.prompt request = Some (Dashboard.input view)
      /\ (exists earlier window,
             Dashboard.messages view = earlier ++ window
             /\ length window = Nat.min 4 (length (Dashboard.messages view))
             /\ GeminiRoute.conversationHistory request
                = Some (List.map Dashboard.historyMessage window))
      /\ (GeminiRoute.tone request = None <-> Dashboard.tone view = Dashboard.Tone_None)
      /\ (GeminiRoute.goal request = None <-> Dashboard.goal view = Dashboard.Goal_None)
      /\ (GeminiRoute.audience request = None
          <-> Dashboard.audience view = Dashboard.Audience_None).
Proof.
  intros userId view now1 now2 reply Hinput script. subst script.
  exists (requestOf view). rewrite handleSubmit_calls by exact Hinput. split; [|split; [|split]].
  - rewrite !List.filter_app. unfold saveCall.
    destruct (savedChat userId view) as [[uid chat]|]; reflexivity.
  - reflexivity.
  - destruct (slice_last_suffix 4 (Dashboard.messages view)) as (earlier & Heq & Hlen).
    by exists earlier, (Js.slice_last 4 (Dashboard.messages view)).
  - cbn [requestOf GeminiRoute.tone GeminiRoute.goal GeminiRoute.audience].
    repeat split; intros H;
      first [ by destruct (Dashboard.tone view)
            | by destruct (Dashboard.goal view)
            | by destruct (Dashboard.audience view)
            | by rewrite H ].
Qed.

Lemma submit_makes_one_generation_request_witness :
  exists request,
    List.filter is_fetch
      (Dashboard.calls
         (Dashboard.handleSubmit None twoChats 1717171718001%Z 1717171719000%Z
            unauthorizedReply))
    = [Dashboard.fetchGemini request]
    /\ GeminiRoute.prompt request = Some "write a tweet about Mars".
Proof.
  destruct (submit_makes_one_generation_request None twoChats 1717171718001%Z 1717171719000%Z
              unauthorizedReply) as (request & Hcalls & Hprompt & _).
  - vm_compute. discriminate.
  - exists request. split; [exact Hcalls|exact Hprompt].
Defined.

Lemma replaceChat_ids chatId updatedChat chats :
  Dashboard.Chat.id updatedChat = chatId ->
  List.map Dashboard.Chat.id (replaceChat chatId updatedChat chats)
  = List.map Dashboard.Chat.id chats.
Proof.
  intros Hid. unfold replaceChat. rewrite List.map_map. apply List.map_ext. intros c.
  destruct (String.eqb (Dashboard.Chat.id c) chatId) eqn:E; [|reflexivity].
  apply String.eqb_eq in E. congruence.
Qed.

Lemma replaceChat_lookup_other chatId updatedChat chats (i : nat) chat :
  chats !! i = Some chat -> Dashboard.Chat.id chat <> chatId ->
  replaceChat chatId updatedChat chats !! i = Some chat.
Proof.
  intros Hi Hne. unfold replaceChat. rewrite map_fmap, list_lookup_fmap, Hi. cbn.
  destruct (String.eqb (Dashboard.Chat.id chat) chatId) eqn:E; [|reflexivity].
  by apply String.eqb_eq in E.
Qed.

(** X14.  What a submit leaves alone.  Let the input not be blank.
    Whatever the reply and whoever is signed in, the handler run to its
    end keeps the chats in number, order and ids, keeps every chat whose
    id is not the current one as it is and in its place, and keeps the
    current chat id and the three selectors. *)
Theorem submit_keeps_the_other_chats :
  forall (userId : option string) (view : Dashboard.State)
         (now1 now2 : Dashboard.Date) (reply : Dashboard.FetchResult),
    Js.trim (Dashboard.input view) <> "" ->
    let final := Dashboard.run (Dashboard.handleSubmit userId view now1 now2 reply) view in
    List.map Dashboard.Chat.id (Dashboard.chats final)
    = List.map Dashboard.Chat.id (Dashboard.chats view)
    /\ (forall (i : nat) (chat : Dashboard.Chat),
           Dashboard.chats view !! i = Some chat ->
           Dashboard.Chat.id chat <> Dashboard.currentChatId view ->
           Dashboard.chats final !! i = Some chat)
    /\ Dashboard.currentChatId final = Dashboard.currentChatId view
    /\ Dashboard.tone final = Dashboard.tone view
    /\ Dashboard.goal final = Dashboard.goal view
    /\ Dashboard.audience final = Dashboard.audience view.
Proof.
  intros userId view now1 now2 reply Hinput final. subst final.
  rewrite handleSubmit_settles by exact Hinput. unfold settled, chatsAfter.
  cbn [Dashboard.chats Dashboard.currentChatId Dashboard.tone Dashboard.goal Dashboard.audience].
  destruct (savedChat userId view) as [[uid chat]|] eqn:E; [|by repeat split].
  apply savedChat_Some in E as (_ & _ & Hid).
  split; [by apply replaceChat_ids|]. split; [|by repeat split].
  intros i c Hi Hne. by apply replaceChat_lookup_other.
Qed.

Lemma submit_keeps_the_other_chats_witness :
  Dashboard.chats
    (Dashboard.run
       (Dashboard.handleSubmit (Some "alice") twoChats 1717171718001%Z 1717171719000%Z
          failingMidStream) twoChats) !! 0
  = Some {| Dashboard.Chat.id := "1717171700000";
            Dashboard.Chat.messages :=
              [ {| Facade.role := Facade.user; Facade.content := "hello" |} ];
            Dashboard.Chat.createdAt := 1717171700000%Z;
            Dashboard.Chat.updatedAt := 1717171700500%Z |}.
Proof.
  refine (proj1 (proj2 (submit_keeps_the_other_chats (Some "alice") twoChats
                   1717171718001%Z 1717171719000%Z failingMidStream _)) 0 _ eq_refl _).
  - vm_compute. discriminate.
  - vm_compute. discriminate.
Defined.

(** X15.  The Enter key is not held back by the loading flag.  While a
    generation is under way the submit button does nothing; Enter in the
    prompt runs the submit handler all the same: with an input that is not
    blank it makes a further generation request and ends with the user's
    turn and an assistant's turn (the decoded text of the reply, or the
    apology) appended to the messages shown, and with the loading flag
    cleared. *)
Theorem enter_key_submits_while_loading :
  forall (env : Dashboard.Surroundings) (st : Dashboard.State),
    Dashboard.isLoading st = true ->
    Js.trim (Dashboard.input st) <> "" ->
    Dashboard.fire env Dashboard.SubmitButton st = st
    /\ Dashboard.fetchGemini (requestOf st)
       ∈ Dashboard.calls (Dashboard.handler env st Dashboard.PromptEnterKey)
    /\ (let st' := Dashboard.fire env Dashboard.PromptEnterKey st in
        Dashboard.messages st'
        = Dashboard.messages st
          ++ [userMessage st; assistantMessage (answerTo (Dashboard.reply env))]
        /\ Dashboard.isLoading st' = false).
Proof.
  intros env st Hloading Hinput. split; [|split].
  - unfold Dashboard.fire, Dashboard.enabled. by rewrite Hloading.
  - cbn [Dashboard.handler]. rewrite handleSubmit_calls by exact Hinput.
    rewrite !elem_of_app. right. left. apply list_elem_of_singleton. reflexivity.
  - cbv zeta. unfold Dashboard.fire. cbn [Dashboard.enabled Dashboard.handler].
    rewrite handleSubmit_settles by exact Hinput. by split.
Qed.

Lemma enter_key_submits_while_loading_witness :
  Dashboard.fire calmSurroundings Dashboard.SubmitButton
    (Dashboard.with_input "and one about Venus" awaitingFirstFragment)
  = Dashboard.with_input "and one about Venus" awaitingFirstFragment
  /\ Dashboard.isLoading
       (Dashboard.fire calmSurroundings Dashboard.PromptEnterKey
          (Dashboard.with_input "and one about Venus" awaitingFirstFragment)) = false.
Proof.
  assert (H : Js.trim (Dashboard.input
                         (Dashboard.with_input "and one about Venus" awaitingFirstFragment))
              <> "") by (vm_compute; discriminate).
  pose proof (enter_key_submits_while_loading calmSurroundings
                (Dashboard.with_input "and one about Venus" awaitingFirstFragment)
                eq_refl H) as (Hbutton & _ & _ & Hkey).
  split; [exact Hbutton|exact Hkey].
Defined.

Lemma findChat_app chatId chats more :
  Dashboard.findChat chatId (chats ++ more)
  = match Dashboard.findChat chatId chats with
    | Some chat => Some chat
    | None => Dashboard.findChat chatId more
    end.
Proof.
  unfold Dashboard.findChat. induction chats as [|c chats IH]; [reflexivity|].
  cbn [app find]. by destruct (String.eqb (Dashboard.Chat.id c) chatId).
Qed.

(** X16.  A new chat.  The New Chat button empties the input and the
    streaming message.  When no chat has the id the clock gives, the
    messages shown are empty; when one has, the messages shown are those
    of the first such chat.  With somebody signed in the handler makes one
    call, the save of the new chat, without messages and with the two
    dates as ISO strings, and the chat loaded afterwards is this one; with
    nobody signed in it makes no call. *)
Theorem new_chat_shown_and_saved :
  forall (env : Dashboard.Surroundings) (st : Dashboard.State),
    let st' := Dashboard.fire env Dashboard.NewChatButton st in
    let chatId := pretty (Dashboard.now env) in
    let record :=
      {| Facade.id := chatId; Facade.messages := [];
         Facade.createdAt := Dashboard.toISOString (Dashboard.date1 env);
         Facade.updatedAt := Dashboard.toISOString (Dashboard.date2 env) |} in
    Dashboard.input st' = ""
    /\ Dashboard.currentStreamingMessage st' = ""
    /\ (Dashboard.findChat chatId (Dashboard.chats st) = None -> Dashboard.messages st' = [])
    /\ (forall chat,
           Dashboard.findChat chatId (Dashboard.chats st) = Some chat ->
           Dashboard.messages st' = Dashboard.Chat.messages chat)
    /\ (forall uid,
           Dashboard.signedIn (Dashboard.userId env) = Some uid ->
           Dashboard.calls (Dashboard.handler env st Dashboard.NewChatButton)
           = [Dashboard.saveChatToS3 uid chatId record]
           /\ forall (user : ChatRoute.User) (b : S3.Bucket),
                (Facade.getChatFromS3 uid chatId
                   (performAll (Dashboard.handler env st Dashboard.NewChatButton)
                      (signedInWorld user b))).1
                = Some (Facade.ChatData_js record))
    /\ (Dashboard.signedIn (Dashboard.userId env) = None ->
        Dashboard.calls (Dashboard.handler env st Dashboard.NewChatButton) = []).
Proof.
  intros env st st' chatId record. subst st' chatId record.
  unfold Dashboard.fire. cbn [Dashboard.enabled Dashboard.handler Dashboard.run fold_left].
  rewrite commit_createNewChat. unfold Dashboard.showCurrentChat.
  cbn [Dashboard.chats Dashboard.currentChatId]. rewrite findChat_app.
  assert (Hnew : forall chat,
             Dashboard.findChat (Dashboard.Chat.id chat) [chat] = Some chat).
  { intros chat. unfold Dashboard.findChat. cbn. by rewrite String.eqb_refl. }
  pose proof (Hnew {| Dashboard.Chat.id := pretty (Dashboard.now env);
                      Dashboard.Chat.messages := [];
                      Dashboard.Chat.createdAt := Dashboard.date1 env;
                      Dashboard.Chat.updatedAt := Dashboard.date2 env |}) as Hfresh.
  cbn [Dashboard.Chat.id] in Hfresh. rewrite Hfresh. clear Hnew Hfresh.
  assert (Hcalls : forall uid,
             Dashboard.signedIn (Dashboard.userId env) = Some uid ->
             Dashboard.calls
               [Dashboard.createNewChat (Dashboard.userId env) (Dashboard.now env)
                  (Dashboard.date1 env) (Dashboard.date2 env)]
             = [Dashboard.saveChatToS3 uid (pretty (Dashboard.now env))
                  {| Facade.id := pretty (Dashboard.now env); Facade.messages := [];
                     Facade.createdAt := Dashboard.toISOString (Dashboard.date1 env);
                     Facade.updatedAt := Dashboard.toISOString (Dashboard.date2 env) |}]).
  { intros uid Hu. unfold Dashboard.calls, Dashboard.createNewChat. by rewrite Hu. }
  split; [|split; [|split; [|split; [|split]]]].
  - by destruct (Dashboard.findChat _ (Dashboard.chats st)).
  - by destruct (Dashboard.findChat _ (Dashboard.chats st)).
  - by intros ->.
  - by intros chat ->.
  - intros uid Hu. split; [by apply Hcalls|]. intros user b.
    unfold performAll. rewrite (Hcalls uid Hu). cbn [foldl perform].
    rewrite saveChatToS3_returns. cbn [snd].
    by rewrite getChatFromS3_loaded, lookup_insert_eq, loaded_stringify.
  - intros Hu. unfold Dashboard.calls, Dashboard.createNewChat. by rewrite Hu.
Qed.

Lemma new_chat_shown_and_saved_witness :
  Dashboard.messages
    (Dashboard.fire
       {| Dashboard.userId := Some "alice"; Dashboard.now := 1717171700000%Z;
          Dashboard.date1 := 1717171700000%Z; Dashboard.date2 := 1717171700000%Z;
          Dashboard.reply := Dashboard.FetchRejects |}
       Dashboard.NewChatButton twoChats)
  = [ {| Facade.role := Facade.user; Facade.content := "hello" |} ].
Proof.
  exact (proj1 (proj2 (proj2 (proj2
           (new_chat_shown_and_saved
              {| Dashboard.userId := Some "alice"; Dashboard.now := 1717171700000%Z;
                 Dashboard.date1 := 1717171700000%Z; Dashboard.date2 := 1717171700000%Z;
                 Dashboard.reply := Dashboard.FetchRejects |} twoChats))))
           {| Dashboard.Chat.id := "1717171700000";
              Dashboard.Chat.messages :=
                [ {| Facade.role := Facade.user; Facade.content := "hello" |} ];
              Dashboard.Chat.createdAt := 1717171700000%Z;
              Dashboard.Chat.updatedAt := 1717171700500%Z |} eq_refl).
Defined.

Lemma finalText_app xs ys : finalText (xs ++ ys) = finalText xs +:+ finalText ys.
Proof.
  unfold finalText. induction xs as [|x xs IH]; cbn [app foldr].
  - by rewrite app_empty_l.
  - rewrite IH. change (String.append ?a ?b) with (a +:+ b). by rewrite app_assoc_s.
Qed.

Lemma readAll_drop acc values k :
  drop k (Dashboard.readAll acc values).1
  = (Dashboard.readAll (acc +:+ finalText (List.map Dashboard.decode (take k values)))
       (drop k values)).1.
Proof.
  revert acc k. induction values as [|v values IH]; intros acc [|k];
    cbn [take drop List.map finalText foldr]; rewrite ?app_empty_r; try reflexivity.
  cbn [Dashboard.readAll]. specialize (IH (acc +:+ Dashboard.decode v) k).
  destruct (Dashboard.readAll _ values) as [updates final]. cbn [fst] in *. cbn [drop].
  rewrite IH. fold (finalText (List.map Dashboard.decode (take k values))).
  by rewrite app_assoc_s.
Qed.

Lemma findChat_existsb chatId chats chat :
  Dashboard.findChat chatId chats = Some chat ->
  existsb (fun c => String.eqb (Dashboard.Chat.id c) chatId) chats = true.
Proof.
  unfold Dashboard.findChat. intros H. apply find_some in H as [Hin Heq].
  apply existsb_exists. by exists chat.
Qed.

Lemma findChat_chatsAfter_other userId view messages now other :
  other <> Dashboard.currentChatId view ->
  Dashboard.findChat other (chatsAfter userId view messages now)
  = Dashboard.findChat other (Dashboard.chats view).
Proof.
  intros Hne. unfold chatsAfter.
  destruct (savedChat userId view) as [[uid chat]|] eqn:E; [|reflexivity].
  apply savedChat_Some in E as (_ & _ & Hid). by apply findChat_replaceChat_other.
Qed.

(** The page when the user has switched to another chat while a submit
    was under way, and the submit has run to its end. *)
Lemma handleSubmit_switched env view other otherChat k :
  Js.trim (Dashboard.input view) <> "" ->
  k <= length (chunksOf (Dashboard.reply env)) ->
  other <> Dashboard.currentChatId view ->
  Dashboard.findChat other (Dashboard.chats view) = Some otherChat ->
  let script := Dashboard.handler env view Dashboard.SubmitButton in
  Dashboard.run (drop (2 + k) script)
    (Dashboard.fire env (Dashboard.ChatItem other) (Dashboard.run (take (2 + k) script) view))
  = {| Dashboard.chats :=
         chatsAfter (Dashboard.userId env) view (finalMessages view (Dashboard.reply env))
           (Dashboard.date2 env);
       Dashboard.currentChatId := other;
       Dashboard.messages :=
         match savedChat (Dashboard.userId env) view with
         | Some _ => Dashboard.Chat.messages otherChat
         | None => finalMessages view (Dashboard.reply env)
         end;
       Dashboard.input := "";
       Dashboard.isLoading := false;
       Dashboard.tone := Dashboard.tone view;
       Dashboard.goal := Dashboard.goal view;
       Dashboard.audience := Dashboard.audience view;
       Dashboard.currentStreamingMessage :=
         if generationSucceeds (Dashboard.reply env) then ""
         else receivedText (Dashboard.reply env) |}.
Proof.
  intros Hinput Hk Hne Hother script. subst script. cbn [Dashboard.handler].
  rewrite handleSubmit_progress by exact Hinput.
  destruct (decide (k <= length (chunksOf (Dashboard.reply env)))); [|lia].
  set (streamed := finalText (List.map Dashboard.decode (take k (chunksOf (Dashboard.reply env))))).
  assert (Hfind : forall messages now,
             Dashboard.findChat other
               (chatsAfter (Dashboard.userId env) view messages now) = Some otherChat).
  { intros messages now. by rewrite findChat_chatsAfter_other. }
  (* the switch *)
  assert (Hswitch :
            Dashboard.fire env (Dashboard.ChatItem other)
              (inProgress (Dashboard.userId env) view (Dashboard.date1 env) streamed)
            = Dashboard.with_messages (Dashboard.Chat.messages otherChat)
                (Dashboard.with_currentChatId other
                   (inProgress (Dashboard.userId env) view (Dashboard.date1 env) streamed))).
  { unfold Dashboard.fire. cbn [Dashboard.enabled inProgress Dashboard.chats].
    rewrite (findChat_existsb _ _ _ (Hfind _ _)).
    cbn [Dashboard.handler Dashboard.run fold_left]. unfold Dashboard.commit.
    cbn [existsb Dashboard.sets_chats fold_left Dashboard.apply orb].
    destruct (String.eqb _ _) eqn:E.
    - apply String.eqb_eq in E. cbn in E. congruence.
    - cbn [negb]. apply showCurrentChat_found. apply Hfind. }
  rewrite Hswitch. clear Hswitch.
  (* the rest of the script *)
  rewrite handleSubmit_script by exact Hinput.
  pose proof (readAll_length "" (chunksOf (Dashboard.reply env))) as Hlen.
  cbn [app Nat.add drop]. rewrite drop_app_le by lia.
  rewrite readAll_drop, run_app, run_readAll by (rewrite app_empty_l; reflexivity).
  rewrite app_empty_l.
  assert (Htext : streamed +:+ finalText
                                 (List.map Dashboard.decode
                                    (drop k (chunksOf (Dashboard.reply env))))
                  = receivedText (Dashboard.reply env)).
  { unfold streamed, receivedText. rewrite <- finalText_app, <- List.map_app.
    by rewrite take_drop. }
  fold streamed. rewrite Htext. rewrite !run_cons. cbn [Dashboard.run fold_left].
  unfold answerBatch.
  rewrite commit_save by (destruct (generationSucceeds (Dashboard.reply env)); repeat constructor).
  rewrite commit_setIsLoading.
  destruct (savedChat (Dashboard.userId env) view) as [[uid chat]|] eqn:E.
  - pose proof E as E'. apply savedChat_Some in E' as (_ & _ & Hid).
    assert (Hchats :
              replaceChat (Dashboard.currentChatId view)
                (chatWith chat (finalMessages view (Dashboard.reply env)) (Dashboard.date2 env))
                (chatsAfter (Dashboard.userId env) view
                   (Dashboard.messages view ++ [userMessage view]) (Dashboard.date1 env))
              = chatsAfter (Dashboard.userId env) view
                  (finalMessages view (Dashboard.reply env)) (Dashboard.date2 env)).
    { unfold chatsAfter. rewrite E. by apply replaceChat_twice. }
    destruct (generationSucceeds (Dashboard.reply env)); cbn [fold_left];
      (rewrite (showCurrentChat_found _ otherChat);
       [ unfold Dashboard.with_chats, inProgress;
         cbn [Dashboard.chats Dashboard.apply Dashboard.with_messages
              Dashboard.with_currentStreamingMessage Dashboard.with_currentChatId
              Dashboard.with_isLoading Dashboard.currentChatId Dashboard.messages
              Dashboard.input Dashboard.isLoading Dashboard.tone Dashboard.goal
              Dashboard.audience Dashboard.currentStreamingMessage];
         by rewrite Hchats
       | unfold Dashboard.with_chats, inProgress;
         cbn [Dashboard.chats Dashboard.apply Dashboard.with_messages
              Dashboard.with_currentStreamingMessage Dashboard.with_currentChatId
              Dashboard.with_isLoading Dashboard.currentChatId Dashboard.messages
              Dashboard.input Dashboard.isLoading Dashboard.tone Dashboard.goal
              Dashboard.audience Dashboard.currentStreamingMessage];
         rewrite Hchats; apply Hfind ]).
  - unfold inProgress, chatsAfter. rewrite E.
    by destruct (generationSucceeds (Dashboard.reply env)).
Qed.

(** X17.  Switching chats while a generation is under way.  Let the input
    not be blank, and let the user click on another chat once the request
    is made and [k] chunks are read.  When the handler has run to its end,
    the chat switched to is still the current one and is as it was, the
    loading flag is cleared and the chats are what they would be without
    the switch.  With somebody signed in and the chat submitted from among
    the chats, the answer goes to that chat and the page shows the
    messages of the chat switched to.  Otherwise no chat gets the answer,
    and the page shows the turns of the submit although the chat switched
    to is the current one. *)
Theorem answer_lands_in_the_submitting_chat :
  forall (env : Dashboard.Surroundings) (view : Dashboard.State)
         (other : string) (otherChat : Dashboard.Chat) (k : nat),
    Js.trim (Dashboard.input view) <> "" ->
    k <= length (chunksOf (Dashboard.reply env)) ->
    other <> Dashboard.currentChatId view ->
    Dashboard.findChat other (Dashboard.chats view) = Some otherChat ->
    let script := Dashboard.handler env view Dashboard.SubmitButton in
    let final :=
      Dashboard.run (drop (2 + k) script)
        (Dashboard.fire env (Dashboard.ChatItem other)
           (Dashboard.run (take (2 + k) script) view)) in
    let turns :=
      Dashboard.messages view
      ++ [userMessage view; assistantMessage (answerTo (Dashboard.reply env))] in
    Dashboard.currentChatId final = other
    /\ Dashboard.isLoading final = false
    /\ Dashboard.chats final = Dashboard.chats (Dashboard.run script view)
    /\ Dashboard.findChat other (Dashboard.chats final) = Some otherChat
    /\ (forall (uid : string) (chat : Dashboard.Chat),
          Dashboard.signedIn (Dashboard.userId env) = Some uid ->
          Dashboard.findChat (Dashboard.currentChatId view) (Dashboard.chats view) = Some chat ->
          Dashboard.messages final = Dashboard.Chat.messages otherChat
          /\ Dashboard.findChat (Dashboard.currentChatId view) (Dashboard.chats final)
             = Some (chatWith chat turns (Dashboard.date2 env)))
    /\ (Dashboard.signedIn (Dashboard.userId env) = None
        \/ Dashboard.findChat (Dashboard.currentChatId view) (Dashboard.chats view) = None ->
        Dashboard.messages final = turns
        /\ Dashboard.chats final = Dashboard.chats view).
Proof.
  intros env view other otherChat k Hinput Hk Hne Hother script final turns.
  subst final script turns.
  rewrite (handleSubmit_switched env view other otherChat k Hinput Hk Hne Hother).
  cbn [Dashboard.handler]. rewrite handleSubmit_settles by exact Hinput.
  cbn [Dashboard.currentChatId Dashboard.isLoading Dashboard.chats Dashboard.messages settled].
  fold (finalMessages view (Dashboard.reply env)).
  split; [reflexivity|]. split; [reflexivity|]. split; [reflexivity|].
  split; [by rewrite findChat_chatsAfter_other|]. split.
  - intros uid chat Hu Hc. unfold chatsAfter. rewrite (savedChat_found _ _ _ _ Hu Hc).
    split; [reflexivity|].
    apply (findChat_replaceChat _ _ chat); [exact Hc|]. by apply findChat_id in Hc.
  - intros H. unfold chatsAfter. by rewrite (savedChat_skipped _ _ H).
Qed.

Lemma answer_lands_in_the_submitting_chat_witness :
  let script := Dashboard.handler calmSurroundings twoChats Dashboard.SubmitButton in
  let final :=
    Dashboard.run (drop 3 script)
      (Dashboard.fire calmSurroundings (Dashboard.ChatItem "1717171700000")
         (Dashboard.run (take 3 script) twoChats)) in
  Dashboard.currentChatId final = "1717171700000"
  /\ Dashboard.messages final
     = [ {| Facade.role := Facade.user; Facade.content := "hello" |} ]
  /\ (Dashboard.Chat.messages <$> Dashboard.findChat "1717171717171" (Dashboard.chats final))
     = Some [ {| Facade.role := Facade.user; Facade.content := "write a tweet about Mars" |};
              {| Facade.role := Facade.assistant; Facade.content := "Red planet" |} ].
Proof.
  assert (Hinput : Js.trim (Dashboard.input twoChats) <> "") by (vm_compute; discriminate).
  assert (Hk : 1 <= length (chunksOf (Dashboard.reply calmSurroundings))) by (vm_compute; lia).
  assert (Hne : "1717171700000" <> Dashboard.currentChatId twoChats) by discriminate.
  pose proof (answer_lands_in_the_submitting_chat calmSurroundings twoChats "1717171700000"
                {| Dashboard.Chat.id := "1717171700000";
                   Dashboard.Chat.messages :=
                     [ {| Facade.role := Facade.user; Facade.content := "hello" |} ];
                   Dashboard.Chat.createdAt := 1717171700000%Z;
                   Dashboard.Chat.updatedAt := 1717171700500%Z |}
                1 Hinput Hk Hne eq_refl) as (Hcur & _ & _ & _ & Hsaved & _).
  destruct (Hsaved "alice" marsChat eq_refl eq_refl) as [Hshown Hchat].
  cbv zeta. split; [exact Hcur|]. split; [exact Hshown|].
  exact (f_equal (fmap Dashboard.Chat.messages) Hchat).
Defined.

Lemma trim_empty : Js.trim "" = "".
Proof. reflexivity. Qed.

(** X18.  From the provider to the chat.  Let somebody be signed in and
    the input not be blank.  The generation endpoint answers the request
    of the submit with a stream, and for every body a reader of that
    stream can see, the chunks arriving as they were enqueued, the handler
    ends with the earlier messages, the user's turn and an assistant's
    turn: when the provider came to the end, what [TextDecoder] makes of
    the bytes of each fragment the provider yielded, joined in order,
    which is the text of all the fragments when the decoder gives each of
    them back; and the apology when the call, the stream or a chunk
    failed. *)
Theorem generated_text_reaches_the_chat :
  forall (session : option ChatRoute.User) (userId : option string) (view : Dashboard.State)
         (now1 now2 : Dashboard.Date) (model : GeminiRoute.Provider),
    Js.trim (Dashboard.input view) <> "" ->
    is_Some session ->
    exists c,
      GeminiRoute.POST session (requestOf view) model = GeminiRoute.ReplyStream c
      /\ forall body,
           observes c body ->
           let final :=
             Dashboard.run
               (Dashboard.handleSubmit userId view now1 now2
                  (Dashboard.FetchResponds true (Some body))) view in
           Dashboard.messages final
           = Dashboard.messages view
             ++ [userMessage view;
                 assistantMessage
                   match model (GeminiRoute.compose (requestOf view)) with
                   | Js.Returned stream =>
                       match failureOf stream with
                       | None =>
                           finalText (List.map Js.TextDecoder_decode (leadingFragments stream))
                       | Some _ => Dashboard.apology
                       end
                   | Js.Thrown _ => Dashboard.apology
                   end]
           /\ (forall fragments,
                  model (GeminiRoute.compose (requestOf view))
                  = Js.Returned (generationOf fragments) ->
                  Forall decodesToItself fragments ->
                  Dashboard.messages final
                  = Dashboard.messages view
                    ++ [userMessage view; assistantMessage (finalText fragments)]).
Proof.
  intros session userId view now1 now2 model Hinput [user ->].
  exists (relayed (model (GeminiRoute.compose (requestOf view)))). split.
  - unfold GeminiRoute.POST. cbn [requestOf GeminiRoute.prompt GeminiRoute.given].
    destruct (Dashboard.input view) as [|c0 rest] eqn:E; [by rewrite trim_empty in Hinput|].
    cbn [Js.truthy negb]. by rewrite start_run.
  - intros body Hobs. cbv zeta. rewrite handleSubmit_settles by exact Hinput.
    unfold settled, finalMessages. cbn [Dashboard.messages].
    assert (Hanswer :
              answerTo (Dashboard.FetchResponds true (Some body))
              = match model (GeminiRoute.compose (requestOf view)) with
                | Js.Returned stream =>
                    match failureOf stream with
                    | None =>
                        finalText (List.map Js.TextDecoder_decode (leadingFragments stream))
                    | Some _ => Dashboard.apology
                    end
                | Js.Thrown _ => Dashboard.apology
                end).
    { unfold observes, relayed in Hobs.
      destruct (model (GeminiRoute.compose (requestOf view))) as [stream|e];
        cbn [GeminiRoute.state GeminiRoute.enqueued] in Hobs.
      + destruct (failureOf stream) as [e|].
        * destruct Hobs as [_ Hend].
          by apply (generationFails_not_succeeds (Dashboard.FetchResponds true (Some body))).
        * destruct Hobs as [Hchunks Hend].
          by rewrite (proj2 (generationSucceeds_done body Hend)), Hchunks,
            decode_encode_fragments.
      + destruct Hobs as [_ Hend].
        by apply (generationFails_not_succeeds (Dashboard.FetchResponds true (Some body))). }
    rewrite Hanswer. split; [reflexivity|].
    intros fragments -> Hwell. unfold generationOf.
    by rewrite failureOf_fragmentsThen, leadingFragments_fragmentsThen, app_nil_r,
      decoded_fragments.
Qed.

Lemma generated_text_reaches_the_chat_witness :
  exists c,
    GeminiRoute.POST (Some alice) (requestOf twoChats) redPlanet = GeminiRoute.ReplyStream c
    /\ forall body,
         observes c body ->
         Dashboard.messages
           (Dashboard.run
              (Dashboard.handleSubmit (Some "alice") twoChats 1717171718001%Z 1717171719000%Z
                 (Dashboard.FetchResponds true (Some body))) twoChats)
         = [ {| Facade.role := Facade.user; Facade.content := "write a tweet about Mars" |};
             {| Facade.role := Facade.assistant; Facade.content := "Red planet vibes" |} ].
Proof.
  assert (Hinput : Js.trim (Dashboard.input twoChats) <> "") by (vm_compute; discriminate).
  destruct (generated_text_reaches_the_chat (Some alice) (Some "alice") twoChats
              1717171718001%Z 1717171719000%Z redPlanet Hinput (ex_intro _ alice eq_refl))
    as (c & Hpost & Hbody).
  exists c. split; [exact Hpost|].
  intros body Hobs.
  refine (proj2 (Hbody body Hobs) ["Red"; " planet"; " vibes"] eq_refl _).
  repeat constructor.
Defined.

Lemma slice_last_nil {A} (n : nat) (xs : list A) :
  Js.slice_last (S n) xs = [] -> xs = [].
Proof.
  intros H. destruct (slice_last_suffix (S n) xs) as (earlier & _ & Hlen).
  rewrite H in Hlen. destruct xs; [reflexivity|]. cbn in Hlen. lia.
Qed.

(** X19.  The instruction the provider gets for a submit.  The request
    of a submit, composed by the generation endpoint, is the fixed
    directive and the heading, then one line for each selector that is
    not on None, then, when there were messages before the submit, the
    context heading and the last four of them at most, each as a line
    labelled User or Assistant and in their order, then the input as the
    user's request and the closing instruction. *)
Theorem prompt_of_a_submit :
  forall view : Dashboard.State,
    GeminiRoute.compose (requestOf view)
    = heading
      +:+ finalText (selectorLine "Tone" (Dashboard.toneField (Dashboard.tone view))
                     ++ selectorLine "Goal" (Dashboard.goalField (Dashboard.goal view))
                     ++ selectorLine "Target Audience"
                          (Dashboard.audienceField (Dashboard.audience view)))
      +:+ match Dashboard.messages view with
          | [] => ""
          | _ :: _ =>
              Js.nl +:+ "Previous conversation context:" +:+ Js.nl
              +:+ finalText (List.map messageLine (Js.slice_last 4 (Dashboard.messages view)))
          end
      +:+ Js.nl +:+ "User's request: " +:+ Dashboard.input view +:+ Js.nl +:+ Js.nl
      +:+ "Generate a tweet that matches these specifications.".
Proof.
  intros view. rewrite compose_blocks.
  assert (Hlines : constraintLines (requestOf view)
                   = selectorLine "Tone" (Dashboard.toneField (Dashboard.tone view))
                     ++ selectorLine "Goal" (Dashboard.goalField (Dashboard.goal view))
                     ++ selectorLine "Target Audience"
                          (Dashboard.audienceField (Dashboard.audience view))).
  { unfold constraintLines. cbn [requestOf GeminiRoute.tone GeminiRoute.goal GeminiRoute.audience].
    by destruct (Dashboard.tone view), (Dashboard.goal view), (Dashboard.audience view). }
  assert (Hhistory : historyBlock (requestOf view)
                     = match Dashboard.messages view with
                       | [] => ""
                       | _ :: _ =>
                           Js.nl +:+ "Previous conversation context:" +:+ Js.nl
                           +:+ finalText (List.map messageLine
                                            (Js.slice_last 4 (Dashboard.messages view)))
                       end).
  { unfold historyBlock. cbn [requestOf GeminiRoute.conversationHistory].
    destruct (Js.slice_last 4 (Dashboard.messages view)) as [|m window] eqn:E.
    - apply slice_last_nil in E. by rewrite E.
    - destruct (Dashboard.messages view) as [|m0 ms]; [discriminate|].
      assert (Hmap : forall l,
                 List.map turnLine (List.map Dashboard.historyMessage l)
                 = List.map messageLine l).
      { intros l. rewrite List.map_map. apply List.map_ext. intros x.
        unfold turnLine, messageLine, Dashboard.historyMessage.
        cbn [GeminiRoute.role GeminiRoute.content]. by destruct (Facade.role x). }
      rewrite <- Hmap. reflexivity. }
  rewrite Hlines, Hhistory. unfold requestBlock.
  cbn [requestOf GeminiRoute.prompt GeminiRoute.text]. reflexivity.
Qed.
